(** * healthcare_pipeline: a shallow embedding of [dags/healthcare.py]

    The DAG has five tasks: [fetch_patients], [fetch_appointments],
    [merge_csvs], [load_csv_to_pg] and [cleanup_folder] (the plotting task
    draws charts and is not modelled).  Every task is a Python function
    that reads and writes files, talks to a PostgreSQL connection and may
    raise.  The embedding keeps that shape: a task is a computation in a
    state-and-exception monad over a [world] holding the file system, the
    database server, the open connection and the random source. *)

From Stdlib Require Import ZArith Lia Ascii String.
From stdpp Require Import base option list strings gmap pretty.

Open Scope string_scope.
Open Scope list_scope.

(** ** Python values, dictionaries and exceptions *)

(** The values that occur as dictionary values in this program.  A float is
    carried by its decimal text: the only float is [consultation_fee], which
    is drawn, rounded and written out, and never computed with. *)
Inductive pyval :=
| PNone
| PStr (s : string)
| PInt (n : Z)
| PFloat (text : string).

#[global] Instance pyval_eq_dec : EqDecision pyval.
Proof. solve_decision. Defined.

(** [str(v)], as used by f-strings and by the csv writer. *)
Definition py_str (v : pyval) : string :=
  match v with
  | PNone => "None"
  | PStr s => s
  | PInt n => pretty n
  | PFloat t => t
  end.

(** Truthiness, as used by [x or None].  The values it is asked about come
    from a [DictReader] and are texts or [None]; a float carried by its text
    is taken as non-zero, as the fee (between 50 and 300) is. *)
Definition py_truthy (v : pyval) : bool :=
  match v with
  | PNone => false
  | PStr s => negb (String.eqb s "")
  | PInt n => negb (n =? 0)%Z
  | PFloat _ => true
  end.

(** A [dict] with string keys keeps insertion order; assigning to a key
    that is present replaces the value in place. *)
Definition dict := list (string * pyval).

Fixpoint dict_set (k : string) (v : pyval) (d : dict) : dict :=
  match d with
  | [] => [(k, v)]
  | (k', v') :: d' =>
      if String.eqb k k' then (k, v) :: d' else (k', v') :: dict_set k v d'
  end.

(** A dict display [{k1: v1, ..., kn: vn}] and [dict(pairs)]. *)
Definition dict_of (items : list (string * pyval)) : dict :=
  foldl (λ d kv, dict_set kv.1 kv.2 d) [] items.

Fixpoint dict_find (k : string) (d : dict) : option pyval :=
  match d with
  | [] => None
  | (k', v) :: d' => if String.eqb k k' then Some v else dict_find k d'
  end.

(** [d.get(k, default)] *)
Definition dict_get (k : string) (restval : pyval) (d : dict) : pyval :=
  default restval (dict_find k d).

(** [d.keys()] *)
Definition keys (d : dict) : list string := d.*1.

(** The exceptions this program can meet.  [DatabaseError] is
    [psycopg2.Error], the class named by the [except] clause of the loader;
    [OSError] stands for the file-system errors, [OtherError] for anything
    raised by a collaborator that is not a [psycopg2.Error] (for instance
    Airflow's error for an unknown connection id). *)
Inductive exn :=
| IndexError
| KeyError (key : string)
| ValueError
| TypeError
| OSError
| DatabaseError
| OtherError (name : string).

#[global] Instance exn_eq_dec : EqDecision exn.
Proof. solve_decision. Defined.

(** The class name of an exception, as a traceback prints it. *)
Definition exn_name (e : exn) : string :=
  match e with
  | IndexError => "IndexError"
  | KeyError _ => "KeyError"
  | ValueError => "ValueError"
  | TypeError => "TypeError"
  | OSError => "OSError"
  | DatabaseError => "DatabaseError"
  | OtherError n => n
  end.

(** [isinstance(e, DatabaseError)] *)
Definition is_DatabaseError (e : exn) : bool :=
  match e with DatabaseError => true | _ => false end.

Inductive result (A : Type) :=
| Returned (a : A)
| Raised (e : exn).
Arguments Returned {A} a.
Arguments Raised {A} e.

(** [d[k]] *)
Definition dict_item (k : string) (d : dict) : result pyval :=
  match dict_find k d with
  | Some v => Returned v
  | None => Raised (KeyError k)
  end.

(** [l[0]] *)
Definition first_item {A} (l : list A) : result A :=
  match l with
  | x :: _ => Returned x
  | [] => Raised IndexError
  end.

(** ** The world the tasks run in *)

(** A csv file is held as the sequence of records that [csv.reader] yields
    from it and [csv.writer] puts into it (quoting and line ends are the csv
    module's business); a blank line is the empty record.  The tasks write
    with [newline=""] and read in text mode, where a carriage return
    inside a cell comes back as a line feed: the records are taken as the
    reader sees them, and a cell that is written is taken to hold no
    carriage return. *)
Definition csv_record := list string.

Inductive node :=
| File (content : list csv_record)
| Dir.

(** A path is a directory and a name in it: [os.path.join(folder, name)]. *)
Definition path : Type := string * string.
Definition path_join (folder name : string) : path := (folder, name).

(** PostgreSQL, as far as the loader sees it: schemas, and tables whose
    columns are all [TEXT]; a cell is [NULL] or a text. *)
Record relation := Relation {
  columns : list string;
  body : list (list (option string))
}.

Record database := Database {
  schemas : gset string;
  tables : gmap (string * string) relation
}.

(** The four statements the loader builds with f-strings. *)
Inductive stmt :=
| CreateSchemaIfNotExists (schema : string)
| CreateTableIfNotExists (schema name : string) (cols : list string)
| DeleteFrom (schema name : string)
| InsertInto (schema name : string) (cols : list string)
             (params : list (option string)).

#[global] Instance stmt_eq_dec : EqDecision stmt.
Proof. solve_decision. Defined.

(** [VALUES (%s, ..., %s)] bound to [params], laid out along the table's
    columns; a column that is not listed gets [NULL]. *)
Definition bound_row (cols : list string) (params : list (option string))
    (tcols : list string) : list (option string) :=
  (λ c, mjoin (list_to_map (M := gmap string (option string))
                 (zip cols params) !! c)) <$> tcols.

(** *** Names in the text of a statement

    The loader pastes the table name and the names of the header into its
    statements as they are, without quotes.  PostgreSQL reads such a text
    as a name when it is an identifier: a letter or an underscore first
    (a byte of a character beyond ASCII counts as a letter), then letters,
    digits, underscores and dollar signs.  It folds the upper case letters
    of ASCII to lower case and keeps the first 63 bytes, cut at a character
    boundary (the encoding is taken to be UTF-8, as the files are).  A
    reserved key word cannot name a schema or a column, and a column
    cannot have the name of a system column.

    A text that is more than one bare name (a quoted identifier, a name
    with blanks or a comment around it) is outside this model, which has
    the server refuse it; the statements below that speak of accepted
    names take them to be bare names. *)

Definition code (c : ascii) : nat := Ascii.nat_of_ascii c.

Definition is_upper (c : ascii) : bool := Nat.leb 65 (code c) && Nat.leb (code c) 90.
Definition is_lower (c : ascii) : bool := Nat.leb 97 (code c) && Nat.leb (code c) 122.
Definition is_digit (c : ascii) : bool := Nat.leb 48 (code c) && Nat.leb (code c) 57.

Definition ident_start (c : ascii) : bool :=
  is_upper c || is_lower c || Nat.eqb (code c) 95 || Nat.leb 128 (code c).

Definition ident_cont (c : ascii) : bool :=
  ident_start c || is_digit c || Nat.eqb (code c) 36.

Definition bare_identifier (s : string) : bool :=
  match s with
  | EmptyString => false
  | String c s' => ident_start c && forallb ident_cont (String.list_ascii_of_string s')
  end.

Definition downcase (c : ascii) : ascii :=
  if is_upper c then Ascii.ascii_of_nat (code c + 32) else c.

Fixpoint downcased (s : string) : string :=
  match s with
  | EmptyString => EmptyString
  | String c s' => String (downcase c) (downcased s')
  end.

(** The number of bytes of the UTF-8 character that starts with [c]. *)
Definition utf8_width (c : ascii) : nat :=
  if Nat.ltb (code c) 192 then 1
  else if Nat.ltb (code c) 224 then 2
  else if Nat.ltb (code c) 240 then 3
  else if Nat.ltb (code c) 248 then 4
  else 1.

(** The longest prefix of whole characters within [room] bytes;
    [pending] bytes of the current character are still to come. *)
Fixpoint clip (room pending : nat) (s : string) : string :=
  match s with
  | EmptyString => EmptyString
  | String c s' =>
      match pending with
      | S p => String c (clip room p s')
      | O =>
          if Nat.leb (utf8_width c) room
          then String c (clip (room - utf8_width c) (utf8_width c - 1) s')
          else EmptyString
      end
  end.

(** The name the server keeps for the identifier [s]. *)
Definition folded (s : string) : string := clip 63 0 (downcased s).

(** The key words PostgreSQL 16 reserves, those that can still name a
    function or a type included: none of them can name a column. *)
Definition reserved_words : list string :=
  ["all"; "analyse"; "analyze"; "and"; "any"; "array"; "as"; "asc";
   "asymmetric"; "authorization"; "binary"; "both"; "case"; "cast"; "check";
   "collate"; "collation"; "column"; "concurrently"; "constraint"; "create";
   "cross"; "current_catalog"; "current_date"; "current_role";
   "current_schema"; "current_time"; "current_timestamp"; "current_user";
   "default"; "deferrable"; "desc"; "distinct"; "do"; "else"; "end";
   "except"; "false"; "fetch"; "for"; "foreign"; "freeze"; "from"; "full";
   "grant"; "group"; "having"; "ilike"; "in"; "initially"; "inner";
   "intersect"; "into"; "is"; "isnull"; "join"; "lateral"; "leading";
   "left"; "like"; "limit"; "localtime"; "localtimestamp"; "natural"; "not";
   "notnull"; "null"; "offset"; "on"; "only"; "or"; "order"; "outer";
   "overlaps"; "placing"; "primary"; "references"; "returning"; "right";
   "select"; "session_user"; "similar"; "some"; "symmetric"; "system_user";
   "table"; "tablesample"; "then"; "to"; "trailing"; "true"; "union";
   "unique"; "user"; "using"; "variadic"; "verbose"; "when"; "where";
   "window"; "with"].

Definition system_columns : list string :=
  ["tableoid"; "xmin"; "cmin"; "xmax"; "cmax"; "ctid"].

(** A table has at most 1600 columns, and a row has to fit in a page of
    8 kB.  Whatever their values, 250 columns of text do, long values
    being stored out of line; with more columns it depends on the values,
    whose sizes the model does not follow. *)
Definition max_columns : nat := 1600.
Definition sure_columns : nat := 250.

(** [s] can stand where a schema is named. *)
Definition identifier (s : string) : bool :=
  bare_identifier s && negb (existsb (String.eqb (folded s)) reserved_words).

(** [s] can stand where a column is named. *)
Definition column_name (s : string) : bool :=
  identifier s && negb (existsb (String.eqb (folded s)) system_columns).

(** [schema.table] as the server reads it; after the dot any key word can
    stand. *)
Definition qualified (schema table : string) : option (string * string) :=
  if identifier schema && bare_identifier table
  then Some (folded schema, folded table)
  else None.

(** [c1, ..., cn] as the server reads it. *)
Definition column_list (cols : list string) : option (list string) :=
  if forallb column_name cols then Some (folded <$> cols) else None.

(** What the server does with a statement; [None] when it rejects it.
    [CREATE TABLE IF NOT EXISTS] looks at the columns only when it has a
    table to create, and can create one without columns; [INSERT] needs a
    column at least. *)
Definition run_stmt (q : stmt) (db : database) : option database :=
  match q with
  | CreateSchemaIfNotExists s =>
      if identifier s
      then Some (Database ({[ folded s ]} ∪ schemas db) (tables db))
      else None
  | CreateTableIfNotExists s t cols =>
      key ← qualified s t;
      names ← column_list cols;
      if bool_decide (key.1 ∈ schemas db) then
        match tables db !! key with
        | Some _ => Some db
        | None =>
            if bool_decide (NoDup names) && bool_decide (length names ≤ max_columns)%nat
            then Some (Database (schemas db) (<[key := Relation names []]> (tables db)))
            else None
        end
      else None
  | DeleteFrom s t =>
      key ← qualified s t;
      match tables db !! key with
      | Some tb =>
          Some (Database (schemas db) (<[key := Relation (columns tb) []]> (tables db)))
      | None => None
      end
  | InsertInto s t cols params =>
      key ← qualified s t;
      names ← column_list cols;
      match tables db !! key with
      | Some tb =>
          if bool_decide (names ≠ [])
             && bool_decide (NoDup names)
             && bool_decide (length names = length params)
             && forallb (λ c, bool_decide (c ∈ columns tb)) names
          then Some (Database (schemas db)
                 (<[key := Relation (columns tb)
                             (body tb ++ [bound_row names params (columns tb)])]>
                    (tables db)))
          else None
      | None => None
      end
  end.

(** What can be asked of a connection.  [Execute k q] is the [k]-th
    statement sent on the connection, counting from 0. *)
Inductive db_op :=
| Connect
| Execute (k : nat) (q : stmt)
| Commit
| Rollback
| Close.

(** An open connection: the working copy of its transaction, invisible to
    everybody else until [commit], and the number of statements sent. *)
Record session := Session {
  txn : database;
  issued : nat
}.

(** The journal records what was asked of the server and how it ended. *)
Inductive event :=
| Done (o : db_op)
| Failed (o : db_op).

Record world := World {
  files : gmap string (gmap string node);
  store : database;
  link : option session;
  journal : list event;
  draws : nat
}.

Definition set_files (f : gmap string (gmap string node)) (w : world) : world :=
  World f (store w) (link w) (journal w) (draws w).
Definition set_store (d : database) (w : world) : world :=
  World (files w) d (link w) (journal w) (draws w).
Definition set_link (l : option session) (w : world) : world :=
  World (files w) (store w) l (journal w) (draws w).
Definition record_event (e : event) (w : world) : world :=
  World (files w) (store w) (link w) (journal w ++ [e]) (draws w).
Definition set_draws (n : nat) (w : world) : world :=
  World (files w) (store w) (link w) (journal w) n.

(** ** Computations that change the world and may raise *)

Definition M (A : Type) : Type := world → result A * world.

Definition ret {A} (a : A) : M A := λ w, (Returned a, w).
Definition raise {A} (e : exn) : M A := λ w, (Raised e, w).
Definition bind {A B} (m : M A) (k : A → M B) : M B :=
  λ w, match m w with
       | (Returned a, w') => k a w'
       | (Raised e, w') => (Raised e, w')
       end.

#[global] Instance M_ret : MRet M := @ret.
#[global] Instance M_bind : MBind M := λ A B k m, bind m k.

Definition gets {A} (f : world → A) : M A := λ w, (Returned (f w), w).
Definition modify (f : world → world) : M unit := λ w, (Returned (), f w).

(** A pure step that may raise, run inside a task. *)
Definition lift {A} (r : result A) : M A := λ w, (r, w).

(** [try: body / except E: handler], where [catches] tells the instances
    of [E]. *)
Definition try_except {A} (body : M A) (catches : exn → bool) (handler : M A) : M A :=
  λ w, match body w with
       | (Raised e, w') => if catches e then handler w' else (Raised e, w')
       | r => r
       end.

(** [try: body / finally: final].  The final block always runs; when it
    raises, its exception replaces the outcome of the body. *)
Definition try_finally {A} (body : M A) (final : M unit) : M A :=
  λ w, match body w with
       | (r, w') =>
           match final w' with
           | (Returned _, w'') => (r, w'')
           | (Raised e, w'') => (Raised e, w'')
           end
       end.

(** [for x in xs: step(x)] *)
Fixpoint for_each {A} (xs : list A) (step : A → M unit) : M unit :=
  match xs with
  | [] => ret ()
  | x :: xs' => _ ← step x; for_each xs' step
  end.

#[global] Instance result_ret : MRet result := @Returned.
#[global] Instance result_bind : MBind result := λ A B k r,
  match r with
  | Returned a => k a
  | Raised e => Raised e
  end.

(** ** The file system: [os] and [open] *)

Definition lookup_node (p : path) (w : world) : option node :=
  files w !! p.1 ≫= λ entries, entries !! p.2.

(** [os.makedirs(folder, exist_ok=True)] *)
Definition makedirs (folder : string) : M unit :=
  modify (λ w, match files w !! folder with
               | Some _ => w
               | None => set_files (<[folder := ∅]> (files w)) w
               end).

(** [open(p, "w")]: the file is created, or emptied when it was there. *)
Definition open_write (p : path) : M unit :=
  λ w, match files w !! p.1 with
       | Some entries =>
           match entries !! p.2 with
           | Some Dir => (Raised OSError, w)
           | _ => (Returned (), set_files (<[p.1 := <[p.2 := File []]> entries]> (files w)) w)
           end
       | None => (Raised OSError, w)
       end.

(** One record more at the end of the file open for writing at [p].  A
    write that the file system fails part way (a full disk) is not
    followed: once the file is open, its records go in. *)
Definition write_record (p : path) (r : csv_record) : M unit :=
  λ w, match files w !! p.1 with
       | Some entries =>
           match entries !! p.2 with
           | Some (File content) =>
               (Returned (),
                set_files (<[p.1 := <[p.2 := File (content ++ [r])]> entries]> (files w)) w)
           | _ => (Raised OSError, w)
           end
       | None => (Raised OSError, w)
       end.

(** [open(p)] for reading, and all its records. *)
Definition open_read (p : path) : M (list csv_record) :=
  λ w, match lookup_node p w with
       | Some (File content) => (Returned content, w)
       | _ => (Raised OSError, w)
       end.

(** [os.listdir(folder)] *)
Definition listdir (folder : string) : M (list string) :=
  λ w, match files w !! folder with
       | Some entries => (Returned (map_to_list entries).*1, w)
       | None => (Raised OSError, w)
       end.

(** [os.path.isfile(p)] *)
Definition isfile (p : path) : M bool :=
  gets (λ w, match lookup_node p w with
             | Some (File _) => true
             | _ => false
             end).

(** [os.remove(p)] *)
Definition remove (p : path) : M unit :=
  λ w, match files w !! p.1 with
       | Some entries =>
           match entries !! p.2 with
           | Some (File _) =>
               (Returned (), set_files (<[p.1 := delete p.2 entries]> (files w)) w)
           | _ => (Raised OSError, w)
           end
       | None => (Raised OSError, w)
       end.

(** [s.endswith(suffix)] *)
Definition endswith (s suffix : string) : bool :=
  let n := String.length s in
  let m := String.length suffix in
  Nat.leb m n && String.eqb (String.substring (n - m) m s) suffix.

(** [s.replace("\n", ", ")] *)
Fixpoint replace_newlines (s : string) : string :=
  match s with
  | EmptyString => EmptyString
  | String c s' =>
      if Ascii.eqb c "010"%char then ", " +:+ replace_newlines s'
      else String c (replace_newlines s')
  end.

(** ** The [csv] module *)

(** The text [csv.writer] puts in a cell: nothing for [None], [str(v)]
    otherwise. *)
Definition cell (v : pyval) : string :=
  match v with
  | PNone => ""
  | _ => py_str v
  end.

(** The cells of a row along [fieldnames]; a missing key is written as the
    empty string. *)
Definition record_of (fieldnames : list string) (d : dict) : csv_record :=
  (λ k, cell (dict_get k (PStr "") d)) <$> fieldnames.

(** [DictWriter._dict_to_list]: a key outside [fieldnames] is an error. *)
Definition dict_to_list (fieldnames : list string) (d : dict) : result csv_record :=
  if forallb (λ k, bool_decide (k ∈ fieldnames)) (keys d)
  then Returned (record_of fieldnames d)
  else Raised ValueError.

(** [writer.writerows(data)]: rows go out one by one. *)
Definition writerows (p : path) (fieldnames : list string) (data : list dict) : M unit :=
  for_each data (λ d, r ← lift (dict_to_list fieldnames d); write_record p r).

(** The block that ends each of the three writing tasks:
[[
    with open(path, "w", newline="", encoding="utf-8") as f:
        writer = csv.DictWriter(f, fieldnames=data[0].keys())
        writer.writeheader()
        writer.writerows(data)
]]
    The file is opened before [data[0]] is looked at. *)
Definition write_dicts (p : path) (data : list dict) : M unit :=
  _ ← open_write p;
  first ← lift (first_item data);
  let fieldnames := keys first in
  _ ← write_record p fieldnames;
  writerows p fieldnames data.

(** One row of a [DictReader]: [dict(zip(fieldnames, row))], and [None] for
    the fields a short row lacks.  (What a long row has in excess goes under
    the key [None], which no lookup of this program asks for.) *)
Definition read_row (fieldnames : list string) (row : csv_record) : dict :=
  dict_of (zip fieldnames (PStr <$> row)
           ++ ((λ k, (k, PNone)) <$> drop (length row) fieldnames)).

(** [csv.DictReader(f)]: its [fieldnames] ([None] for an empty file) and
    [list(reader)]; blank lines after the header are skipped. *)
Definition DictReader (content : list csv_record)
    : option (list string) * list dict :=
  match content with
  | [] => (None, [])
  | header :: rest =>
      (Some header,
       read_row header <$> filter (λ r, r ≠ []) rest)
  end.

(** ** The collaborators: Faker and the PostgreSQL connection *)

(** What a [Faker()] gives at each of its draws; the [n]-th draw of a run
    is the value of the provider at [n].  Dates and times are given as
    already formatted by [strftime], the fee as already rounded. *)
Record Faker := {
  uuid4 : nat → string;
  first_name : nat → string;
  last_name : nat → string;
  date_of_birth : nat → string;
  random_index : nat → nat;
  email : nat → string;
  phone_number : nat → string;
  address : nat → string;
  name : nat → string;
  date_between : nat → string;
  time : nat → string;
  uniform : nat → string
}.

Definition OUTPUT_DIR : string := "/opt/airflow/data".
Definition TARGET_TABLE : string := "healthcare_records".

Section Tasks.

Variable fake : Faker.

(** [faulty o] tells that the server (or the network) fails the request
    [o]; psycopg2 then raises a [psycopg2.Error]. *)
Variable faulty : db_op → bool.

(** One draw from a provider. *)
Definition draw {A} (provider : Faker → nat → A) : M A :=
  λ w, (Returned (provider fake (draws w)), set_draws (S (draws w)) w).

(** [fake.random_element(xs)]: some element of [xs]. *)
Definition random_element {A} (xs : list A) : M A :=
  k ← draw random_index;
  match xs !! (k `mod` length xs) with
  | Some x => ret x
  | None => raise IndexError
  end.

Definition genders : list string := ["Male"; "Female"; "Other"].
Definition blood_types : list string :=
  ["A+"; "A-"; "B+"; "B-"; "O+"; "O-"; "AB+"; "AB-"].
Definition departments : list string :=
  ["Cardiology"; "Neurology"; "Pediatrics"; "Orthopedics"; "Dermatology"].
Definition durations : list Z := [15; 30; 45; 60]%Z.
Definition statuses : list string :=
  ["scheduled"; "completed"; "cancelled"; "no-show"].

(** The dict appended at each turn of the loop of [fetch_patients]. *)
Definition patient : M dict :=
  patient_id ← draw uuid4;
  first ← draw first_name;
  last ← draw last_name;
  born ← draw date_of_birth;
  gender ← random_element genders;
  blood_type ← random_element blood_types;
  mail ← draw email;
  phone ← draw phone_number;
  addr ← draw address;
  ret (dict_of [("patient_id", PStr patient_id);
                ("first_name", PStr first);
                ("last_name", PStr last);
                ("date_of_birth", PStr born);
                ("gender", PStr gender);
                ("blood_type", PStr blood_type);
                ("email", PStr mail);
                ("phone", PStr phone);
                ("address", PStr (replace_newlines addr))]).

(** The dict appended at each turn of the loop of [fetch_appointments]. *)
Definition appointment : M dict :=
  appointment_id ← draw uuid4;
  doctor ← draw name;
  department ← random_element departments;
  day ← draw date_between;
  hour ← draw time;
  minutes ← random_element durations;
  status ← random_element statuses;
  fee ← draw uniform;
  ret (dict_of [("appointment_id", PStr appointment_id);
                ("doctor_name", PStr ("Dr. " +:+ doctor));
                ("department", PStr department);
                ("appointment_date", PStr day);
                ("appointment_time", PStr hour);
                ("duration_minutes", PInt minutes);
                ("status", PStr status);
                ("consultation_fee", PFloat fee)]).

(** [for _ in range(quantity): data.append(row)] *)
Fixpoint generate (row : M dict) (quantity : nat) (data : list dict) : M (list dict) :=
  match quantity with
  | O => ret data
  | S q => r ← row; generate row q (data ++ [r])
  end.

Definition fetch_patients (output_dir : string) (quantity : Z) : M path :=
  data ← generate patient (Z.to_nat quantity) [];
  let path := path_join output_dir "patients.csv" in
  _ ← makedirs output_dir;
  _ ← write_dicts path data;
  ret path.

Definition fetch_appointments (output_dir : string) (quantity : Z) : M path :=
  data ← generate appointment (Z.to_nat quantity) [];
  let path := path_join output_dir "appointments.csv" in
  _ ← makedirs output_dir;
  _ ← write_dicts path data;
  ret path.

(** ** [merge_csvs] *)

(** [l[i]] *)
Definition item {A} (l : list A) (i : nat) : result A :=
  match l !! i with
  | Some x => Returned x
  | None => Raised IndexError
  end.

(** The dict appended at each turn of the loop of [merge_csvs]. *)
Definition merged_row (p a : dict) : result dict :=
  first ← dict_item "first_name" p;
  last ← dict_item "last_name" p;
  mail ← dict_item "email" p;
  blood_type ← dict_item "blood_type" p;
  doctor ← dict_item "doctor_name" a;
  department ← dict_item "department" a;
  day ← dict_item "appointment_date" a;
  status ← dict_item "status" a;
  fee ← dict_item "consultation_fee" a;
  Returned (dict_of [("patient_name", PStr (py_str first +:+ " " +:+ py_str last));
                     ("patient_email", mail);
                     ("blood_type", blood_type);
                     ("doctor_name", doctor);
                     ("department", department);
                     ("appointment_date", day);
                     ("status", status);
                     ("consultation_fee", fee)]).

(** [for i in indices: p, a = patients[i], appointments[i]; merged.append(...)] *)
Fixpoint merge_loop (indices : list nat) (patients appointments merged : list dict)
    : result (list dict) :=
  match indices with
  | [] => Returned merged
  | i :: rest =>
      p ← item patients i;
      a ← item appointments i;
      row ← merged_row p a;
      merge_loop rest patients appointments (merged ++ [row])
  end.

Definition merge_csvs (patients_path appointments_path : path) (output_dir : string)
    : M path :=
  let merged_path := path_join output_dir "merged_data.csv" in
  f1 ← open_read patients_path;
  f2 ← open_read appointments_path;
  let patients := (DictReader f1).2 in
  let appointments := (DictReader f2).2 in
  merged ← lift (merge_loop (seq 0 (min (length patients) (length appointments)))
                   patients appointments []);
  _ ← write_dicts merged_path merged;
  ret merged_path.

(** ** The connection *)

(** A request the server fails: the journal keeps it, psycopg2 raises. *)
Definition fail_with {A} (o : db_op) : M A :=
  _ ← modify (record_event (Failed o)); raise DatabaseError.

(** [PostgresHook(postgres_conn_id=conn_id).get_conn()]: a connection,
    whose transaction starts from what is committed on the server. *)
Definition get_conn (conn_id : string) : M unit :=
  if faulty Connect then fail_with Connect
  else modify (λ w, record_event (Done Connect)
                      (set_link (Some (Session (store w) 0)) w)).

(** [cur.execute(q)]: the statement acts on the transaction only. *)
Definition execute (q : stmt) : M unit :=
  l ← gets link;
  match l with
  | None => raise DatabaseError
  | Some s =>
      let o := Execute (issued s) q in
      if faulty o then fail_with o
      else match run_stmt q (txn s) with
           | None => fail_with o
           | Some db =>
               modify (λ w, record_event (Done o)
                              (set_link (Some (Session db (S (issued s)))) w))
           end
  end.

(** [cur.executemany(sql, rows)]: the statement once per row, in order. *)
Definition executemany (sql : list (option string) → stmt)
    (rows : list (list (option string))) : M unit :=
  for_each rows (λ row, execute (sql row)).

(** [conn.commit()]: the transaction becomes what the server holds. *)
Definition commit : M unit :=
  l ← gets link;
  match l with
  | None => raise DatabaseError
  | Some s =>
      if faulty Commit then fail_with Commit
      else modify (λ w, record_event (Done Commit) (set_store (txn s) w))
  end.

(** [conn.rollback()]: the transaction is dropped. *)
Definition rollback : M unit :=
  l ← gets link;
  match l with
  | None => raise DatabaseError
  | Some s =>
      if faulty Rollback then fail_with Rollback
      else modify (λ w, record_event (Done Rollback)
                          (set_link (Some (Session (store w) (issued s))) w))
  end.

(** [conn.close()]: what was not committed is lost with the connection. *)
Definition close : M unit :=
  if faulty Close then fail_with Close
  else modify (λ w, record_event (Done Close) (set_link None w)).

(** ** [load_csv_to_pg] *)

(** [r.get(col, "") or None], as the parameter psycopg2 sends: [NULL] for
    [None], the text otherwise. *)
Definition get_or_none (col : string) (r : dict) : option string :=
  let v := dict_get col (PStr "") r in
  if py_truthy v then Some (py_str v) else None.

Definition load_csv_to_pg (conn_id : string) (csv_path : path)
    (table : string) (append : bool) : M Z :=
  let schema := "week8_demo" in
  f ← open_read csv_path;
  let fieldnames := (DictReader f).1 in
  let reader := (DictReader f).2 in
  (* when [fieldnames] is [None] the reader has no row and the inner
     comprehension is never entered *)
  let rows := (λ r, (λ col, get_or_none col r) <$> default [] fieldnames) <$> reader in
  if bool_decide (rows = []) then ret 0%Z
  else
    match fieldnames with
    | None => raise TypeError
    | Some fieldnames =>
        let create_schema := CreateSchemaIfNotExists schema in
        let create_table := CreateTableIfNotExists schema table fieldnames in
        let delete_rows :=
          if negb append then Some (DeleteFrom schema table) else None in
        let insert_sql := InsertInto schema table fieldnames in
        _ ← get_conn conn_id;
        try_finally
          (try_except
             (_ ← execute create_schema;
              _ ← execute create_table;
              _ ← match delete_rows with
                  | Some q => execute q
                  | None => ret ()
                  end;
              _ ← executemany insert_sql rows;
              _ ← commit;
              ret (Z.of_nat (length rows)))
             is_DatabaseError
             (_ ← rollback; ret 0%Z))
          close
    end.

(** ** [cleanup_folder] *)

Definition cleanup_folder (folder_path : string) : M unit :=
  filenames ← listdir folder_path;
  for_each filenames (λ filename,
    let file_path := path_join folder_path filename in
    is_file ← isfile file_path;
    if is_file && endswith filename ".csv" then remove file_path
    else ret ()).

End Tasks.

#[global] Instance db_op_eq_dec : EqDecision db_op.
Proof. solve_decision. Defined.

#[global] Instance event_eq_dec : EqDecision event.
Proof. solve_decision. Defined.

(** * The vocabulary of the statements *)

(** What one turn of the loop does to the entries of the folder. *)
Definition sweep (entries : gmap string node) (filename : string) : gmap string node :=
  match entries !! filename with
  | Some (File _) => if endswith filename ".csv" then delete filename entries else entries
  | _ => entries
  end.

(** What is found under [filename] once the loop is over. *)
Definition after_cleanup (entries : gmap string node) (filename : string) : option node :=
  match entries !! filename with
  | Some (File content) =>
      if endswith filename ".csv" then None else Some (File content)
  | other => other
  end.

Definition patient_fields : list string :=
  ["first_name"; "last_name"; "email"; "blood_type"].
Definition appointment_fields : list string :=
  ["doctor_name"; "department"; "appointment_date"; "status"; "consultation_fee"].
Definition merged_columns : list string :=
  ["patient_name"; "patient_email"; "blood_type"; "doctor_name"; "department";
   "appointment_date"; "status"; "consultation_fee"].

(** [d] has a value (possibly [None]) under each of [fields]. *)
Definition has_fields (fields : list string) (d : dict) : Prop :=
  Forall (λ k, is_Some (dict_find k d)) fields.

#[global] Instance has_fields_dec fields d : Decision (has_fields fields d).
Proof. unfold has_fields. apply _. Defined.

(** [row] is what the loop of [merge_csvs] appends for the pair [pa]. *)
Definition merged_from (pa : dict * dict) (row : dict) : Prop :=
  merged_row pa.1 pa.2 = Returned row.

Definition patient_columns : list string :=
  ["patient_id"; "first_name"; "last_name"; "date_of_birth"; "gender";
   "blood_type"; "email"; "phone"; "address"].
Definition appointment_columns : list string :=
  ["appointment_id"; "doctor_name"; "department"; "appointment_date";
   "appointment_time"; "duration_minutes"; "status"; "consultation_fee"].

(** [d] holds a text of [allowed] under [field]. *)
Definition text_among (field : string) (allowed : list string) (d : dict) : Prop :=
  ∃ s, dict_find field d = Some (PStr s) ∧ s ∈ allowed.

(** [d] holds an integer of [allowed] under [field]. *)
Definition int_among (field : string) (allowed : list Z) (d : dict) : Prop :=
  ∃ n, dict_find field d = Some (PInt n) ∧ n ∈ allowed.

Definition patient_shaped (d : dict) : Prop :=
  keys d = patient_columns
  ∧ text_among "gender" genders d
  ∧ text_among "blood_type" blood_types d.

Definition appointment_shaped (d : dict) : Prop :=
  keys d = appointment_columns
  ∧ text_among "department" departments d
  ∧ int_among "duration_minutes" durations d
  ∧ text_among "status" statuses d.






(** The namespace and the table are there. *)
Definition provisioned (schema table : string) (db : database) : Prop :=
  schema ∈ schemas db ∧ is_Some (tables db !! (schema, table)).

#[global] Instance provisioned_dec schema table db : Decision (provisioned schema table db).
Proof. unfold provisioned. apply _. Defined.

(** The statement [row]s insert will be accepted: the table, when it is
    there already, has all of [fieldnames] among its columns. *)
Definition fits (schema table : string) (fieldnames : list string) (db : database) : Prop :=
  match tables db !! (schema, table) with
  | Some tb => Forall (λ c, c ∈ columns tb) fieldnames
  | None => True
  end.

#[global] Instance fits_dec schema table fieldnames db :
  Decision (fits schema table fieldnames db).
Proof. unfold fits. destruct (tables db !! (schema, table)); apply _. Defined.

(** What the server holds after a run that went through; the names are
    those the server keeps. *)
Definition loaded (schema table : string) (fieldnames : list string)
    (rows : list (list (option string))) (append : bool) (db : database) : database :=
  let key := (folded schema, folded table) in
  let names := folded <$> fieldnames in
  let cols := match tables db !! key with
              | Some tb => columns tb
              | None => names
              end in
  let kept := match tables db !! key with
              | Some tb => if append then body tb else []
              | None => []
              end in
  Database ({[folded schema]} ∪ schemas db)
    (<[key := Relation cols (kept ++ ((λ r, bound_row names r cols) <$> rows))]>
       (tables db)).

(** A name the statements can carry as it is: the server reads it as the
    name of a column, and as this very name (no upper case letter of
    ASCII, no more than 63 bytes). *)
Definition plain_name (s : string) : bool :=
  column_name s && String.eqb (folded s) s.

(** A table name and a header the loader can make a table of: plain names,
    those of the header distinct, at least one and no more than a row has
    room for. *)
Definition plain_names (table : string) (fieldnames : list string) : Prop :=
  plain_name table = true
  ∧ Forall (λ c, plain_name c = true) fieldnames
  ∧ NoDup fieldnames
  ∧ (0 < length fieldnames ≤ sure_columns)%nat.

#[global] Instance plain_names_dec table fieldnames :
  Decision (plain_names table fieldnames).
Proof. unfold plain_names. apply _. Defined.

(** Two characters that do not reach the server as they are in the file:
    psycopg2 refuses to send a text with a NUL character (it raises a
    [ValueError], which is no [DatabaseError]), and a carriage return
    inside a cell is read as a line feed in text mode. *)
Definition NUL : ascii := "000"%char.
Definition CR : ascii := "013"%char.

(** No cell of [content] holds the character [c]. *)
Definition without (c : ascii) (content : list csv_record) : Prop :=
  Forall (Forall (λ s, c ∉ String.list_ascii_of_string s)) content.

#[global] Instance without_dec c content : Decision (without c content).
Proof. unfold without. apply _. Defined.

(** [w] is [w0] with a connection whose transaction stands at [db]. *)
Definition in_session (db : database) (w0 w : world) : Prop :=
  (∃ k, link w = Some (Session db k)) ∧ store w = store w0 ∧ files w = files w0.

(** ** Concrete worlds *)

Definition example_faker : Faker := {|
  uuid4 := λ n, if Nat.even n then "id-even" else "id-odd";
  first_name := λ n, if Nat.even n then "Alan" else "Ada";
  last_name := λ n, if Nat.even n then "Turing" else "Byron";
  date_of_birth := λ _, "1990-12-10";
  random_index := λ n, n / 2;
  email := λ _, "someone@example.org";
  phone_number := λ _, "555-0100";
  address := λ _, String "1" (String " " (String "M" (String "010"%char "L")));
  name := λ _, "Grace Hopper";
  date_between := λ _, "2025-10-20";
  time := λ _, "09:30";
  uniform := λ _, "120.5"
|}.

Definition no_faults : db_op → bool := λ _, false.


(** The connection cannot be closed. *)
Definition close_fails : db_op → bool := λ o, bool_decide (o = Close).

(** The statement of index 6 fails: with the schema, the table and the
    clearing first, in replace mode, that is the fourth row. *)
Definition fourth_row_fails_after_clearing : db_op → bool :=
  λ o, match o with
       | Execute 6 _ => true
       | _ => false
       end.

(** The statement of index 5 fails: with the schema and the table first,
    in append mode, that is the fourth row. *)
Definition fourth_row_fails : db_op → bool :=
  λ o, match o with
       | Execute 5 _ => true
       | _ => false
       end.


Definition empty_database : database := Database ∅ ∅.

Definition patients_csv : list csv_record :=
  [ ["patient_id"; "first_name"; "last_name"; "date_of_birth"; "gender";
     "blood_type"; "email"; "phone"; "address"];
    ["p1"; "Ada"; "Byron"; "1990-12-10"; "Female"; "A+"; "ada@example.org"; "1"; "x"];
    ["p2"; "Alan"; "Turing"; "1982-06-23"; "Male"; "O-"; "alan@example.org"; "2"; "y"];
    ["p3"; "Edsger"; "Dijkstra"; "1980-05-11"; "Male"; "B+"; "ewd@example.org"; "3"; "z"] ].

Definition appointments_csv : list csv_record :=
  [ ["appointment_id"; "doctor_name"; "department"; "appointment_date";
     "appointment_time"; "duration_minutes"; "status"; "consultation_fee"];
    ["a1"; "Dr. Grace Hopper"; "Cardiology"; "2025-10-20"; "09:30"; "30";
     "scheduled"; "120.5"];
    ["a2"; "Dr. John Snow"; "Neurology"; "2025-10-21"; "10:00"; "15";
     "completed"; "75.25"] ].

(** A patients file that has its header and no row. *)
Definition header_only_csv : list csv_record :=
  [ ["patient_id"; "first_name"; "last_name"; "date_of_birth"; "gender";
     "blood_type"; "email"; "phone"; "address"] ].

(** A file of ten rows. *)
Definition ten_rows_csv : list csv_record :=
  [ ["name"; "note"];
    ["row0"; "new"]; ["row1"; "new"]; ["row2"; "new"]; ["row3"; "new"];
    ["row4"; "new"]; ["row5"; "new"]; ["row6"; "new"]; ["row7"; "new"];
    ["row8"; "new"]; ["row9"; "new"] ].

(** A file of one row whose first column has a name of two words. *)
Definition two_words_csv : list csv_record :=
  [ ["patient name"; "note"];
    ["Ada Byron"; "first"] ].

Definition world_with (entries : gmap string node) (db : database) : world :=
  World {[ OUTPUT_DIR := entries ]} db None [] 0.

Definition fresh_world : world := World ∅ empty_database None [] 0.

Definition pipeline_world : world :=
  world_with {[ "patients.csv" := File patients_csv;
                "appointments.csv" := File appointments_csv ]} empty_database.

Definition no_patients_world : world :=
  world_with {[ "patients.csv" := File header_only_csv;
                "appointments.csv" := File appointments_csv ]} empty_database.

Definition header_only_world : world :=
  world_with {[ "merged_data.csv" := File header_only_csv ]} empty_database.

(** A destination that already holds two rows. *)
Definition two_old_rows : database :=
  Database {[ "week8_demo" ]}
    {[ ("week8_demo", "healthcare_records")
       := Relation ["name"; "note"] [[Some "u"; Some "old"]; [Some "v"; Some "old"]] ]}.

Definition ten_rows_world : world :=
  world_with {[ "merged_data.csv" := File ten_rows_csv ]} two_old_rows.

Definition two_words_world : world :=
  world_with {[ "merged_data.csv" := File two_words_csv ]} empty_database.

Definition cluttered_entries : gmap string node :=
  {[ "patients.csv" := File patients_csv;
     "merged_data.csv" := File header_only_csv;
     "dashboard.png" := File [];
     "notes.csv.bak" := File [["keep"]];
     "archive.csv" := Dir ]}.

Definition cluttered_world : world := world_with cluttered_entries empty_database.


(** ** More vocabulary: rows, statements, the task group *)

(** The cell of a [TEXT] column for the text of a csv cell: [NULL] when the
    text is empty. *)
Definition null_if_empty (s : string) : option string :=
  if String.eqb s "" then None else Some s.

(** What a csv record becomes in a table of [n] columns: a short record is
    filled up with [NULL], what a long record has in excess is left out. *)
Definition stored_row (n : nat) (r : csv_record) : list (option string) :=
  (λ i, r !! i ≫= null_if_empty) <$> seq 0 n.

(** The statements of a list, one after the other, on the server. *)
Fixpoint run_statements (qs : list stmt) (db : database) : option database :=
  match qs with
  | [] => Some db
  | q :: qs' => run_stmt q db ≫= run_statements qs'
  end.

(** [fieldnames] and [rows] as [load_csv_to_pg] computes them from the
    content of its file. *)
Definition header_of (content : list csv_record) : list string :=
  default [] (DictReader content).1.

Definition parameters (content : list csv_record) : list (list (option string)) :=
  (λ r, (λ col, get_or_none col r) <$> header_of content) <$> (DictReader content).2.

(** The statements one run of [load_csv_to_pg] sends, in order. *)
Definition load_statements (table : string) (fieldnames : list string)
    (rows : list (list (option string))) (append : bool) : list stmt :=
  [CreateSchemaIfNotExists "week8_demo"]
  ++ [CreateTableIfNotExists "week8_demo" table fieldnames]
  ++ (if negb append then [DeleteFrom "week8_demo" table] else [])
  ++ (InsertInto "week8_demo" table fieldnames <$> rows).

(** [m] sends the statements [qs] on the open connection: it leaves the
    files and what the server holds as they are; when it returns, the
    transaction has taken all of [qs]; when it raises, it raises a
    [DatabaseError] because a request was failed or a statement rejected. *)
Definition sends {A} (faulty : db_op → bool) (m : M A) (qs : list stmt) : Prop :=
  ∀ w db k, link w = Some (Session db k) →
    ∃ r w',
      m w = (r, w') ∧ store w' = store w ∧ files w' = files w
      ∧ match r with
        | Returned _ =>
            ∃ db' k', run_statements qs db = Some db' ∧ link w' = Some (Session db' k')
        | Raised e =>
            e = DatabaseError ∧ is_Some (link w')
            ∧ (run_statements qs db = None ∨ ∃ j q, faulty (Execute j q) = true)
        end.

(** [m] sends [qs] and commits, and then returns [n]: when it returns, the
    server holds what [qs] make of the transaction; when it raises, it
    raises a [DatabaseError] and the server holds what it held. *)
Definition commits {A} (faulty : db_op → bool) (m : M A) (qs : list stmt) (n : A) : Prop :=
  ∀ w db k, link w = Some (Session db k) →
    ∃ r w',
      m w = (r, w') ∧ files w' = files w ∧ is_Some (link w')
      ∧ ((r = Returned n
          ∧ ∃ db', run_statements qs db = Some db' ∧ store w' = db')
         ∨ (r = Raised DatabaseError ∧ store w' = store w
            ∧ (run_statements qs db = None
               ∨ (∃ j q, faulty (Execute j q) = true)
               ∨ faulty Commit = true))).

(** The [with conn.cursor() as cur:] block of [load_csv_to_pg] and the
    [return] that follows it. *)
Definition load_transaction (faulty : db_op → bool) (table : string)
    (fieldnames : list string) (rows : list (list (option string)))
    (append : bool) : M Z :=
  _ ← execute faulty (CreateSchemaIfNotExists "week8_demo");
  _ ← execute faulty (CreateTableIfNotExists "week8_demo" table fieldnames);
  _ ← match (if negb append then Some (DeleteFrom "week8_demo" table) else None) with
      | Some q => execute faulty q
      | None => ret ()
      end;
  _ ← executemany faulty (InsertInto "week8_demo" table fieldnames) rows;
  _ ← commit faulty;
  ret (Z.of_nat (length rows)).

(** A file with an empty cell, a blank line, a short record and a long one. *)
Definition ragged_csv : list csv_record :=
  [ ["a"; "b"; "c"];
    ["1"; ""; "3"];
    [];
    ["x"];
    ["p"; "q"; "r"; "extra"] ].

Definition ragged_world : world :=
  world_with {[ "merged_data.csv" := File ragged_csv ]} empty_database.



(** A file whose header is written with capitals. *)
Definition capitals_csv : list csv_record :=
  [ ["Patient_Name"; "NOTE"];
    ["Ada Byron"; "first"];
    ["Alan Turing"; ""] ].

Definition capitals_world : world :=
  world_with {[ "merged_data.csv" := File capitals_csv ]} empty_database.

(** The number of rows of the destination table, 0 when it is not there. *)
Definition row_count (table : string) (db : database) : nat :=
  match tables db !! ("week8_demo", table) with
  | Some tb => length (body tb)
  | None => 0
  end.

(** A patients file whose header has no [email] column. *)
Definition patients_without_email_csv : list csv_record :=
  [ ["patient_id"; "first_name"; "last_name"; "blood_type"];
    ["p1"; "Ada"; "Byron"; "A+"] ].

Definition no_email_world : world :=
  world_with {[ "patients.csv" := File patients_without_email_csv;
                "appointments.csv" := File appointments_csv;
                "merged_data.csv" := File [["left"; "from"]; ["last"; "run"]] ]}
    empty_database.

(** The characters of [s] have no line feed among them. *)
Definition single_line (s : string) : Prop :=
  "010"%char ∉ String.list_ascii_of_string s.

(** [d] holds under [address] a text that stays on one line. *)
Definition address_on_one_line (d : dict) : Prop :=
  ∃ s, dict_find "address" d = Some (PStr s) ∧ single_line s.

(** A folder with files of other tasks and of nobody. *)
Definition busy_world : world :=
  World {[ OUTPUT_DIR := {[ "appointments.csv" := File appointments_csv;
                            "patients.csv" := File [["stale"]] ]};
           "/tmp" := {[ "patients.csv" := File [["elsewhere"]] ]} ]}
    two_old_rows None [] 7.

(** The ETL task group of the DAG, its tasks in the order their
    dependencies give, each with its default arguments:
[[
    p_file = fetch_patients()
    a_file = fetch_appointments()
    m_file = merge_csvs(p_file, a_file)
    loaded = load_csv_to_pg(conn_id="Postgres", csv_path=m_file, table=TARGET_TABLE)
    p_file >> a_file >> m_file >> loaded
]] *)
Definition etl_group (fake : Faker) (faulty : db_op → bool) : M Z :=
  p_file ← fetch_patients fake OUTPUT_DIR 50;
  a_file ← fetch_appointments fake OUTPUT_DIR 50;
  m_file ← merge_csvs p_file a_file OUTPUT_DIR;
  load_csv_to_pg faulty "Postgres" m_file TARGET_TABLE true.

(** * Properties *)

(** ** Running computations *)

Lemma run_bind {A B} (m : M A) (k : A → M B) (w : world) :
  (m ≫= k) w = match m w with
               | (Returned a, w') => k a w'
               | (Raised e, w') => (Raised e, w')
               end.
Proof. reflexivity. Qed.

Lemma run_bind_returned {A B} (m : M A) (k : A → M B) (w w' : world) (a : A) :
  m w = (Returned a, w') → (m ≫= k) w = k a w'.
Proof. intros H. rewrite run_bind, H. reflexivity. Qed.

Lemma run_bind_raised {A B} (m : M A) (k : A → M B) (w w' : world) (e : exn) :
  m w = (Raised e, w') → (m ≫= k) w = (Raised e, w').
Proof. intros H. rewrite run_bind, H. reflexivity. Qed.

Lemma run_for_each_cons {A} (x : A) (xs : list A) (step : A → M unit) (w : world) :
  for_each (x :: xs) step w
  = match step x w with
    | (Returned _, w') => for_each xs step w'
    | (Raised e, w') => (Raised e, w')
    end.
Proof. reflexivity. Qed.

Lemma set_files_same (folder : string) (entries : gmap string node) (w : world) :
  files w !! folder = Some entries →
  set_files (<[folder := entries]> (files w)) w = w.
Proof.
  intros H. destruct w as [f s l j d]; unfold set_files; simpl in *.
  by rewrite insert_id.
Qed.

Lemma set_files_twice (f g : gmap string (gmap string node)) (w : world) :
  set_files g (set_files f w) = set_files g w.
Proof. reflexivity. Qed.

(** ** [cleanup_folder] *)

Lemma cleanup_step (folder filename : string) (entries : gmap string node) (w : world) :
  files w !! folder = Some entries →
  (is_file ← isfile (path_join folder filename);
   if is_file && endswith filename ".csv" then remove (path_join folder filename)
   else ret ()) w
  = (Returned (), set_files (<[folder := sweep entries filename]> (files w)) w).
Proof.
  intros Hdir. rewrite run_bind. unfold isfile, gets, lookup_node, sweep; simpl.
  rewrite Hdir; simpl.
  destruct (entries !! filename) as [[content|]|] eqn:Hname; simpl;
    try (unfold ret; by rewrite set_files_same).
  destruct (endswith filename ".csv"); simpl.
  - unfold remove; simpl. by rewrite Hdir, Hname.
  - unfold ret. by rewrite set_files_same.
Qed.

Lemma cleanup_loop (folder : string) (filenames : list string) :
  ∀ (entries : gmap string node) (w : world),
    files w !! folder = Some entries →
    for_each filenames (λ filename,
      is_file ← isfile (path_join folder filename);
      if is_file && endswith filename ".csv" then remove (path_join folder filename)
      else ret ()) w
    = (Returned (), set_files (<[folder := foldl sweep entries filenames]> (files w)) w).
Proof.
  induction filenames as [|filename rest IH]; intros entries w Hdir.
  - simpl. unfold ret. by rewrite set_files_same.
  - rewrite run_for_each_cons, (cleanup_step _ _ _ _ Hdir).
    rewrite (IH (sweep entries filename)) by (simpl; apply lookup_insert_eq).
    simpl. by rewrite set_files_twice, insert_insert_eq.
Qed.

Lemma sweep_lookup (entries : gmap string node) (filename other : string) :
  sweep entries filename !! other
  = if decide (other = filename) then after_cleanup entries other else entries !! other.
Proof.
  unfold sweep, after_cleanup. case_decide as Heq.
  - subst other. destruct (entries !! filename) as [[content|]|] eqn:E; try done.
    destruct (endswith filename ".csv"); [apply lookup_delete_eq | done].
  - destruct (entries !! filename) as [[content|]|]; try done.
    destruct (endswith filename ".csv"); [by apply lookup_delete_ne | done].
Qed.

Lemma after_cleanup_idem (entries : gmap string node) (filename other : string) :
  after_cleanup (sweep entries filename) other = after_cleanup entries other.
Proof.
  unfold after_cleanup at 1. rewrite sweep_lookup. case_decide as Heq; [|done].
  unfold after_cleanup. destruct (entries !! other) as [[content|]|]; try done.
  by destruct (endswith other ".csv").
Qed.

Lemma foldl_sweep_lookup (filenames : list string) :
  ∀ (entries : gmap string node) (other : string),
    foldl sweep entries filenames !! other
    = if decide (other ∈ filenames) then after_cleanup entries other else entries !! other.
Proof.
  induction filenames as [|filename rest IH]; intros entries other; simpl.
  - destruct (decide (other ∈ [])) as [Hin|]; [by apply elem_of_nil in Hin | done].
  - rewrite IH, after_cleanup_idem, sweep_lookup.
    destruct (decide (other = filename)) as [->|Hne].
    + rewrite (decide_True (P := filename ∈ filename :: rest)) by apply list_elem_of_here.
      by destruct (decide (filename ∈ rest)).
    + destruct (decide (other ∈ rest)) as [Hin|Hin].
      * by rewrite decide_True by (by apply list_elem_of_further).
      * rewrite decide_False; [done|]. rewrite elem_of_cons. tauto.
Qed.

(** C9.  [cleanup_folder] on an existing folder returns, and afterwards a
    name of the folder is gone exactly when it was a file whose name ends
    with [.csv]; every other entry of the folder, every other folder and
    the rest of the world are as they were. *)
Theorem cleanup_folder_removes_exactly_csv_files
    (folder : string) (entries : gmap string node) (w : world) :
  files w !! folder = Some entries →
  ∃ kept : gmap string node,
    cleanup_folder folder w
    = (Returned (), set_files (<[folder := kept]> (files w)) w)
    ∧ ∀ filename : string,
        kept !! filename
        = match entries !! filename with
          | Some (File content) =>
              if endswith filename ".csv" then None else Some (File content)
          | other => other
          end.
Proof.
  intros Hdir. exists (foldl sweep entries (map_to_list entries).*1). split.
  - unfold cleanup_folder. rewrite run_bind. unfold listdir. rewrite Hdir.
    by apply cleanup_loop.
  - intros filename. rewrite foldl_sweep_lookup. case_decide as Hin; [done|].
    destruct (entries !! filename) as [x|] eqn:E; [|done].
    exfalso. apply Hin. apply list_elem_of_fmap. exists (filename, x). split; [done|].
    by apply elem_of_map_to_list.
Qed.

(** ** Writing a list of dicts *)

Lemma writerows_run (p : path) (fieldnames : list string) (data : list dict) :
  ∀ (content : list csv_record) (entries : gmap string node) (w : world),
    files w !! p.1 = Some entries →
    entries !! p.2 = Some (File content) →
    Forall (λ d, dict_to_list fieldnames d = Returned (record_of fieldnames d)) data →
    writerows p fieldnames data w
    = (Returned (),
       set_files (<[p.1 := <[p.2 := File (content ++ (record_of fieldnames <$> data))]>
                              entries]> (files w)) w).
Proof.
  unfold writerows.
  induction data as [|d rest IH]; intros content entries w Hdir Hfile Hrows.
  - simpl. unfold ret. rewrite app_nil_r, (insert_id entries) by done.
    by rewrite set_files_same.
  - apply Forall_cons in Hrows as [Hd Hrest].
    rewrite run_for_each_cons, run_bind. unfold lift at 1. rewrite Hd.
    unfold write_record at 1. rewrite Hdir, Hfile.
    rewrite (IH (content ++ [record_of fieldnames d])
                (<[p.2 := File (content ++ [record_of fieldnames d])]> entries));
      [| simpl; apply lookup_insert_eq | apply lookup_insert_eq | done].
    simpl. rewrite set_files_twice, !insert_insert_eq.
    by rewrite <- app_assoc.
Qed.

Lemma write_dicts_run (p : path) (first : dict) (rest : list dict)
    (entries : gmap string node) (w : world) :
  files w !! p.1 = Some entries →
  entries !! p.2 ≠ Some Dir →
  Forall (λ d, dict_to_list (keys first) d = Returned (record_of (keys first) d))
         (first :: rest) →
  write_dicts p (first :: rest) w
  = (Returned (),
     set_files (<[p.1 := <[p.2 := File (keys first
                                         :: (record_of (keys first) <$> first :: rest))]>
                            entries]> (files w)) w).
Proof.
  intros Hdir Hnode Hrows. unfold write_dicts.
  assert (open_write p w
          = (Returned (), set_files (<[p.1 := <[p.2 := File []]> entries]> (files w)) w))
    as Hopen.
  { unfold open_write. rewrite Hdir. by destruct (entries !! p.2) as [[?|]|]. }
  rewrite (run_bind_returned _ _ _ _ _ Hopen).
  rewrite run_bind. unfold lift at 1. simpl first_item. cbv iota beta.
  rewrite run_bind. unfold write_record at 1. simpl files.
  rewrite !lookup_insert_eq.
  rewrite (writerows_run p (keys first) (first :: rest) ([] ++ [keys first])
             (<[p.2 := File ([] ++ [keys first])]> (<[p.2 := File []]> entries)));
    [| simpl; apply lookup_insert_eq | apply lookup_insert_eq | done].
  simpl. by rewrite !set_files_twice, !insert_insert_eq.
Qed.

(** With nothing to write the file is left empty and [data[0]] raises. *)
Lemma write_dicts_empty (p : path) (entries : gmap string node) (w : world) :
  files w !! p.1 = Some entries →
  entries !! p.2 ≠ Some Dir →
  write_dicts p [] w
  = (Raised IndexError,
     set_files (<[p.1 := <[p.2 := File []]> entries]> (files w)) w).
Proof.
  intros Hdir Hnode. unfold write_dicts. rewrite run_bind.
  unfold open_write. rewrite Hdir. by destruct (entries !! p.2) as [[?|]|].
Qed.

(** ** [merge_csvs] *)

Lemma merged_row_total (p a : dict) :
  has_fields patient_fields p → has_fields appointment_fields a →
  ∃ row, merged_row p a = Returned row.
Proof.
  unfold has_fields, patient_fields, appointment_fields.
  rewrite !Forall_cons. intros ([v1 H1] & [v2 H2] & [v3 H3] & [v4 H4] & _).
  intros ([v5 H5] & [v6 H6] & [v7 H7] & [v8 H8] & [v9 H9] & _).
  unfold merged_row, dict_item.
  rewrite H1, H2, H3, H4, H5, H6, H7, H8, H9. simpl. eauto.
Qed.

Lemma merged_row_inv (p a row : dict) :
  merged_row p a = Returned row →
  ∃ first last mail blood_type doctor department day status fee,
    dict_find "first_name" p = Some first
    ∧ dict_find "last_name" p = Some last
    ∧ dict_find "email" p = Some mail
    ∧ dict_find "blood_type" p = Some blood_type
    ∧ dict_find "doctor_name" a = Some doctor
    ∧ dict_find "department" a = Some department
    ∧ dict_find "appointment_date" a = Some day
    ∧ dict_find "status" a = Some status
    ∧ dict_find "consultation_fee" a = Some fee
    ∧ row = dict_of [("patient_name", PStr (py_str first +:+ " " +:+ py_str last));
                     ("patient_email", mail);
                     ("blood_type", blood_type);
                     ("doctor_name", doctor);
                     ("department", department);
                     ("appointment_date", day);
                     ("status", status);
                     ("consultation_fee", fee)].
Proof.
  unfold merged_row, dict_item.
  destruct (dict_find "first_name" p) as [v1|]; [|done].
  destruct (dict_find "last_name" p) as [v2|]; [|done].
  destruct (dict_find "email" p) as [v3|]; [|done].
  destruct (dict_find "blood_type" p) as [v4|]; [|done].
  destruct (dict_find "doctor_name" a) as [v5|]; [|done].
  destruct (dict_find "department" a) as [v6|]; [|done].
  destruct (dict_find "appointment_date" a) as [v7|]; [|done].
  destruct (dict_find "status" a) as [v8|]; [|done].
  destruct (dict_find "consultation_fee" a) as [v9|]; [|done].
  simpl. intros [= <-]. by exists v1, v2, v3, v4, v5, v6, v7, v8, v9.
Qed.

Lemma merged_row_keys (p a row : dict) :
  merged_row p a = Returned row → keys row = merged_columns.
Proof.
  intros H. apply merged_row_inv in H
    as (v1 & v2 & v3 & v4 & v5 & v6 & v7 & v8 & v9 & _ & _ & _ & _ & _ & _ & _ & _ & _ & ->).
  reflexivity.
Qed.

Lemma merged_row_writable (p a row : dict) :
  merged_row p a = Returned row →
  dict_to_list merged_columns row = Returned (record_of merged_columns row).
Proof.
  intros H. unfold dict_to_list. by rewrite (merged_row_keys _ _ _ H).
Qed.

Lemma merge_loop_run (patients appointments : list dict) :
  ∀ (rows : list dict) (k : nat) (merged : list dict),
    Forall2 merged_from (zip (drop k patients) (drop k appointments)) rows →
    merge_loop (seq k (length rows)) patients appointments merged
    = Returned (merged ++ rows).
Proof.
  induction rows as [|row rows IH]; intros k merged Hrows.
  - simpl. by rewrite app_nil_r.
  - destruct (drop k patients) as [|p ps] eqn:Hp; [by inversion Hrows|].
    destruct (drop k appointments) as [|a apps] eqn:Ha; [by inversion Hrows|].
    simpl in Hrows. apply Forall2_cons in Hrows as [Hrow Hrows].
    assert (patients !! k = Some p) as Hpk.
    { replace k with (k + 0) by lia. by rewrite <- lookup_drop, Hp. }
    assert (appointments !! k = Some a) as Hak.
    { replace k with (k + 0) by lia. by rewrite <- lookup_drop, Ha. }
    assert (drop (S k) patients = ps) as Hps.
    { replace (S k) with (k + 1) by lia. by rewrite <- drop_drop, Hp. }
    assert (drop (S k) appointments = apps) as Happs.
    { replace (S k) with (k + 1) by lia. by rewrite <- drop_drop, Ha. }
    simpl. unfold item. rewrite Hpk, Hak. simpl.
    unfold merged_from in Hrow; simpl in Hrow. rewrite Hrow. simpl.
    rewrite IH by (by rewrite Hps, Happs).
    by rewrite <- app_assoc.
Qed.

Lemma Forall2_total {A B} (R : A → B → Prop) (l : list A) :
  Forall (λ x, ∃ y, R x y) l → ∃ k, Forall2 R l k.
Proof.
  induction 1 as [|x l [y Hy] _ [k Hk]].
  - exists []. constructor.
  - exists (y :: k). by constructor.
Qed.

Lemma open_read_run (p : path) (content : list csv_record) (w : world) :
  lookup_node p w = Some (File content) → open_read p w = (Returned content, w).
Proof. intros H. unfold open_read. by rewrite H. Qed.

(** The run of [merge_csvs] on two readable files with rows to pair. *)
Lemma merge_csvs_run (patients_path appointments_path : path) (output_dir : string)
    (f1 f2 : list csv_record) (entries : gmap string node) (w : world) :
  lookup_node patients_path w = Some (File f1) →
  lookup_node appointments_path w = Some (File f2) →
  files w !! output_dir = Some entries →
  entries !! "merged_data.csv" ≠ Some Dir →
  (DictReader f1).2 ≠ [] →
  (DictReader f2).2 ≠ [] →
  (∀ i p a, (DictReader f1).2 !! i = Some p → (DictReader f2).2 !! i = Some a →
            has_fields patient_fields p ∧ has_fields appointment_fields a) →
  ∃ merged : list dict,
    Forall2 merged_from (zip (DictReader f1).2 (DictReader f2).2) merged
    ∧ merge_csvs patients_path appointments_path output_dir w
      = (Returned (path_join output_dir "merged_data.csv"),
         set_files
           (<[output_dir :=
                <["merged_data.csv" :=
                    File (merged_columns :: (record_of merged_columns <$> merged))]>
                  entries]> (files w)) w).
Proof.
  intros Hf1 Hf2 Hdir Hnode Hne1 Hne2 Hfields.
  set (patients := (DictReader f1).2) in *.
  set (appointments := (DictReader f2).2) in *.
  destruct (Forall2_total merged_from (zip patients appointments)) as [merged Hmerged].
  { apply Forall_lookup. intros i [p a] Hi.
    apply lookup_zip_with_Some in Hi as (p' & a' & [= <- <-] & Hp & Ha).
    destruct (Hfields i p a Hp Ha) as [Hpf Haf].
    by apply merged_row_total. }
  exists merged. split; [done|].
  assert (length merged = min (length patients) (length appointments)) as Hlen.
  { rewrite <- (Forall2_length _ _ _ Hmerged). apply length_zip_with. }
  unfold merge_csvs.
  rewrite (run_bind_returned _ _ _ _ _ (open_read_run _ _ _ Hf1)).
  rewrite (run_bind_returned _ _ _ _ _ (open_read_run _ _ _ Hf2)).
  fold patients appointments. rewrite <- Hlen.
  rewrite run_bind. unfold lift at 1.
  rewrite (merge_loop_run patients appointments merged 0 []) by done.
  simpl app.
  destruct merged as [|first rest].
  { destruct patients, appointments; simpl in Hlen; done. }
  assert (Forall (λ row, keys row = merged_columns
                         ∧ dict_to_list merged_columns row
                           = Returned (record_of merged_columns row))
                 (first :: rest)) as Hshape.
  { apply Forall_forall. intros row Hrow.
    apply list_elem_of_lookup in Hrow as [i Hi].
    destruct (Forall2_lookup_r _ _ _ _ _ Hmerged Hi) as ([p a] & _ & Hpa).
    split; [by eapply merged_row_keys | by eapply merged_row_writable]. }
  assert (keys first = merged_columns) as Hkeys.
  { by apply Forall_cons in Hshape as [[? _] _]. }
  rewrite run_bind.
  rewrite (write_dicts_run (path_join output_dir "merged_data.csv") first rest entries w);
    [| done | done |].
  - by rewrite Hkeys.
  - rewrite Hkeys. eapply Forall_impl; [exact Hshape|]. by intros row [_ ?].
Qed.

(** C2.  On two readable files that both have rows, whose paired rows carry
    the fields the merge projects, [merge_csvs] returns the path of
    [merged_data.csv] and writes the header and one record per merged row.
    There are exactly [min (length patients) (length appointments)] merged
    rows; the row at index [i] is made of the patient and the appointment
    at index [i], each projected field being the source field; and the same
    rows come out of the inputs cut after the first [min] rows, so that
    what follows in the longer input has no part in the result. *)
Theorem merge_csvs_pairs_rows_by_index
    (patients_path appointments_path : path) (output_dir : string)
    (f1 f2 : list csv_record) (entries : gmap string node) (w : world) :
  lookup_node patients_path w = Some (File f1) →
  lookup_node appointments_path w = Some (File f2) →
  files w !! output_dir = Some entries →
  entries !! "merged_data.csv" ≠ Some Dir →
  (DictReader f1).2 ≠ [] →
  (DictReader f2).2 ≠ [] →
  (∀ i p a, (DictReader f1).2 !! i = Some p → (DictReader f2).2 !! i = Some a →
            has_fields patient_fields p ∧ has_fields appointment_fields a) →
  let patients := (DictReader f1).2 in
  let appointments := (DictReader f2).2 in
  let n := min (length patients) (length appointments) in
  ∃ merged : list dict,
    merge_csvs patients_path appointments_path output_dir w
    = (Returned (path_join output_dir "merged_data.csv"),
       set_files
         (<[output_dir :=
              <["merged_data.csv" :=
                  File (merged_columns :: (record_of merged_columns <$> merged))]>
                entries]> (files w)) w)
    ∧ length merged = n
    ∧ (∀ i row, merged !! i = Some row →
         ∃ p a, patients !! i = Some p ∧ appointments !! i = Some a
                ∧ dict_find "patient_email" row = dict_find "email" p
                ∧ dict_find "blood_type" row = dict_find "blood_type" p
                ∧ dict_find "doctor_name" row = dict_find "doctor_name" a
                ∧ dict_find "department" row = dict_find "department" a
                ∧ dict_find "appointment_date" row = dict_find "appointment_date" a
                ∧ dict_find "status" row = dict_find "status" a
                ∧ dict_find "consultation_fee" row = dict_find "consultation_fee" a)
    ∧ merge_loop (seq 0 n) (take n patients) (take n appointments) [] = Returned merged.
Proof.
  intros Hf1 Hf2 Hdir Hnode Hne1 Hne2 Hfields patients appointments n.
  destruct (merge_csvs_run _ _ _ _ _ _ _ Hf1 Hf2 Hdir Hnode Hne1 Hne2 Hfields)
    as (merged & Hmerged & Hrun).
  fold patients appointments in Hmerged.
  assert (length merged = n) as Hlen.
  { rewrite <- (Forall2_length _ _ _ Hmerged). apply length_zip_with. }
  exists merged. repeat split; [done | done | |].
  - intros i row Hi.
    destruct (Forall2_lookup_r _ _ _ _ _ Hmerged Hi) as ([p a] & Hpa & Hrow).
    apply lookup_zip_with_Some in Hpa as (p' & a' & [= <- <-] & Hp & Ha).
    exists p, a. split; [done|]. split; [done|].
    unfold merged_from in Hrow; simpl in Hrow.
    apply merged_row_inv in Hrow
      as (v1 & v2 & v3 & v4 & v5 & v6 & v7 & v8 & v9
          & _ & _ & H3 & H4 & H5 & H6 & H7 & H8 & H9 & ->).
    rewrite H3, H4, H5, H6, H7, H8, H9. by repeat split.
  - rewrite <- Hlen at 1.
    rewrite <- (app_nil_l merged) at 2. apply merge_loop_run.
    rewrite !drop_0. by rewrite zip_with_take_both' by (fold n; lia).
Qed.

(** C10.  Under the same conditions every merged row has the eight columns
    [patient_name], [patient_email], [blood_type], [doctor_name],
    [department], [appointment_date], [status], [consultation_fee], in
    that order, they are the header of the file written, and
    [patient_name] is the text of the patient's [first_name], one space,
    and the text of its [last_name]. *)
Theorem merge_csvs_columns_and_patient_name
    (patients_path appointments_path : path) (output_dir : string)
    (f1 f2 : list csv_record) (entries : gmap string node) (w : world) :
  lookup_node patients_path w = Some (File f1) →
  lookup_node appointments_path w = Some (File f2) →
  files w !! output_dir = Some entries →
  entries !! "merged_data.csv" ≠ Some Dir →
  (DictReader f1).2 ≠ [] →
  (DictReader f2).2 ≠ [] →
  (∀ i p a, (DictReader f1).2 !! i = Some p → (DictReader f2).2 !! i = Some a →
            has_fields patient_fields p ∧ has_fields appointment_fields a) →
  ∃ (merged : list dict) (w' : world),
    merge_csvs patients_path appointments_path output_dir w
    = (Returned (path_join output_dir "merged_data.csv"), w')
    ∧ lookup_node (path_join output_dir "merged_data.csv") w'
      = Some (File (["patient_name"; "patient_email"; "blood_type"; "doctor_name";
                     "department"; "appointment_date"; "status"; "consultation_fee"]
                    :: (record_of merged_columns <$> merged)))
    ∧ length merged = min (length (DictReader f1).2) (length (DictReader f2).2)
    ∧ ∀ i row, merged !! i = Some row →
        keys row = ["patient_name"; "patient_email"; "blood_type"; "doctor_name";
                    "department"; "appointment_date"; "status"; "consultation_fee"]
        ∧ ∃ p first last,
            (DictReader f1).2 !! i = Some p
            ∧ dict_find "first_name" p = Some first
            ∧ dict_find "last_name" p = Some last
            ∧ dict_find "patient_name" row
              = Some (PStr (py_str first +:+ " " +:+ py_str last)).
Proof.
  intros Hf1 Hf2 Hdir Hnode Hne1 Hne2 Hfields.
  destruct (merge_csvs_run _ _ _ _ _ _ _ Hf1 Hf2 Hdir Hnode Hne1 Hne2 Hfields)
    as (merged & Hmerged & Hrun).
  eexists merged, _. split; [exact Hrun|]. split; [|split].
  - unfold lookup_node, path_join; simpl.
    rewrite lookup_insert_eq; simpl. by rewrite lookup_insert_eq.
  - rewrite <- (Forall2_length _ _ _ Hmerged). apply length_zip_with.
  - intros i row Hi.
    destruct (Forall2_lookup_r _ _ _ _ _ Hmerged Hi) as ([p a] & Hpa & Hrow).
    apply lookup_zip_with_Some in Hpa as (p' & a' & [= <- <-] & Hp & Ha).
    unfold merged_from in Hrow; simpl in Hrow.
    split; [by eapply merged_row_keys|].
    apply merged_row_inv in Hrow
      as (v1 & v2 & v3 & v4 & v5 & v6 & v7 & v8 & v9
          & H1 & H2 & _ & _ & _ & _ & _ & _ & _ & ->).
    by exists p, v1, v2.
Qed.

(** C3 (as the code has it).  When one of the two files has no row, nothing
    can be paired, [merged] is empty and [merged[0]] raises the built-in
    [IndexError]: the task fails and returns no path. *)
Theorem merge_csvs_empty_input_raises_IndexError
    (patients_path appointments_path : path) (output_dir : string)
    (f1 f2 : list csv_record) (entries : gmap string node) (w : world) :
  lookup_node patients_path w = Some (File f1) →
  lookup_node appointments_path w = Some (File f2) →
  files w !! output_dir = Some entries →
  entries !! "merged_data.csv" ≠ Some Dir →
  (DictReader f1).2 = [] ∨ (DictReader f2).2 = [] →
  ∃ w' : world,
    merge_csvs patients_path appointments_path output_dir w = (Raised IndexError, w').
Proof.
  intros Hf1 Hf2 Hdir Hnode Hempty. unfold merge_csvs.
  rewrite (run_bind_returned _ _ _ _ _ (open_read_run _ _ _ Hf1)).
  rewrite (run_bind_returned _ _ _ _ _ (open_read_run _ _ _ Hf2)).
  assert (min (length (DictReader f1).2) (length (DictReader f2).2) = 0) as ->.
  { destruct Hempty as [-> | ->]; simpl; lia. }
  rewrite run_bind. simpl seq. simpl merge_loop. unfold lift at 1.
  rewrite run_bind.
  rewrite (write_dicts_empty (path_join output_dir "merged_data.csv") entries w) by done.
  eauto.
Qed.

(** ** [fetch_patients] and [fetch_appointments] *)

Lemma set_draws_twice (n m : nat) (w : world) :
  set_draws n (set_draws m w) = set_draws n w.
Proof. reflexivity. Qed.

Lemma draw_run {A} (fake : Faker) (provider : Faker → nat → A) (w : world) :
  draw fake provider w
  = (Returned (provider fake (draws w)), set_draws (S (draws w)) w).
Proof. reflexivity. Qed.

Lemma random_element_run {A} (fake : Faker) (xs : list A) (w : world) :
  xs ≠ [] →
  ∃ x, x ∈ xs ∧ random_element fake xs w = (Returned x, set_draws (S (draws w)) w).
Proof.
  intros Hne. unfold random_element. rewrite run_bind, draw_run.
  destruct (lookup_lt_is_Some_2 xs (random_index fake (draws w) `mod` length xs))
    as [x Hx].
  { apply Nat.mod_upper_bound. by destruct xs. }
  exists x. rewrite Hx. split; [|done]. by eapply list_elem_of_lookup_2.
Qed.

Ltac run_draw :=
  rewrite run_bind;
  first
    [ rewrite draw_run
    | match goal with
      | |- context [random_element ?fake ?xs ?w] =>
          let x := fresh "x" in
          let Hx := fresh "Hx" in
          let Hrun := fresh "Hrun" in
          destruct (random_element_run fake xs w) as (x & Hx & Hrun);
          [ done | rewrite Hrun; clear Hrun ]
      end ];
  rewrite ?set_draws_twice.

Lemma patient_run (fake : Faker) (w : world) :
  ∃ d k, patient fake w = (Returned d, set_draws k w)
         ∧ patient_shaped d
         ∧ dict_to_list patient_columns d = Returned (record_of patient_columns d).
Proof.
  unfold patient. do 9 run_draw.
  eexists _, _. split; [reflexivity|].
  split; [|reflexivity].
  split; [reflexivity|]. split; eexists; (split; [reflexivity | done]).
Qed.

Lemma appointment_run (fake : Faker) (w : world) :
  ∃ d k, appointment fake w = (Returned d, set_draws k w)
         ∧ appointment_shaped d
         ∧ dict_to_list appointment_columns d = Returned (record_of appointment_columns d).
Proof.
  unfold appointment. do 8 run_draw.
  eexists _, _. split; [reflexivity|].
  split; [|reflexivity].
  split; [reflexivity|]. repeat split; eexists; (split; [reflexivity | done]).
Qed.

Lemma generate_run (row : M dict) (P : dict → Prop) :
  (∀ w, ∃ d k, row w = (Returned d, set_draws k w) ∧ P d) →
  ∀ (quantity : nat) (data : list dict) (w : world),
    Forall P data →
    ∃ data' k, generate row quantity data w = (Returned data', set_draws k w)
               ∧ length data' = length data + quantity
               ∧ Forall P data'.
Proof.
  intros Hrow. induction quantity as [|q IH]; intros data w Hdata.
  - exists data, (draws w). simpl. unfold ret. split; [by destruct w|].
    split; [lia | done].
  - destruct (Hrow w) as (d & k & Hd & HP).
    destruct (IH (data ++ [d]) (set_draws k w)) as (data' & k' & Hrun & Hlen & Hall).
    { apply Forall_app. split; [done | by apply Forall_singleton]. }
    exists data', k'. simpl. rewrite (run_bind_returned _ _ _ _ _ Hd), Hrun.
    split; [done|]. split; [|done]. rewrite Hlen, length_app. simpl. lia.
Qed.

Lemma makedirs_run (folder : string) (w : world) :
  ∃ w', makedirs folder w = (Returned (), w')
        ∧ files w' !! folder = Some (default ∅ (files w !! folder))
        ∧ store w' = store w ∧ link w' = link w ∧ journal w' = journal w.
Proof.
  unfold makedirs, modify. destruct (files w !! folder) as [entries|] eqn:E.
  - exists w. by rewrite E.
  - eexists. split; [reflexivity|]. simpl. by rewrite lookup_insert_eq.
Qed.

(** The common run of the two generating tasks: [quantity] rows are drawn
    and written under their header. *)
Lemma fetch_run (row : M dict) (P : dict → Prop) (cols : list string)
    (output_dir name : string) (quantity : nat) (w : world) :
  (∀ w, ∃ d k, row w = (Returned d, set_draws k w)
               ∧ (P d ∧ keys d = cols)
               ∧ dict_to_list cols d = Returned (record_of cols d)) →
  0 < quantity →
  lookup_node (path_join output_dir name) w ≠ Some Dir →
  ∃ (data : list dict) (w' : world),
    (data ← generate row quantity [];
     _ ← makedirs output_dir;
     _ ← write_dicts (path_join output_dir name) data;
     ret (path_join output_dir name)) w
    = (Returned (path_join output_dir name), w')
    ∧ lookup_node (path_join output_dir name) w'
      = Some (File (cols :: (record_of cols <$> data)))
    ∧ length data = quantity
    ∧ Forall P data
    ∧ store w' = store w.
Proof.
  intros Hrow Hpos Hnode.
  destruct (generate_run row
              (λ d, (P d ∧ keys d = cols)
                    ∧ dict_to_list cols d = Returned (record_of cols d))
              Hrow quantity [] w) as (data & k & Hgen & Hlen & Hall); [done|].
  simpl in Hlen.
  destruct (makedirs_run output_dir (set_draws k w)) as (w1 & Hmk & Hdir & Hstore & _).
  destruct data as [|first rest]; [simpl in Hlen; lia|].
  assert (keys first = cols) as Hkeys.
  { by apply Forall_cons in Hall as [[[_ ?] _] _]. }
  exists (first :: rest). eexists.
  rewrite (run_bind_returned _ _ _ _ _ Hgen), (run_bind_returned _ _ _ _ _ Hmk).
  rewrite run_bind.
  rewrite (write_dicts_run (path_join output_dir name) first rest _ w1 Hdir).
  - rewrite Hkeys. split; [reflexivity|]. split; [|split; [done|split]].
    + unfold lookup_node, path_join; simpl.
      rewrite lookup_insert_eq; simpl. by rewrite lookup_insert_eq.
    + eapply Forall_impl; [exact Hall|]. by intros d [[? _] _].
    + simpl. by rewrite Hstore.
  - unfold lookup_node, path_join in Hnode; simpl in *.
    by destruct (files w !! output_dir).
  - rewrite Hkeys. eapply Forall_impl; [exact Hall|]. by intros d [_ ?].
Qed.

(** C6.  For a quantity of at least one, [fetch_patients] and
    [fetch_appointments] each return their path and write, under the header
    of their fixed columns, exactly [quantity] rows; in every patient row
    [gender] is one of Male, Female, Other and [blood_type] one of the
    eight blood types; in every appointment row [department] is one of the
    five departments, [duration_minutes] one of 15, 30, 45, 60 and [status]
    one of scheduled, completed, cancelled, no-show. *)
Theorem fetch_tasks_rows_columns_and_enumerations
    (fake : Faker) (output_dir : string) (quantity : Z) (w : world) :
  (1 ≤ quantity)%Z →
  lookup_node (path_join output_dir "patients.csv") w ≠ Some Dir →
  lookup_node (path_join output_dir "appointments.csv") w ≠ Some Dir →
  (∃ (data : list dict) (w' : world),
     fetch_patients fake output_dir quantity w
     = (Returned (path_join output_dir "patients.csv"), w')
     ∧ lookup_node (path_join output_dir "patients.csv") w'
       = Some (File (["patient_id"; "first_name"; "last_name"; "date_of_birth";
                      "gender"; "blood_type"; "email"; "phone"; "address"]
                     :: (record_of patient_columns <$> data)))
     ∧ Z.of_nat (length data) = quantity
     ∧ ∀ d, d ∈ data →
         keys d = ["patient_id"; "first_name"; "last_name"; "date_of_birth";
                   "gender"; "blood_type"; "email"; "phone"; "address"]
         ∧ text_among "gender" ["Male"; "Female"; "Other"] d
         ∧ text_among "blood_type" ["A+"; "A-"; "B+"; "B-"; "O+"; "O-"; "AB+"; "AB-"] d)
  ∧ (∃ (data : list dict) (w' : world),
       fetch_appointments fake output_dir quantity w
       = (Returned (path_join output_dir "appointments.csv"), w')
       ∧ lookup_node (path_join output_dir "appointments.csv") w'
         = Some (File (["appointment_id"; "doctor_name"; "department";
                        "appointment_date"; "appointment_time"; "duration_minutes";
                        "status"; "consultation_fee"]
                       :: (record_of appointment_columns <$> data)))
       ∧ Z.of_nat (length data) = quantity
       ∧ ∀ d, d ∈ data →
           keys d = ["appointment_id"; "doctor_name"; "department";
                     "appointment_date"; "appointment_time"; "duration_minutes";
                     "status"; "consultation_fee"]
           ∧ text_among "department"
               ["Cardiology"; "Neurology"; "Pediatrics"; "Orthopedics"; "Dermatology"] d
           ∧ int_among "duration_minutes" [15; 30; 45; 60]%Z d
           ∧ text_among "status" ["scheduled"; "completed"; "cancelled"; "no-show"] d).
Proof.
  intros Hq Hp Ha. split.
  - destruct (fetch_run (patient fake) patient_shaped patient_columns
                output_dir "patients.csv" (Z.to_nat quantity) w)
      as (data & w' & Hrun & Hfile & Hlen & Hall & _); [| lia | done |].
    { intros w0. destruct (patient_run fake w0) as (d & k & Hd & Hshape & Hrec).
      exists d, k. split; [done|]. split; [|done]. split; [done | apply Hshape]. }
    exists data, w'. split; [exact Hrun|]. split; [exact Hfile|]. split; [lia|].
    intros d Hd. by apply (proj1 (Forall_forall _ _) Hall).
  - destruct (fetch_run (appointment fake) appointment_shaped appointment_columns
                output_dir "appointments.csv" (Z.to_nat quantity) w)
      as (data & w' & Hrun & Hfile & Hlen & Hall & _); [| lia | done |].
    { intros w0. destruct (appointment_run fake w0) as (d & k & Hd & Hshape & Hrec).
      exists d, k. split; [done|]. split; [|done]. split; [done | apply Hshape]. }
    exists data, w'. split; [exact Hrun|]. split; [exact Hfile|]. split; [lia|].
    intros d Hd. by apply (proj1 (Forall_forall _ _) Hall).
Qed.

(** C7 (as the code has it).  With a quantity of zero no row is drawn, the
    list is empty, and [data[0]] raises [IndexError] once the file has been
    opened: neither generating task returns, and no header is written. *)
Theorem fetch_tasks_zero_quantity_raise_IndexError
    (fake : Faker) (output_dir : string) (w : world) :
  lookup_node (path_join output_dir "patients.csv") w ≠ Some Dir →
  lookup_node (path_join output_dir "appointments.csv") w ≠ Some Dir →
  (∃ w', fetch_patients fake output_dir 0 w = (Raised IndexError, w')
         ∧ lookup_node (path_join output_dir "patients.csv") w' = Some (File []))
  ∧ (∃ w', fetch_appointments fake output_dir 0 w = (Raised IndexError, w')
           ∧ lookup_node (path_join output_dir "appointments.csv") w' = Some (File [])).
Proof.
  intros Hp Ha.
  destruct (makedirs_run output_dir w) as (w1 & Hmk & Hdir & _).
  assert (∀ name, lookup_node (path_join output_dir name) w ≠ Some Dir →
                  default ∅ (files w !! output_dir) !! name ≠ Some Dir) as Hnode.
  { intros name. unfold lookup_node, path_join; simpl.
    by destruct (files w !! output_dir). }
  split; eexists.
  - unfold fetch_patients. simpl generate. rewrite run_bind. unfold ret at 1.
    rewrite (run_bind_returned _ _ _ _ _ Hmk), run_bind.
    rewrite (write_dicts_empty (path_join output_dir "patients.csv") _ w1 Hdir)
      by by apply Hnode.
    split; [reflexivity|]. unfold lookup_node, path_join; simpl.
    rewrite lookup_insert_eq; simpl. by rewrite lookup_insert_eq.
  - unfold fetch_appointments. simpl generate. rewrite run_bind. unfold ret at 1.
    rewrite (run_bind_returned _ _ _ _ _ Hmk), run_bind.
    rewrite (write_dicts_empty (path_join output_dir "appointments.csv") _ w1 Hdir)
      by by apply Hnode.
    split; [reflexivity|]. unfold lookup_node, path_join; simpl.
    rewrite lookup_insert_eq; simpl. by rewrite lookup_insert_eq.
Qed.

(** ** [load_csv_to_pg]: what a run leaves on the server *)







Lemma journal_record_event (e : event) (w : world) :
  journal (record_event e w) = journal w ++ [e].
Proof. reflexivity. Qed.

Section Transactions.

Variable faulty : db_op → bool.







End Transactions.




(** ** [load_csv_to_pg]: the guard on empty input, and the connection *)

(** C4 (as the code has it).  On a file without rows, with or without a
    header, [load_csv_to_pg] returns 0 at its guard [if not rows], before
    any connection is asked for: no statement is sent, and the world,
    server included, is as it was. *)
Theorem load_csv_to_pg_no_rows_returns_before_connecting
    (faulty : db_op → bool) (conn_id : string) (csv_path : path) (table : string)
    (append : bool) (f : list csv_record) (w : world) :
  lookup_node csv_path w = Some (File f) →
  (DictReader f).2 = [] →
  load_csv_to_pg faulty conn_id csv_path table append w = (Returned 0%Z, w).
Proof.
  intros Hf Hempty. unfold load_csv_to_pg.
  rewrite (run_bind_returned _ _ _ _ _ (open_read_run _ _ _ Hf)).
  by rewrite Hempty.
Qed.



(** ** [load_csv_to_pg]: a run without faults *)

(** Plain names are read as they are written. *)
Lemma plain_name_folded (s : string) : plain_name s = true → folded s = s.
Proof.
  unfold plain_name. intros H. apply andb_prop in H as [_ H].
  by apply String.eqb_eq.
Qed.

Lemma plain_name_column (s : string) : plain_name s = true → column_name s = true.
Proof. unfold plain_name. intros H. by apply andb_prop in H as [H _]. Qed.

Lemma plain_names_folded (cols : list string) :
  Forall (λ c, plain_name c = true) cols → folded <$> cols = cols.
Proof.
  induction 1 as [|c cols Hc _ IH]; [done|].
  rewrite fmap_cons, IH. f_equal. by apply plain_name_folded.
Qed.

Lemma qualified_plain (table : string) :
  plain_name table = true →
  qualified "week8_demo" table = Some ("week8_demo", table).
Proof.
  intros Ht. unfold qualified.
  pose proof (plain_name_column table Ht) as Hc. unfold column_name, identifier in Hc.
  apply andb_prop in Hc as [Hc _]. apply andb_prop in Hc as [Hc _].
  rewrite Hc, (plain_name_folded table Ht). reflexivity.
Qed.

Lemma column_list_plain (cols : list string) :
  Forall (λ c, plain_name c = true) cols → column_list cols = Some cols.
Proof.
  intros Hall. unfold column_list. rewrite (plain_names_folded cols Hall).
  assert (forallb column_name cols = true) as ->; [|done].
  apply forallb_forall. intros c Hc. apply plain_name_column.
  apply (proj1 (Forall_forall _ _) Hall). by apply list_elem_of_In.
Qed.

Lemma sure_columns_enough : (sure_columns ≤ max_columns)%nat.
Proof. apply Nat.leb_le. reflexivity. Qed.

Lemma run_create_schema (db : database) :
  run_stmt (CreateSchemaIfNotExists "week8_demo") db
  = Some (Database ({["week8_demo"]} ∪ schemas db) (tables db)).
Proof. reflexivity. Qed.

Lemma run_create_table (table : string) (cols : list string) (db : database) :
  plain_names table cols →
  "week8_demo" ∈ schemas db →
  run_stmt (CreateTableIfNotExists "week8_demo" table cols) db
  = Some (match tables db !! ("week8_demo", table) with
          | Some _ => db
          | None => Database (schemas db)
                      (<[("week8_demo", table) := Relation cols []]> (tables db))
          end).
Proof.
  intros (Ht & Hall & Hnd & Hlen) Hs. cbn [run_stmt].
  rewrite (qualified_plain table Ht), (column_list_plain cols Hall).
  cbn [mbind option_bind fst]. rewrite bool_decide_eq_true_2 by done.
  destruct (tables db !! ("week8_demo", table)); [done|].
  rewrite !bool_decide_eq_true_2; [done | | done].
  etrans; [apply Hlen | apply sure_columns_enough].
Qed.

Lemma run_delete (table : string) (tb : relation) (db : database) :
  plain_name table = true →
  tables db !! ("week8_demo", table) = Some tb →
  run_stmt (DeleteFrom "week8_demo" table) db
  = Some (Database (schemas db)
            (<[("week8_demo", table) := Relation (columns tb) []]> (tables db))).
Proof.
  intros Ht Htb. cbn [run_stmt]. rewrite (qualified_plain table Ht).
  cbn [mbind option_bind]. by rewrite Htb.
Qed.

(** What the server holds after a run that went through, for plain names. *)
Lemma loaded_plain (table : string) (fieldnames : list string)
    (rows : list (list (option string))) (append : bool) (db : database) :
  plain_name table = true →
  Forall (λ c, plain_name c = true) fieldnames →
  loaded "week8_demo" table fieldnames rows append db
  = Database ({["week8_demo"]} ∪ schemas db)
      (<[("week8_demo", table) :=
           Relation
             (match tables db !! ("week8_demo", table) with
              | Some tb => columns tb
              | None => fieldnames
              end)
             ((match tables db !! ("week8_demo", table) with
               | Some tb => if append then body tb else []
               | None => []
               end)
              ++ ((λ r, bound_row fieldnames r
                          (match tables db !! ("week8_demo", table) with
                           | Some tb => columns tb
                           | None => fieldnames
                           end)) <$> rows))]>
         (tables db)).
Proof.
  intros Ht Hall. unfold loaded.
  rewrite (plain_name_folded table Ht), (plain_names_folded fieldnames Hall).
  reflexivity.
Qed.

Lemma qualified_folded (schema table : string) (key : string * string) :
  qualified schema table = Some key → key = (folded schema, folded table).
Proof. unfold qualified. destruct (_ && _); [by intros [= <-] | done]. Qed.

Lemma column_list_folded (cols names : list string) :
  column_list cols = Some names → names = folded <$> cols.
Proof. unfold column_list. destruct (forallb _ _); [by intros [= <-] | done]. Qed.

Section FaultFree.

Variable faulty : db_op → bool.
Hypothesis no_fault : ∀ o, faulty o = false.

Lemma execute_accepted (q : stmt) (db db' : database) (w0 w : world) :
  in_session db w0 w → run_stmt q db = Some db' →
  ∃ w', execute faulty q w = (Returned (), w') ∧ in_session db' w0 w'.
Proof.
  intros ([k Hk] & Hstore & Hfiles) Hrun. unfold execute.
  rewrite run_bind. unfold gets. rewrite Hk, no_fault. simpl. rewrite Hrun.
  eexists. split; [reflexivity|]. split; [by eexists|]. by split.
Qed.

Lemma executemany_accepted (schema table : string) (cols tcols : list string)
    (rows : list (list (option string))) :
  qualified schema table = Some (schema, table) →
  column_list cols = Some cols →
  cols ≠ [] → NoDup cols →
  Forall (λ c, c ∈ tcols) cols →
  Forall (λ r, length r = length cols) rows →
  ∀ (kept : list (list (option string))) (db : database) (w0 w : world),
    in_session db w0 w →
    tables db !! (schema, table) = Some (Relation tcols kept) →
    ∃ w', executemany faulty (InsertInto schema table cols) rows w = (Returned (), w')
          ∧ in_session
              (Database (schemas db)
                 (<[(schema, table) :=
                      Relation tcols (kept ++ ((λ r, bound_row cols r tcols) <$> rows))]>
                    (tables db))) w0 w'.
Proof.
  intros Hkey Hnames Hne Hnd Hcols. unfold executemany.
  induction 1 as [|r rows Hr _ IH]; intros kept db w0 w Hw Htb.
  - exists w. split; [done|]. simpl. rewrite app_nil_r, insert_id by done.
    by destruct db.
  - rewrite run_for_each_cons.
    destruct (execute_accepted (InsertInto schema table cols r) db
                (Database (schemas db)
                   (<[(schema, table) := Relation tcols (kept ++ [bound_row cols r tcols])]>
                      (tables db))) w0 w Hw) as (w1 & -> & Hw1).
    { cbn [run_stmt]. rewrite Hkey, Hnames. cbn [mbind option_bind]. rewrite Htb.
      cbn [columns body].
      rewrite !bool_decide_eq_true_2 by done. cbn [andb].
      assert (forallb (λ c, bool_decide (c ∈ tcols)) cols = true) as ->; [|done].
      apply forallb_forall. intros c Hc. apply bool_decide_eq_true_2.
      apply (proj1 (Forall_forall _ _) Hcols). by apply list_elem_of_In. }
    destruct (IH (kept ++ [bound_row cols r tcols]) _ w0 w1 Hw1) as (w2 & -> & Hw2).
    { simpl. apply lookup_insert_eq. }
    exists w2. split; [done|]. simpl in Hw2.
    by rewrite insert_insert_eq, <- app_assoc in Hw2.
Qed.

Lemma load_csv_to_pg_goes_through (conn_id : string) (csv_path : path) (table : string)
    (append : bool) (header : list string) (rest : list csv_record) (w : world) :
  lookup_node csv_path w = Some (File (header :: rest)) →
  (DictReader (header :: rest)).2 ≠ [] →
  plain_names table header →
  fits "week8_demo" table header (store w) →
  let rows := (λ r, (λ col, get_or_none col r) <$> header)
              <$> (DictReader (header :: rest)).2 in
  ∃ w', load_csv_to_pg faulty conn_id csv_path table append w
        = (Returned (Z.of_nat (length rows)), w')
        ∧ store w' = loaded "week8_demo" table header rows append (store w)
        ∧ files w' = files w.
Proof.
  intros Hf Hne Hplain Hfits rows. unfold load_csv_to_pg.
  pose proof Hplain as (Ht & Hall & Hnd & Hlen).
  rewrite (loaded_plain table header rows append (store w) Ht Hall).
  rewrite (run_bind_returned _ _ _ _ _ (open_read_run _ _ _ Hf)).
  change ((DictReader (header :: rest)).1) with (Some header).
  change (default [] (Some header)) with header. fold rows.
  rewrite bool_decide_eq_false_2
    by (subst rows; by destruct (DictReader (header :: rest)).2).
  rewrite run_bind. unfold get_conn. rewrite no_fault. unfold modify at 1.
  set (w1 := record_event (Done Connect) (set_link (Some (Session (store w) 0)) w)).
  assert (in_session (store w) w w1) as Hw1 by (split; [by eexists | done]).
  unfold try_finally, try_except.
  (* CREATE SCHEMA IF NOT EXISTS *)
  rewrite run_bind.
  destruct (execute_accepted (CreateSchemaIfNotExists "week8_demo") _ _ w w1 Hw1
              (run_create_schema (store w))) as (w2 & -> & Hw2).
  (* CREATE TABLE IF NOT EXISTS *)
  set (cols := match tables (store w) !! ("week8_demo", table) with
               | Some tb => columns tb
               | None => header
               end).
  set (old := match tables (store w) !! ("week8_demo", table) with
              | Some tb => body tb
              | None => []
              end).
  rewrite run_bind.
  destruct (execute_accepted
              (CreateTableIfNotExists "week8_demo" table header) _
              (Database ({["week8_demo"]} ∪ schemas (store w))
                 (<[("week8_demo", table) := Relation cols old]> (tables (store w))))
              w w2 Hw2) as (w3 & -> & Hw3).
  { rewrite (run_create_table table header _ Hplain)
      by (apply elem_of_union_l, elem_of_singleton_2; done).
    cbn [tables schemas]. subst cols old.
    destruct (tables (store w) !! ("week8_demo", table)) as [[tcols tbody]|] eqn:Htb;
      [|done].
    cbn [columns body]. by rewrite insert_id. }
  assert (Forall (λ c, c ∈ cols) header) as Hcols.
  { subst cols. unfold fits in Hfits.
    destruct (tables (store w) !! ("week8_demo", table)); [done|].
    apply Forall_forall. auto. }
  assert (Forall (λ r : list (option string), length r = length header) rows) as Hlens.
  { subst rows. apply Forall_fmap, Forall_forall. intros r _. simpl.
    by rewrite length_fmap. }
  (* DELETE FROM, in replace mode *)
  set (kept := match tables (store w) !! ("week8_demo", table) with
               | Some tb => if append then body tb else []
               | None => []
               end).
  assert (∃ w4, (match (if negb append then Some (DeleteFrom "week8_demo" table)
                        else None) with
                 | Some q => execute faulty q
                 | None => ret ()
                 end) w3 = (Returned (), w4)
                ∧ in_session
                    (Database ({["week8_demo"]} ∪ schemas (store w))
                       (<[("week8_demo", table) := Relation cols kept]>
                          (tables (store w)))) w w4) as (w4 & Hdel & Hw4).
  { destruct append; simpl.
    - exists w3. split; [done|]. subst kept old.
      by destruct (tables (store w) !! ("week8_demo", table)).
    - destruct (execute_accepted (DeleteFrom "week8_demo" table) _
                  (Database ({["week8_demo"]} ∪ schemas (store w))
                     (<[("week8_demo", table) := Relation cols []]> (tables (store w))))
                  w w3 Hw3) as (w4 & Hrun & Hw4).
      { rewrite (run_delete table (Relation cols old) _ Ht)
          by (cbn [tables]; apply lookup_insert_eq).
        cbn [tables schemas columns]. by rewrite insert_insert_eq. }
      exists w4. split; [done|]. subst kept.
      by destruct (tables (store w) !! ("week8_demo", table)). }
  rewrite run_bind, Hdel.
  (* INSERT INTO, once per row *)
  rewrite run_bind.
  assert (header ≠ []) as Hsome by (destruct header; [simpl in Hlen; lia | done]).
  destruct (executemany_accepted "week8_demo" table header cols rows
              (qualified_plain table Ht) (column_list_plain header Hall) Hsome Hnd
              Hcols Hlens kept _ w w4 Hw4) as (w5 & -> & Hw5).
  { simpl. apply lookup_insert_eq. }
  simpl in Hw5. rewrite insert_insert_eq in Hw5.
  destruct Hw5 as ([k Hk] & Hstore5 & Hfiles5).
  (* COMMIT, then close *)
  rewrite run_bind. unfold commit at 1. rewrite run_bind. unfold gets at 1.
  rewrite Hk, no_fault. unfold modify at 1.
  unfold ret at 1. unfold close. rewrite no_fault. unfold modify.
  eexists. split; [reflexivity|]. simpl. by split.
Qed.

End FaultFree.

Lemma loaded_fits (table : string) (fieldnames : list string)
    (rows : list (list (option string))) (append : bool) (db : database) :
  plain_name table = true →
  Forall (λ c, plain_name c = true) fieldnames →
  fits "week8_demo" table fieldnames db →
  fits "week8_demo" table fieldnames (loaded "week8_demo" table fieldnames rows append db).
Proof.
  intros Ht Hall. rewrite (loaded_plain _ _ _ _ _ Ht Hall).
  unfold fits. cbn [tables]. rewrite lookup_insert_eq. cbn [columns].
  destruct (tables db !! ("week8_demo", table)); [done|].
  intros _. apply Forall_forall. auto.
Qed.

Lemma loaded_replace_twice (table : string) (fieldnames : list string)
    (rows : list (list (option string))) (db : database) :
  plain_name table = true →
  Forall (λ c, plain_name c = true) fieldnames →
  loaded "week8_demo" table fieldnames rows false
    (loaded "week8_demo" table fieldnames rows false db)
  = loaded "week8_demo" table fieldnames rows false db.
Proof.
  intros Ht Hall. rewrite (loaded_plain _ _ _ _ (loaded _ _ _ _ _ _) Ht Hall).
  rewrite (loaded_plain _ _ _ _ db Ht Hall).
  cbn [tables schemas]. rewrite lookup_insert_eq. cbn [columns body]. f_equal.
  - by rewrite (assoc_L (∪)), union_idemp_L.
  - rewrite insert_insert_eq. by destruct (tables db !! ("week8_demo", table)).
Qed.

(** C5 (as the code has it).  The names of the header go into the
    statements unquoted, so the server must be able to read them: on a
    file with rows whose table name and header are plain names, the names
    of the header distinct, and whose cells hold no NUL character, with no
    fault and a destination whose table, when it is there, has the columns
    of the file, two runs of [load_csv_to_pg] in replace mode
    ([append=False]) one after the other both return the number of rows of
    the file, and the table then holds exactly that many rows; the second
    run, which clears before it inserts, leaves the server as the first
    run left it. *)
Theorem load_csv_to_pg_replace_twice_keeps_row_count
    (faulty : db_op → bool) (conn_id : string) (csv_path : path) (table : string)
    (header : list string) (rest : list csv_record) (w : world) :
  (∀ o, faulty o = false) →
  lookup_node csv_path w = Some (File (header :: rest)) →
  (DictReader (header :: rest)).2 ≠ [] →
  plain_names table header →
  without NUL rest →
  fits "week8_demo" table header (store w) →
  let dataset := (DictReader (header :: rest)).2 in
  ∃ (w1 w2 : world) (tb : relation),
    load_csv_to_pg faulty conn_id csv_path table false w
    = (Returned (Z.of_nat (length dataset)), w1)
    ∧ load_csv_to_pg faulty conn_id csv_path table false w1
      = (Returned (Z.of_nat (length dataset)), w2)
    ∧ tables (store w2) !! ("week8_demo", table) = Some tb
    ∧ length (body tb) = length dataset
    ∧ store w2 = store w1.
Proof.
  intros Hno Hf Hne Hplain _ Hfits dataset.
  pose proof Hplain as (Ht & Hall & _ & _).
  destruct (load_csv_to_pg_goes_through faulty Hno conn_id csv_path table false
              header rest w Hf Hne Hplain Hfits) as (w1 & Hrun1 & Hstore1 & Hfiles1).
  assert (lookup_node csv_path w1 = Some (File (header :: rest))) as Hf1.
  { unfold lookup_node in *. by rewrite Hfiles1. }
  assert (fits "week8_demo" table header (store w1)) as Hfits1.
  { rewrite Hstore1. by apply loaded_fits. }
  destruct (load_csv_to_pg_goes_through faulty Hno conn_id csv_path table false
              header rest w1 Hf1 Hne Hplain Hfits1) as (w2 & Hrun2 & Hstore2 & Hfiles2).
  rewrite length_fmap in Hrun1, Hrun2.
  rewrite Hstore1, loaded_replace_twice in Hstore2 by done.
  eexists w1, w2, _. split; [exact Hrun1|]. split; [exact Hrun2|].
  split; [|split].
  - rewrite Hstore2, (loaded_plain _ _ _ _ _ Ht Hall). cbn [tables].
    apply lookup_insert_eq.
  - subst dataset. cbn [body]. rewrite length_app, !length_fmap.
    by destruct (tables (store w) !! ("week8_demo", table)).
  - by rewrite Hstore1, Hstore2.
Qed.

(** * Concrete runs *)

(** Cleaning a folder that holds two csv files, an image, a backup whose
    name has [.csv] inside and a directory named [archive.csv]. *)
Lemma cleanup_folder_witness :
  files cluttered_world !! OUTPUT_DIR = Some cluttered_entries
  ∧ ∃ kept : gmap string node,
      cleanup_folder OUTPUT_DIR cluttered_world
      = (Returned (), set_files (<[OUTPUT_DIR := kept]> (files cluttered_world)) cluttered_world)
      ∧ kept !! "patients.csv" = None
      ∧ kept !! "merged_data.csv" = None
      ∧ kept !! "dashboard.png" = Some (File [])
      ∧ kept !! "notes.csv.bak" = Some (File [["keep"]])
      ∧ kept !! "archive.csv" = Some Dir.
Proof.
  split; [reflexivity|].
  destruct (cleanup_folder_removes_exactly_csv_files OUTPUT_DIR cluttered_entries
              cluttered_world eq_refl) as (kept & Hrun & Hkept).
  exists kept. split; [exact Hrun|].
  rewrite !Hkept. repeat split; reflexivity.
Defined.



(** The rows of the two example files carry the fields the merge reads. *)
Lemma pipeline_rows_have_fields :
  ∀ i p a, (DictReader patients_csv).2 !! i = Some p →
           (DictReader appointments_csv).2 !! i = Some a →
           has_fields patient_fields p ∧ has_fields appointment_fields a.
Proof.
  intros i p a Hp Ha.
  destruct i as [|[|i]]; vm_compute in Hp, Ha; try discriminate;
    injection Hp as <-; injection Ha as <-;
    split; apply (bool_decide_unpack _); vm_compute; exact I.
Defined.

(** Three patients and two appointments give two merged rows. *)
Lemma merge_csvs_pairs_witness :
  ∃ merged : list dict,
    (merge_csvs (path_join OUTPUT_DIR "patients.csv")
       (path_join OUTPUT_DIR "appointments.csv") OUTPUT_DIR pipeline_world).1
    = Returned (path_join OUTPUT_DIR "merged_data.csv")
    ∧ length merged = 2
    ∧ merge_loop (seq 0 2) (take 2 (DictReader patients_csv).2)
        (take 2 (DictReader appointments_csv).2) [] = Returned merged.
Proof.
  destruct (merge_csvs_pairs_rows_by_index
              (path_join OUTPUT_DIR "patients.csv")
              (path_join OUTPUT_DIR "appointments.csv") OUTPUT_DIR
              patients_csv appointments_csv
              {[ "patients.csv" := File patients_csv;
                 "appointments.csv" := File appointments_csv ]}
              pipeline_world eq_refl eq_refl eq_refl)
    as (merged & Hrun & Hlen & _ & Hcut);
    [done | done | done | exact pipeline_rows_have_fields |].
  exists merged. split; [by rewrite Hrun|]. split; [exact Hlen | exact Hcut].
Defined.

(** The same run, for the columns. *)
Lemma merge_csvs_columns_witness :
  ∃ (merged : list dict) (w' : world),
    merge_csvs (path_join OUTPUT_DIR "patients.csv")
      (path_join OUTPUT_DIR "appointments.csv") OUTPUT_DIR pipeline_world
    = (Returned (path_join OUTPUT_DIR "merged_data.csv"), w')
    ∧ lookup_node (path_join OUTPUT_DIR "merged_data.csv") w'
      = Some (File (merged_columns :: (record_of merged_columns <$> merged)))
    ∧ length merged = 2.
Proof.
  destruct (merge_csvs_columns_and_patient_name
              (path_join OUTPUT_DIR "patients.csv")
              (path_join OUTPUT_DIR "appointments.csv") OUTPUT_DIR
              patients_csv appointments_csv
              {[ "patients.csv" := File patients_csv;
                 "appointments.csv" := File appointments_csv ]}
              pipeline_world eq_refl eq_refl eq_refl)
    as (merged & w' & Hrun & Hfile & Hlen & _);
    [done | done | done | exact pipeline_rows_have_fields |].
  exists merged, w'. split; [exact Hrun|]. split; [exact Hfile | exact Hlen].
Defined.

(** What that run writes. *)
Example merged_first_row :
  lookup_node (path_join OUTPUT_DIR "merged_data.csv")
    (merge_csvs (path_join OUTPUT_DIR "patients.csv")
       (path_join OUTPUT_DIR "appointments.csv") OUTPUT_DIR pipeline_world).2
  = Some (File [merged_columns;
                ["Ada Byron"; "ada@example.org"; "A+"; "Dr. Grace Hopper"; "Cardiology";
                 "2025-10-20"; "scheduled"; "120.5"];
                ["Alan Turing"; "alan@example.org"; "O-"; "Dr. John Snow"; "Neurology";
                 "2025-10-21"; "completed"; "75.25"]]).
Proof. vm_compute. reflexivity. Qed.

(** A patients file with its header only. *)
Lemma merge_csvs_empty_input_witness :
  (DictReader header_only_csv).2 = []
  ∧ ∃ w' : world,
      merge_csvs (path_join OUTPUT_DIR "patients.csv")
        (path_join OUTPUT_DIR "appointments.csv") OUTPUT_DIR no_patients_world
      = (Raised IndexError, w').
Proof.
  split; [reflexivity|].
  apply (merge_csvs_empty_input_raises_IndexError
           (path_join OUTPUT_DIR "patients.csv")
           (path_join OUTPUT_DIR "appointments.csv") OUTPUT_DIR
           header_only_csv appointments_csv
           {[ "patients.csv" := File header_only_csv;
              "appointments.csv" := File appointments_csv ]}
           no_patients_world eq_refl eq_refl eq_refl); [done | by left].
Defined.

(** C3 as stated fails there: the error is not an [EmptyInputError], and
    an empty [merged_data.csv] is left in the folder. *)
Lemma merge_csvs_no_EmptyInputError :
  ∃ (e : exn) (w' : world),
    merge_csvs (path_join OUTPUT_DIR "patients.csv")
      (path_join OUTPUT_DIR "appointments.csv") OUTPUT_DIR no_patients_world
    = (Raised e, w')
    ∧ exn_name e ≠ "EmptyInputError"
    ∧ lookup_node (path_join OUTPUT_DIR "merged_data.csv") w' = Some (File []).
Proof.
  eexists _, _. split; [vm_compute; reflexivity|]. split; [done|]. vm_compute. reflexivity.
Qed.

(** Loading a file with a header and no row. *)
Lemma load_no_rows_witness :
  (DictReader header_only_csv).2 = []
  ∧ load_csv_to_pg no_faults "Postgres" (path_join OUTPUT_DIR "merged_data.csv")
      TARGET_TABLE true header_only_world
    = (Returned 0%Z, header_only_world).
Proof.
  split; [reflexivity|].
  apply (load_csv_to_pg_no_rows_returns_before_connecting no_faults "Postgres"
           (path_join OUTPUT_DIR "merged_data.csv") TARGET_TABLE true
           header_only_csv header_only_world); reflexivity.
Defined.

(** C4 as stated fails there: the file has columns and no rows, and after
    the run neither the namespace nor the table is on the server. *)
Lemma load_header_only_provisions_nothing :
  (DictReader header_only_csv).1 ≠ None
  ∧ (DictReader header_only_csv).1 ≠ Some []
  ∧ (DictReader header_only_csv).2 = []
  ∧ ¬ provisioned "week8_demo" TARGET_TABLE
        (store (load_csv_to_pg no_faults "Postgres"
                  (path_join OUTPUT_DIR "merged_data.csv") TARGET_TABLE true
                  header_only_world).2).
Proof.
  split; [done|]. split; [done|]. split; [reflexivity|].
  apply (bool_decide_unpack _). vm_compute. exact I.
Qed.

(** Ten rows loaded twice in replace mode over a table of two. *)
Lemma load_replace_twice_witness :
  ∃ (w1 w2 : world) (tb : relation),
    load_csv_to_pg no_faults "Postgres" (path_join OUTPUT_DIR "merged_data.csv")
      TARGET_TABLE false ten_rows_world = (Returned 10%Z, w1)
    ∧ load_csv_to_pg no_faults "Postgres" (path_join OUTPUT_DIR "merged_data.csv")
        TARGET_TABLE false w1 = (Returned 10%Z, w2)
    ∧ tables (store w2) !! ("week8_demo", TARGET_TABLE) = Some tb
    ∧ length (body tb) = 10.
Proof.
  destruct (load_csv_to_pg_replace_twice_keeps_row_count no_faults "Postgres"
              (path_join OUTPUT_DIR "merged_data.csv") TARGET_TABLE
              ["name"; "note"] (tail ten_rows_csv)
              ten_rows_world)
    as (w1 & w2 & tb & H1 & H2 & Htb & Hlen & _).
  - intros o. reflexivity.
  - reflexivity.
  - by vm_compute.
  - apply (bool_decide_unpack _). vm_compute. exact I.
  - apply (bool_decide_unpack _). vm_compute. exact I.
  - apply (bool_decide_unpack _). vm_compute. exact I.
  - exists w1, w2, tb. split; [exact H1|]. split; [exact H2|]. split; [exact Htb | exact Hlen].
Defined.

(** C5 as stated fails there: a file of one row whose header has the name
    [patient name], loaded twice in replace mode without fault.  The server
    cannot read [patient name TEXT] as a column, both runs return 0, and
    the table holds no row: it is not even there. *)
Lemma load_replace_twice_two_words_leaves_no_table :
  length (DictReader two_words_csv).2 = 1
  ∧ (load_csv_to_pg no_faults "Postgres" (path_join OUTPUT_DIR "merged_data.csv")
       TARGET_TABLE false two_words_world).1 = Returned 0%Z
  ∧ (load_csv_to_pg no_faults "Postgres" (path_join OUTPUT_DIR "merged_data.csv")
       TARGET_TABLE false
       (load_csv_to_pg no_faults "Postgres" (path_join OUTPUT_DIR "merged_data.csv")
          TARGET_TABLE false two_words_world).2).1 = Returned 0%Z
  ∧ tables
      (store
         (load_csv_to_pg no_faults "Postgres" (path_join OUTPUT_DIR "merged_data.csv")
            TARGET_TABLE false
            (load_csv_to_pg no_faults "Postgres" (path_join OUTPUT_DIR "merged_data.csv")
               TARGET_TABLE false two_words_world).2).2)
    !! ("week8_demo", TARGET_TABLE) = None.
Proof.
  split; [reflexivity|]. split; [vm_compute; reflexivity|].
  split; vm_compute; reflexivity.
Qed.

(** Three patients and three appointments. *)
Lemma fetch_tasks_witness :
  (∃ (data : list dict) (w' : world),
     fetch_patients example_faker OUTPUT_DIR 3 fresh_world
     = (Returned (path_join OUTPUT_DIR "patients.csv"), w')
     ∧ Z.of_nat (length data) = 3%Z
     ∧ ∀ d, d ∈ data → text_among "gender" genders d ∧ text_among "blood_type" blood_types d)
  ∧ (∃ (data : list dict) (w' : world),
       fetch_appointments example_faker OUTPUT_DIR 3 fresh_world
       = (Returned (path_join OUTPUT_DIR "appointments.csv"), w')
       ∧ Z.of_nat (length data) = 3%Z
       ∧ ∀ d, d ∈ data → text_among "department" departments d
                         ∧ int_among "duration_minutes" durations d
                         ∧ text_among "status" statuses d).
Proof.
  destruct (fetch_tasks_rows_columns_and_enumerations example_faker OUTPUT_DIR 3
              fresh_world)
    as [(data1 & w1 & Hrun1 & _ & Hlen1 & Hall1) (data2 & w2 & Hrun2 & _ & Hlen2 & Hall2)].
  - lia.
  - discriminate.
  - discriminate.
  - split.
    + exists data1, w1. split; [exact Hrun1|]. split; [exact Hlen1|].
      intros d Hd. exact (proj2 (Hall1 d Hd)).
    + exists data2, w2. split; [exact Hrun2|]. split; [exact Hlen2|].
      intros d Hd. exact (proj2 (Hall2 d Hd)).
Defined.

(** What [fetch_patients] writes there. *)
Example fetch_patients_three_rows :
  lookup_node (path_join OUTPUT_DIR "patients.csv")
    (fetch_patients example_faker OUTPUT_DIR 3 fresh_world).2
  = Some (File
      [ ["patient_id"; "first_name"; "last_name"; "date_of_birth"; "gender";
         "blood_type"; "email"; "phone"; "address"];
        ["id-even"; "Ada"; "Turing"; "1990-12-10"; "Other"; "B+";
         "someone@example.org"; "555-0100"; "1 M, L"];
        ["id-odd"; "Alan"; "Byron"; "1990-12-10"; "Male"; "AB-";
         "someone@example.org"; "555-0100"; "1 M, L"];
        ["id-even"; "Ada"; "Turing"; "1990-12-10"; "Other"; "B-";
         "someone@example.org"; "555-0100"; "1 M, L"] ]).
Proof. vm_compute. reflexivity. Qed.

(** A quantity of zero. *)
Lemma fetch_tasks_zero_witness :
  (∃ w', fetch_patients example_faker OUTPUT_DIR 0 fresh_world = (Raised IndexError, w')
         ∧ lookup_node (path_join OUTPUT_DIR "patients.csv") w' = Some (File []))
  ∧ (∃ w', fetch_appointments example_faker OUTPUT_DIR 0 fresh_world
           = (Raised IndexError, w')
           ∧ lookup_node (path_join OUTPUT_DIR "appointments.csv") w' = Some (File [])).
Proof.
  apply (fetch_tasks_zero_quantity_raise_IndexError example_faker OUTPUT_DIR fresh_world);
    discriminate.
Defined.

(** C7 as stated fails there: [fetch_patients] with a quantity of zero does
    not return. *)
Lemma fetch_patients_zero_does_not_return :
  ¬ ∃ (p : path) (w' : world),
      fetch_patients example_faker OUTPUT_DIR 0 fresh_world = (Returned p, w').
Proof. intros (p & w' & H). vm_compute in H. discriminate H. Qed.



(** The same ten rows in replace mode: the table is cleared, three rows go
    in, the fourth fails, and the two old rows are still what the server
    holds. *)
Example load_replace_failure_keeps_old_rows :
  let run := load_csv_to_pg fourth_row_fails_after_clearing "Postgres"
               (path_join OUTPUT_DIR "merged_data.csv") TARGET_TABLE false
               ten_rows_world in
  run.1 = Returned 0%Z
  ∧ tables (store run.2) !! ("week8_demo", TARGET_TABLE)
    = Some (Relation ["name"; "note"] [[Some "u"; Some "old"]; [Some "v"; Some "old"]]).
Proof. vm_compute. split; reflexivity. Qed.

(** * Further properties *)

(** ** Dictionaries *)

Lemma dict_set_fresh (k : string) (v : pyval) (d : dict) :
  k ∉ keys d → dict_set k v d = d ++ [(k, v)].
Proof.
  induction d as [|[k' v'] d IH]; intros Hk; simpl; [done|].
  unfold keys in Hk. simpl in Hk. apply not_elem_of_cons in Hk as [Hne Hk].
  destruct (String.eqb_spec k k') as [->|_]; [done|].
  by rewrite IH.
Qed.

Lemma dict_of_no_duplicates (items : list (string * pyval)) :
  NoDup items.*1 → dict_of items = items.
Proof.
  unfold dict_of.
  assert (∀ acc, NoDup (acc.*1 ++ items.*1) →
                 foldl (λ d kv, dict_set kv.1 kv.2 d) acc items = acc ++ items) as H.
  { induction items as [|[k v] items IH]; intros acc Hnd; simpl.
    - by rewrite app_nil_r.
    - simpl in Hnd. rewrite dict_set_fresh.
      + rewrite IH; [by rewrite <- app_assoc|].
        rewrite fmap_app. simpl. by rewrite <- app_assoc.
      + apply NoDup_app in Hnd as (_ & Hdisj & _). intros Hin.
        apply (Hdisj k Hin). apply list_elem_of_here. }
  intros Hnd. by rewrite H.
Qed.

Lemma dict_find_is_Some (k : string) (d : dict) :
  is_Some (dict_find k d) ↔ k ∈ keys d.
Proof.
  unfold keys. induction d as [|[k' v'] d IH]; simpl.
  - split; [by intros [? ?] | by intros ?%elem_of_nil].
  - rewrite elem_of_cons. destruct (String.eqb_spec k k') as [->|Hne].
    + split; [by left | by eexists].
    + rewrite IH. split; [by right | by intros [?|?]].
Qed.

Lemma dict_set_keys (k : string) (v : pyval) (d : dict) (k' : string) :
  k' ∈ keys (dict_set k v d) ↔ k' = k ∨ k' ∈ keys d.
Proof.
  unfold keys. induction d as [|[k0 v0] d IH]; simpl.
  - rewrite elem_of_cons. split; [intros [?|?%elem_of_nil]; [by left | done] | ].
    intros [?|?%elem_of_nil]; [by left | done].
  - destruct (String.eqb_spec k k0) as [->|Hne]; simpl.
    + rewrite !elem_of_cons. tauto.
    + rewrite !elem_of_cons, IH. tauto.
Qed.

Lemma dict_of_keys (items : list (string * pyval)) (k : string) :
  k ∈ keys (dict_of items) ↔ k ∈ items.*1.
Proof.
  unfold dict_of.
  assert (∀ acc, k ∈ keys (foldl (λ d kv, dict_set kv.1 kv.2 d) acc items)
                 ↔ k ∈ keys acc ∨ k ∈ items.*1) as H.
  { induction items as [|[k0 v0] items IH]; intros acc; simpl.
    - split; [by left | by intros [?|?%elem_of_nil]].
    - rewrite IH, dict_set_keys, elem_of_cons. tauto. }
  rewrite H. unfold keys. simpl. split; [by intros [?%elem_of_nil|?] | by right].
Qed.

(** ** Rows read by [DictReader] *)

(** The keys of a row read under a header are the names of the header,
    whatever the length of the record. *)
Lemma read_row_items_keys (fieldnames : list string) (row : csv_record) :
  (zip fieldnames (PStr <$> row)
   ++ ((λ k, (k, PNone)) <$> drop (length row) fieldnames)).*1 = fieldnames.
Proof.
  rewrite fmap_app, <- list_fmap_compose.
  replace ((fst ∘ λ k : string, (k, PNone)) <$> drop (length row) fieldnames)
    with (drop (length row) fieldnames) by (by rewrite list_fmap_id).
  revert row. induction fieldnames as [|k ks IH]; intros [|s row]; simpl; try done.
  by rewrite IH.
Qed.

Lemma read_row_has_key (fieldnames : list string) (row : csv_record) (k : string) :
  k ∈ fieldnames → is_Some (dict_find k (read_row fieldnames row)).
Proof.
  intros Hk. apply dict_find_is_Some. unfold read_row.
  apply dict_of_keys. by rewrite read_row_items_keys.
Qed.

Lemma read_row_lookup (fieldnames : list string) :
  NoDup fieldnames →
  ∀ (row : csv_record) (i : nat) (k : string),
    fieldnames !! i = Some k →
    dict_find k (read_row fieldnames row)
    = Some (match row !! i with
            | Some s => PStr s
            | None => PNone
            end).
Proof.
  intros Hnd row. unfold read_row.
  rewrite dict_of_no_duplicates by (by rewrite read_row_items_keys).
  revert row. induction Hnd as [|k0 ks Hk0 Hnd IH]; intros row i k Hi; [done|].
  destruct i as [|i]; simpl in Hi.
  - injection Hi as ->. destruct row as [|s row]; simpl;
      by destruct (String.eqb_spec k k).
  - assert (k ≠ k0) as Hne.
    { intros ->. apply Hk0. apply (list_elem_of_lookup_2 _ _ _ Hi). }
    destruct row as [|s row]; simpl.
    + destruct (String.eqb_spec k k0) as [?|_]; [done|].
      specialize (IH [] i k Hi). simpl in IH.
      rewrite zip_with_nil_r in IH. exact IH.
    + destruct (String.eqb_spec k k0) as [?|_]; [done|].
      by apply IH.
Qed.

(** ** [load_csv_to_pg]: what is sent and what is committed *)

Lemma run_statements_app (qs1 qs2 : list stmt) (db : database) :
  run_statements (qs1 ++ qs2) db = run_statements qs1 db ≫= run_statements qs2.
Proof.
  revert db. induction qs1 as [|q qs1 IH]; intros db; simpl; [done|].
  destruct (run_stmt q db) as [db1|]; simpl; [apply IH | done].
Qed.

Lemma run_inserts (schema table : string) (cols tcols : list string)
    (rows : list (list (option string))) :
  ∀ (kept : list (list (option string))) (db db' : database),
    tables db !! (folded schema, folded table) = Some (Relation tcols kept) →
    run_statements (InsertInto schema table cols <$> rows) db = Some db' →
    db' = Database (schemas db)
            (<[(folded schema, folded table) :=
                 Relation tcols
                   (kept ++ ((λ r, bound_row (folded <$> cols) r tcols) <$> rows))]>
               (tables db)).
Proof.
  induction rows as [|r rows IH]; intros kept db db' Htb Hrun.
  - injection Hrun as <-. simpl. rewrite app_nil_r, insert_id by done. by destruct db.
  - rewrite fmap_cons in Hrun. cbn [run_statements run_stmt] in Hrun.
    destruct (qualified schema table) as [key|] eqn:Hkey; [|done].
    apply qualified_folded in Hkey as ->.
    destruct (column_list cols) as [names|] eqn:Hnames; [|done].
    apply column_list_folded in Hnames as ->.
    cbn [mbind option_bind] in Hrun. rewrite Htb in Hrun. cbn [columns body] in Hrun.
    destruct (_ && _); [|done]. cbn [mbind option_bind] in Hrun.
    apply (IH (kept ++ [bound_row (folded <$> cols) r tcols])) in Hrun.
    + rewrite Hrun. cbn [schemas tables]. rewrite insert_insert_eq, <- app_assoc.
      reflexivity.
    + cbn [tables]. apply lookup_insert_eq.
Qed.

Lemma run_inserts_accepted (table : string) (cols tcols : list string)
    (rows : list (list (option string))) :
  plain_names table cols →
  Forall (λ c, c ∈ tcols) cols →
  Forall (λ r, length r = length cols) rows →
  ∀ (kept : list (list (option string))) (db : database),
    tables db !! ("week8_demo", table) = Some (Relation tcols kept) →
    is_Some (run_statements (InsertInto "week8_demo" table cols <$> rows) db).
Proof.
  intros (Ht & Hall & Hnd & Hlen) Hcols.
  assert (cols ≠ []) as Hsome by (destruct cols; [simpl in Hlen; lia | done]).
  induction 1 as [|r rows Hr _ IH]; intros kept db Htb.
  - by eexists.
  - rewrite fmap_cons. cbn [run_statements run_stmt].
    rewrite (qualified_plain table Ht), (column_list_plain cols Hall).
    cbn [mbind option_bind]. rewrite Htb. cbn [columns body].
    rewrite !bool_decide_eq_true_2 by done. cbn [andb].
    assert (forallb (λ c, bool_decide (c ∈ tcols)) cols = true) as ->.
    { apply forallb_forall. intros c Hc. apply bool_decide_eq_true_2.
      apply (proj1 (Forall_forall _ _) Hcols). by apply list_elem_of_In. }
    cbn [mbind option_bind].
    apply (IH (kept ++ [bound_row cols r tcols])). cbn [tables]. apply lookup_insert_eq.
Qed.

(** The table as the first two statements leave it. *)
Lemma run_provisioning (table : string) (fieldnames : list string) (db db' : database) :
  run_statements [CreateSchemaIfNotExists "week8_demo";
                  CreateTableIfNotExists "week8_demo" table fieldnames] db
  = Some db' →
  db' = Database ({["week8_demo"]} ∪ schemas db)
          (<[("week8_demo", folded table) :=
               match tables db !! ("week8_demo", folded table) with
               | Some tb => Relation (columns tb) (body tb)
               | None => Relation (folded <$> fieldnames) []
               end]> (tables db)).
Proof.
  cbn [run_statements]. rewrite run_create_schema. cbn [mbind option_bind run_stmt].
  destruct (qualified "week8_demo" table) as [key|] eqn:Hkey; [|done].
  apply qualified_folded in Hkey as ->.
  change (folded "week8_demo") with "week8_demo".
  destruct (column_list fieldnames) as [names|] eqn:Hnames; [|done].
  apply column_list_folded in Hnames as ->.
  cbn [mbind option_bind fst schemas tables].
  destruct (bool_decide _); [|done].
  destruct (tables db !! ("week8_demo", folded table)) as [[tcols tbody]|] eqn:Htb.
  - intros [= <-]. cbn [columns body]. by rewrite insert_id.
  - destruct (_ && _); [|done]. by intros [= <-].
Qed.

Lemma run_provisioning_accepted (table : string) (fieldnames : list string)
    (db : database) :
  plain_names table fieldnames →
  run_statements [CreateSchemaIfNotExists "week8_demo";
                  CreateTableIfNotExists "week8_demo" table fieldnames] db
  = Some (Database ({["week8_demo"]} ∪ schemas db)
            (<[("week8_demo", table) :=
                 match tables db !! ("week8_demo", table) with
                 | Some tb => Relation (columns tb) (body tb)
                 | None => Relation fieldnames []
                 end]> (tables db))).
Proof.
  intros Hplain. cbn [run_statements]. rewrite run_create_schema.
  cbn [mbind option_bind].
  rewrite (run_create_table table fieldnames _ Hplain)
    by (apply elem_of_union_l, elem_of_singleton_2; done).
  cbn [mbind option_bind tables schemas]. f_equal.
  destruct (tables db !! ("week8_demo", table)) as [[tcols tbody]|] eqn:Htb; [|done].
  cbn [columns body]. by rewrite insert_id.
Qed.

Lemma run_clearing (schema table : string) (tb : relation) (db db' : database) :
  tables db !! (folded schema, folded table) = Some tb →
  run_statements [DeleteFrom schema table] db = Some db' →
  db' = Database (schemas db)
          (<[(folded schema, folded table) := Relation (columns tb) []]> (tables db)).
Proof.
  intros Htb. cbn [run_statements run_stmt].
  destruct (qualified schema table) as [key|] eqn:Hkey; [|done].
  apply qualified_folded in Hkey as ->. cbn [mbind option_bind]. rewrite Htb.
  by intros [= <-].
Qed.

Lemma run_load_statements (table : string) (fieldnames : list string)
    (rows : list (list (option string))) (append : bool) (db db' : database) :
  run_statements (load_statements table fieldnames rows append) db = Some db' →
  db' = loaded "week8_demo" table fieldnames rows append db.
Proof.
  unfold load_statements. rewrite app_assoc, run_statements_app.
  change ([CreateSchemaIfNotExists "week8_demo"]
          ++ [CreateTableIfNotExists "week8_demo" table fieldnames])
    with [CreateSchemaIfNotExists "week8_demo";
          CreateTableIfNotExists "week8_demo" table fieldnames].
  destruct (run_statements [_; _] db) as [db1|] eqn:Hprov; [|done].
  apply run_provisioning in Hprov as ->.
  cbn [mbind option_bind]. rewrite run_statements_app.
  unfold loaded. change (folded "week8_demo") with "week8_demo".
  destruct (tables db !! ("week8_demo", folded table)) as [[tcols tbody]|];
    destruct append; cbn [negb]; cbv iota.
  - cbn [run_statements mbind option_bind]. intros Hrun.
    eapply (run_inserts "week8_demo") in Hrun; [|cbn [tables]; apply lookup_insert_eq].
    rewrite Hrun. cbn [schemas tables columns body]. by rewrite !insert_insert_eq.
  - destruct (run_statements [_] _) as [db2|] eqn:Hdel; [|done].
    eapply (run_clearing "week8_demo") in Hdel; [|cbn [tables]; apply lookup_insert_eq].
    subst db2. cbn [mbind option_bind]. intros Hrun.
    eapply (run_inserts "week8_demo") in Hrun; [|cbn [tables]; apply lookup_insert_eq].
    rewrite Hrun. cbn [schemas tables columns body]. by rewrite !insert_insert_eq.
  - cbn [run_statements mbind option_bind]. intros Hrun.
    eapply (run_inserts "week8_demo") in Hrun; [|cbn [tables]; apply lookup_insert_eq].
    rewrite Hrun. cbn [schemas tables columns body]. by rewrite !insert_insert_eq.
  - destruct (run_statements [_] _) as [db2|] eqn:Hdel; [|done].
    eapply (run_clearing "week8_demo") in Hdel; [|cbn [tables]; apply lookup_insert_eq].
    subst db2. cbn [mbind option_bind]. intros Hrun.
    eapply (run_inserts "week8_demo") in Hrun; [|cbn [tables]; apply lookup_insert_eq].
    rewrite Hrun. cbn [schemas tables columns body]. by rewrite !insert_insert_eq.
Qed.

Lemma run_load_statements_accepted (table : string) (fieldnames : list string)
    (rows : list (list (option string))) (append : bool) (db : database) :
  plain_names table fieldnames →
  fits "week8_demo" table fieldnames db →
  Forall (λ r, length r = length fieldnames) rows →
  is_Some (run_statements (load_statements table fieldnames rows append) db).
Proof.
  intros Hplain Hfits Hlens. pose proof Hplain as (Ht & _).
  unfold load_statements. rewrite app_assoc, run_statements_app.
  change ([CreateSchemaIfNotExists "week8_demo"]
          ++ [CreateTableIfNotExists "week8_demo" table fieldnames])
    with [CreateSchemaIfNotExists "week8_demo";
          CreateTableIfNotExists "week8_demo" table fieldnames].
  rewrite (run_provisioning_accepted table fieldnames db Hplain).
  cbn [mbind option_bind]. rewrite run_statements_app.
  assert (Forall (λ c, c ∈ match tables db !! ("week8_demo", table) with
                           | Some tb => columns tb
                           | None => fieldnames
                           end) fieldnames) as Hcols.
  { unfold fits in Hfits. destruct (tables db !! ("week8_demo", table)); [done|].
    apply Forall_forall. auto. }
  destruct (tables db !! ("week8_demo", table)) as [[tcols tbody]|];
    destruct append; cbn [negb]; cbv iota.
  - cbn [run_statements mbind option_bind].
    eapply run_inserts_accepted; [exact Hplain | exact Hcols | exact Hlens |].
    cbn [tables]; apply lookup_insert_eq.
  - cbn [run_statements].
    erewrite run_delete; [|exact Ht | cbn [tables]; apply lookup_insert_eq].
    cbn [mbind option_bind].
    eapply run_inserts_accepted; [exact Hplain | exact Hcols | exact Hlens |].
    cbn [tables columns]; apply lookup_insert_eq.
  - cbn [run_statements mbind option_bind].
    eapply run_inserts_accepted; [exact Hplain | exact Hcols | exact Hlens |].
    cbn [tables]; apply lookup_insert_eq.
  - cbn [run_statements].
    erewrite run_delete; [|exact Ht | cbn [tables]; apply lookup_insert_eq].
    cbn [mbind option_bind].
    eapply run_inserts_accepted; [exact Hplain | exact Hcols | exact Hlens |].
    cbn [tables columns]; apply lookup_insert_eq.
Qed.

Section Sending.

Variable faulty : db_op → bool.

Lemma sends_ret {A} (a : A) : sends faulty (ret a) [].
Proof.
  intros w db k Hl. exists (Returned a), w. repeat split; try done.
  by exists db, k.
Qed.

Lemma sends_execute (q : stmt) : sends faulty (execute faulty q) [q].
Proof.
  intros w db k Hl. unfold execute. rewrite run_bind. unfold gets. rewrite Hl.
  cbn [issued txn].
  destruct (faulty (Execute k q)) eqn:Hf.
  - eexists _, _. split; [reflexivity|]. simpl. rewrite Hl.
    repeat split; try done. right. by exists k, q.
  - destruct (run_stmt q db) as [db1|] eqn:Hrun.
    + eexists _, _. split; [reflexivity|]. simpl. repeat split; try done.
      exists db1, (S k). by rewrite Hrun.
    + eexists _, _. split; [reflexivity|]. simpl. rewrite Hl, Hrun.
      repeat split; try done. by left.
Qed.

Lemma sends_bind {A B} (m : M A) (k : A → M B) (qs1 qs2 : list stmt) :
  sends faulty m qs1 → (∀ a, sends faulty (k a) qs2) →
  sends faulty (m ≫= k) (qs1 ++ qs2).
Proof.
  intros Hm Hk w db n Hl. rewrite run_bind, run_statements_app.
  destruct (Hm w db n Hl) as (r & w1 & -> & Hstore1 & Hfiles1 & Hr).
  destruct r as [a|e].
  - destruct Hr as (db1 & n1 & Hrun1 & Hl1).
    destruct (Hk a w1 db1 n1 Hl1) as (r2 & w2 & -> & Hstore2 & Hfiles2 & Hr2).
    exists r2, w2. split; [done|]. split; [congruence|]. split; [congruence|].
    rewrite Hrun1. simpl. exact Hr2.
  - destruct Hr as (-> & Hl1 & Hwhy).
    exists (Raised DatabaseError), w1. repeat split; try done.
    destruct Hwhy as [-> | Hf]; [by left | by right].
Qed.

Lemma sends_for_each {A} (xs : list A) (sql : A → stmt) :
  sends faulty (for_each xs (λ x, execute faulty (sql x))) (sql <$> xs).
Proof.
  induction xs as [|x xs IH]; simpl.
  - apply sends_ret.
  - apply (sends_bind _ _ [sql x]); [apply sends_execute | by intros _].
Qed.

Lemma commits_bind {A B} (m : M A) (k : A → M B) (qs1 qs2 : list stmt) (n : B) :
  sends faulty m qs1 → (∀ a, commits faulty (k a) qs2 n) →
  commits faulty (m ≫= k) (qs1 ++ qs2) n.
Proof.
  intros Hm Hk w db j Hl. rewrite run_bind, run_statements_app.
  destruct (Hm w db j Hl) as (r & w1 & -> & Hstore1 & Hfiles1 & Hr).
  destruct r as [a|e].
  - destruct Hr as (db1 & j1 & Hrun1 & Hl1).
    destruct (Hk a w1 db1 j1 Hl1) as (r2 & w2 & -> & Hfiles2 & Hl2 & Hr2).
    exists r2, w2. split; [done|]. split; [congruence|]. split; [done|].
    rewrite Hrun1. simpl.
    destruct Hr2 as [Hok | (-> & Hstore2 & Hwhy)]; [by left|].
    right. split; [done|]. split; [congruence | done].
  - destruct Hr as (-> & Hl1 & Hwhy).
    exists (Raised DatabaseError), w1. split; [done|]. split; [done|].
    split; [done|]. right. split; [done|]. split; [done|].
    destruct Hwhy as [-> | Hf]; [by left | right; by left].
Qed.

Lemma commits_commit {A} (n : A) : commits faulty (_ ← commit faulty; ret n) [] n.
Proof.
  intros w db j Hl. rewrite run_bind. unfold commit. rewrite run_bind.
  unfold gets. rewrite Hl. cbn [txn]. destruct (faulty Commit) eqn:Hf.
  - eexists _, _. split; [reflexivity|]. simpl. rewrite Hl.
    split; [done|]. split; [done|]. right. split; [done|]. split; [done|].
    right. by right.
  - eexists _, _. split; [reflexivity|]. simpl. rewrite Hl.
    split; [done|]. split; [done|]. left. split; [done|]. by exists db.
Qed.

(** The [try] statement of the loader around a transaction [body] that
    sends [qs], commits and returns [n]. *)
Lemma guarded_commits (body : M Z) (qs : list stmt) (n : Z) (w : world)
    (db : database) (j : nat) :
  commits faulty body qs n →
  link w = Some (Session db j) →
  ∃ r w',
    try_finally
      (try_except body is_DatabaseError (_ ← rollback faulty; ret 0%Z))
      (close faulty) w = (r, w')
    ∧ files w' = files w
    ∧ (if faulty Close then r = Raised DatabaseError ∧ is_Some (link w')
       else link w' = None)
    ∧ ((∃ db', run_statements qs db = Some db' ∧ store w' = db'
               ∧ (faulty Close = false → r = Returned n))
       ∨ (store w' = store w
          ∧ (faulty Rollback = false → faulty Close = false → r = Returned 0%Z)
          ∧ (∀ m, r = Returned m → m = 0%Z)
          ∧ (run_statements qs db = None
             ∨ (∃ i q, faulty (Execute i q) = true)
             ∨ faulty Commit = true))).
Proof.
  intros Hbody Hl. unfold try_finally, try_except.
  destruct (Hbody w db j Hl) as (r & w1 & -> & Hfiles1 & [s1 Hs1] & Hr).
  destruct Hr as [(-> & db' & Hrun & Hstore) | (-> & Hstore & Hwhy)].
  - unfold close. destruct (faulty Close) eqn:Hc.
    + eexists _, _. split; [reflexivity|]. simpl. rewrite Hs1.
      split; [done|]. split; [done|]. left. exists db'. by repeat split.
    + eexists _, _. split; [reflexivity|]. simpl.
      split; [done|]. split; [done|]. left. exists db'. by repeat split.
  - simpl is_DatabaseError. cbv iota.
    rewrite run_bind. unfold rollback. rewrite run_bind. unfold gets. rewrite Hs1.
    destruct (faulty Rollback) eqn:Hrb; unfold close; destruct (faulty Close) eqn:Hc;
      (eexists _, _; split; [reflexivity|]); simpl; rewrite ?Hs1;
      (split; [done|]); (split; [done|]); right;
      (split; [done|]); (split; [by intros|]); (split; [| done]);
      by intros m [=].
Qed.

End Sending.

Lemma load_with_rows (faulty : db_op → bool) (conn_id : string) (csv_path : path)
    (table : string) (append : bool) (f : list csv_record) (w : world) :
  lookup_node csv_path w = Some (File f) →
  parameters f ≠ [] →
  load_csv_to_pg faulty conn_id csv_path table append w
  = (_ ← get_conn faulty conn_id;
     try_finally
       (try_except
          (load_transaction faulty table (header_of f) (parameters f) append)
          is_DatabaseError (_ ← rollback faulty; ret 0%Z))
       (close faulty)) w.
Proof.
  intros Hf Hrows. unfold load_csv_to_pg.
  rewrite (run_bind_returned _ _ _ _ _ (open_read_run _ _ _ Hf)).
  change ((λ r, (λ col, get_or_none col r) <$> default [] (DictReader f).1)
          <$> (DictReader f).2) with (parameters f).
  rewrite bool_decide_eq_false_2 by done.
  destruct f as [|header rest]; [done|]. reflexivity.
Qed.

Lemma load_without_rows (faulty : db_op → bool) (conn_id : string) (csv_path : path)
    (table : string) (append : bool) (w : world) :
  (∀ f, lookup_node csv_path w = Some (File f) → parameters f = []) →
  ∃ r, load_csv_to_pg faulty conn_id csv_path table append w = (r, w)
       ∧ ∀ m, r = Returned m → m = 0%Z.
Proof.
  intros Hnone. unfold load_csv_to_pg. rewrite run_bind. unfold open_read.
  destruct (lookup_node csv_path w) as [[f|]|]; try (by eexists).
  specialize (Hnone f eq_refl).
  change ((λ r, (λ col, get_or_none col r) <$> default [] (DictReader f).1)
          <$> (DictReader f).2) with (parameters f).
  rewrite Hnone. simpl. eexists. split; [reflexivity|]. by intros m [= <-].
Qed.

Lemma load_transaction_commits (faulty : db_op → bool) (table : string)
    (fieldnames : list string) (rows : list (list (option string))) (append : bool) :
  commits faulty (load_transaction faulty table fieldnames rows append)
    (load_statements table fieldnames rows append) (Z.of_nat (length rows)).
Proof.
  unfold load_transaction, load_statements.
  apply commits_bind; [apply sends_execute | intros _].
  apply commits_bind; [apply sends_execute | intros _].
  rewrite <- (app_nil_r (InsertInto "week8_demo" table fieldnames <$> rows)).
  apply commits_bind.
  { destruct append; simpl; [apply sends_ret | apply sends_execute]. }
  intros _. apply commits_bind; [apply sends_for_each | intros _].
  apply commits_commit.
Qed.

Lemma parameters_lengths (f : list csv_record) :
  Forall (λ r : list (option string), length r = length (header_of f)) (parameters f).
Proof.
  unfold parameters. apply Forall_fmap, Forall_forall. intros r _. simpl.
  by rewrite length_fmap.
Qed.

(** Every run of the loader, whatever the faults: either nothing is
    committed, or the server took every statement of the run. *)
Lemma load_csv_to_pg_sent (faulty : db_op → bool) (conn_id : string)
    (csv_path : path) (table : string) (append : bool) (w w' : world) (r : result Z) :
  load_csv_to_pg faulty conn_id csv_path table append w = (r, w') →
  files w' = files w
  ∧ (link w = None → faulty Close = false → link w' = None)
  ∧ ((store w' = store w ∧ ∀ m, r = Returned m → m = 0%Z)
     ∨ (∃ f, lookup_node csv_path w = Some (File f)
             ∧ parameters f ≠ []
             ∧ run_statements
                 (load_statements table (header_of f) (parameters f) append) (store w)
               = Some (store w')
             ∧ ∀ m, r = Returned m → m = Z.of_nat (length (parameters f)))).
Proof.
  destruct (lookup_node csv_path w) as [[f|]|] eqn:Hf.
  2,3: (destruct (load_without_rows faulty conn_id csv_path table append w)
         as (r0 & -> & Hr0); [by rewrite Hf|];
        intros [= <- <-]; split; [done|]; split; [done|]; by left).
  destruct (decide (parameters f = [])) as [Hempty|Hrows].
  { destruct (load_without_rows faulty conn_id csv_path table append w)
      as (r0 & -> & Hr0).
    - rewrite Hf. by intros f0 [= <-].
    - intros [= <- <-]. split; [done|]. split; [done|]. by left. }
  rewrite (load_with_rows faulty conn_id csv_path table append f w Hf Hrows).
  rewrite run_bind. unfold get_conn. destruct (faulty Connect).
  { intros [= <- <-]. split; [done|]. split; [done|]. left. by split. }
  unfold modify at 1.
  destruct (guarded_commits faulty _ _ _
              (record_event (Done Connect) (set_link (Some (Session (store w) 0)) w))
              (store w) 0
              (load_transaction_commits faulty table (header_of f) (parameters f) append)
              eq_refl) as (r1 & w1 & -> & Hfiles & Hclose & Hcases).
  intros [= <- <-]. split; [done|]. split.
  { intros _ Hc. by rewrite Hc in Hclose. }
  destruct Hcases as [(db' & Hrun & Hstore & Hret) | (Hstore & _ & Hret & _)].
  - right. exists f. split; [done|]. split; [done|].
    split; [congruence|].
    intros m ->. destruct (faulty Close); [by destruct Hclose as [[=] _]|].
    specialize (Hret eq_refl). congruence.
  - left. by split.
Qed.

Lemma load_csv_to_pg_outcome (faulty : db_op → bool) (conn_id : string)
    (csv_path : path) (table : string) (append : bool) (w w' : world) (r : result Z) :
  load_csv_to_pg faulty conn_id csv_path table append w = (r, w') →
  files w' = files w
  ∧ (link w = None → faulty Close = false → link w' = None)
  ∧ ((store w' = store w ∧ ∀ m, r = Returned m → m = 0%Z)
     ∨ (∃ f, lookup_node csv_path w = Some (File f)
             ∧ parameters f ≠ []
             ∧ store w' = loaded "week8_demo" table (header_of f) (parameters f)
                            append (store w)
             ∧ ∀ m, r = Returned m → m = Z.of_nat (length (parameters f)))).
Proof.
  intros Hrun.
  destruct (load_csv_to_pg_sent _ _ _ _ _ _ _ _ Hrun)
    as (Hfiles & Hlink & [Hsame | (f & Hf & Hrows & Hsent & Hm)]).
  - split; [done|]. split; [done|]. by left.
  - split; [done|]. split; [done|]. right. exists f.
    split; [done|]. split; [done|]. split; [|done].
    by apply run_load_statements in Hsent.
Qed.



(** X4.  [load_csv_to_pg] never writes a file, and it leaves no connection
    open when [close] goes through: started without a connection, it ends
    without one on every path (empty file, failure to connect, rollback,
    commit). *)
Theorem load_csv_to_pg_leaves_files_and_no_connection
    (faulty : db_op → bool) (conn_id : string) (csv_path : path) (table : string)
    (append : bool) (w w' : world) (r : result Z) :
  load_csv_to_pg faulty conn_id csv_path table append w = (r, w') →
  files w' = files w
  ∧ (link w = None → faulty Close = false → link w' = None).
Proof.
  intros Hrun.
  destruct (load_csv_to_pg_outcome _ _ _ _ _ _ _ _ Hrun) as (Hfiles & Hlink & _).
  by split.
Qed.

(** A run in which nothing fails before [close]. *)
Lemma load_csv_to_pg_accepted (faulty : db_op → bool) (conn_id : string)
    (csv_path : path) (table : string) (append : bool) (f : list csv_record)
    (w : world) :
  faulty Connect = false →
  (∀ k q, faulty (Execute k q) = false) →
  faulty Commit = false →
  lookup_node csv_path w = Some (File f) →
  parameters f ≠ [] →
  is_Some (run_statements
             (load_statements table (header_of f) (parameters f) append) (store w)) →
  ∃ r w',
    load_csv_to_pg faulty conn_id csv_path table append w = (r, w')
    ∧ store w' = loaded "week8_demo" table (header_of f) (parameters f) append (store w)
    ∧ files w' = files w
    ∧ (if faulty Close then r = Raised DatabaseError
       else r = Returned (Z.of_nat (length (parameters f))) ∧ link w' = None).
Proof.
  intros Hconnect Hexec Hcommit Hf Hrows [db' Hdb'].
  rewrite (load_with_rows faulty conn_id csv_path table append f w Hf Hrows).
  rewrite run_bind. unfold get_conn. rewrite Hconnect. unfold modify at 1.
  destruct (guarded_commits faulty _ _ _
              (record_event (Done Connect) (set_link (Some (Session (store w) 0)) w))
              (store w) 0
              (load_transaction_commits faulty table (header_of f) (parameters f) append)
              eq_refl) as (r1 & w1 & -> & Hfiles & Hclose & Hcases).
  exists r1, w1. split; [done|].
  destruct Hcases as [(db'' & Hrun & Hstore & Hret) | (_ & _ & _ & Hwhy)].
  - apply run_load_statements in Hrun. split; [congruence|]. split; [done|].
    destruct (faulty Close); [by destruct Hclose | split; [by apply Hret | done]].
  - exfalso. destruct Hwhy as [Hnone | [(i & q & Hfault) | Hfault]].
    + congruence.
    + by rewrite Hexec in Hfault.
    + congruence.
Qed.

(** X5.  When everything goes through up to the commit and [close] then
    fails, [load_csv_to_pg] raises the error of [close] although the rows
    are committed: the caller gets no count, and the server holds the
    whole file loaded.  Everything goes through when no request before
    [close] is failed, the table name and the header are plain names, those
    of the header distinct, the cells hold no NUL character and no
    carriage return, and the table, when it is there, has the columns of
    the file. *)
Theorem load_csv_to_pg_close_failure_hides_commit
    (faulty : db_op → bool) (conn_id : string) (csv_path : path) (table : string)
    (append : bool) (f : list csv_record) (w : world) :
  faulty Connect = false →
  (∀ k q, faulty (Execute k q) = false) →
  faulty Commit = false →
  faulty Close = true →
  lookup_node csv_path w = Some (File f) →
  (DictReader f).2 ≠ [] →
  plain_names table (header_of f) →
  without NUL f → without CR f →
  fits "week8_demo" table (header_of f) (store w) →
  ∃ w' : world,
    load_csv_to_pg faulty conn_id csv_path table append w = (Raised DatabaseError, w')
    ∧ store w' = loaded "week8_demo" table (header_of f) (parameters f) append (store w).
Proof.
  intros Hconnect Hexec Hcommit Hclose Hf Hrows Hplain _ _ Hfits.
  destruct (load_csv_to_pg_accepted faulty conn_id csv_path table append f w
              Hconnect Hexec Hcommit Hf) as (r & w' & Hrun & Hstore & _ & Hr).
  { unfold parameters. by destruct (DictReader f).2. }
  { apply run_load_statements_accepted; [done | done | apply parameters_lengths]. }
  rewrite Hclose in Hr. subst r. by exists w'.
Qed.

(** ** [load_csv_to_pg]: what is stored *)

Lemma bound_row_same (cols : list string) (params : list (option string)) :
  NoDup cols → length params = length cols → bound_row cols params cols = params.
Proof.
  intros Hnd Hlen. unfold bound_row. apply list_eq. intros i.
  rewrite list_lookup_fmap.
  destruct (cols !! i) as [c|] eqn:Hc; simpl.
  - destruct (lookup_lt_is_Some_2 params i) as [v Hv].
    { rewrite Hlen. by eapply lookup_lt_Some. }
    rewrite Hv. f_equal.
    rewrite (elem_of_list_to_map_1 (zip cols params) c v); [done | |].
    + rewrite fst_zip; [done | lia].
    + apply list_elem_of_lookup. exists i. apply lookup_zip_with_Some. eauto.
  - symmetry. apply lookup_ge_None_2. rewrite Hlen. by apply lookup_ge_None_1.
Qed.

Lemma get_or_none_read_row (fieldnames : list string) (record : csv_record) :
  NoDup fieldnames →
  (λ col, get_or_none col (read_row fieldnames record)) <$> fieldnames
  = stored_row (length fieldnames) record.
Proof.
  intros Hnd. unfold stored_row. apply list_eq. intros i.
  rewrite !list_lookup_fmap.
  destruct (fieldnames !! i) as [k|] eqn:Hk; simpl.
  - rewrite (proj2 (lookup_seq 0 (length fieldnames) i i)); simpl.
    + unfold get_or_none, dict_get.
      pose proof (read_row_lookup fieldnames Hnd record i k Hk) as Hfind.
      unfold csv_record in *. rewrite Hfind. simpl.
      destruct (record !! i) as [s|]; simpl; [|done].
      unfold null_if_empty. by destruct (String.eqb s "").
    + split; [done | by eapply lookup_lt_Some].
  - rewrite lookup_ge_None_2; [done|].
    rewrite length_seq. by apply lookup_ge_None_1.
Qed.

(** X6.  Schema inference: with no fault, a table name and a header of
    plain names, those of the header distinct, cells without NUL character
    and without carriage return, and a destination that has no such table
    yet, [load_csv_to_pg] creates the namespace and a table
    whose columns are the names of the header in their order, and stores
    one row per record of the file that is not blank, in order: an empty
    cell is stored as [NULL], a record shorter than the header is filled up
    with [NULL], and what a record has beyond the header is left out. *)
Theorem load_csv_to_pg_infers_schema_and_stores_rows
    (faulty : db_op → bool) (conn_id : string) (csv_path : path) (table : string)
    (append : bool) (header : list string) (rest : list csv_record) (w : world) :
  (∀ o, faulty o = false) →
  lookup_node csv_path w = Some (File (header :: rest)) →
  plain_names table header →
  without NUL rest → without CR rest →
  filter (λ r, r ≠ []) rest ≠ [] →
  tables (store w) !! ("week8_demo", table) = None →
  ∃ w' : world,
    load_csv_to_pg faulty conn_id csv_path table append w
    = (Returned (Z.of_nat (length (filter (λ r, r ≠ []) rest))), w')
    ∧ "week8_demo" ∈ schemas (store w')
    ∧ tables (store w') !! ("week8_demo", table)
      = Some (Relation header
                (stored_row (length header) <$> filter (λ r, r ≠ []) rest)).
Proof.
  intros Hno Hf Hplain _ _ Hrows Hnew.
  pose proof Hplain as (Ht & Hall & Hnd & _).
  destruct (load_csv_to_pg_goes_through faulty Hno conn_id csv_path table append
              header rest w Hf) as (w' & Hrun & Hstore & _).
  { simpl. by destruct (filter _ rest). }
  { exact Hplain. }
  { unfold fits. by rewrite Hnew. }
  change ((DictReader (header :: rest)).2)
    with (read_row header <$> filter (λ r, r ≠ []) rest) in *.
  exists w'. rewrite !length_fmap in Hrun. split; [exact Hrun|].
  rewrite Hstore, (loaded_plain _ _ _ _ _ Ht Hall), Hnew. cbn [schemas tables]. split.
  - apply elem_of_union_l. by apply elem_of_singleton_2.
  - rewrite lookup_insert_eq. do 2 f_equal. rewrite app_nil_l.
    rewrite <- !list_fmap_compose. apply list_fmap_ext. intros _ record _. simpl.
    rewrite (get_or_none_read_row header record Hnd).
    apply bound_row_same; [done|]. unfold stored_row. by rewrite length_fmap, length_seq.
Qed.

(** X7.  Append mode adds up: with no fault, two runs with [append=True]
    on two files of the same header, a header of distinct plain names,
    with cells that hold no NUL character, into a destination that takes
    this header, return the numbers of rows
    of the two files, and the table then holds the rows it held, in place,
    followed by as many new rows as the two files have together. *)
Theorem load_csv_to_pg_append_adds_up
    (faulty : db_op → bool) (conn_id : string) (path1 path2 : path) (table : string)
    (header : list string) (rest1 rest2 : list csv_record) (w : world) :
  (∀ o, faulty o = false) →
  lookup_node path1 w = Some (File (header :: rest1)) →
  lookup_node path2 w = Some (File (header :: rest2)) →
  (DictReader (header :: rest1)).2 ≠ [] →
  (DictReader (header :: rest2)).2 ≠ [] →
  plain_names table header →
  without NUL rest1 → without NUL rest2 →
  fits "week8_demo" table header (store w) →
  let n1 := length (DictReader (header :: rest1)).2 in
  let n2 := length (DictReader (header :: rest2)).2 in
  let old := match tables (store w) !! ("week8_demo", table) with
             | Some tb => body tb
             | None => []
             end in
  ∃ (w1 w2 : world) (tb : relation) (added : list (list (option string))),
    load_csv_to_pg faulty conn_id path1 table true w = (Returned (Z.of_nat n1), w1)
    ∧ load_csv_to_pg faulty conn_id path2 table true w1 = (Returned (Z.of_nat n2), w2)
    ∧ tables (store w2) !! ("week8_demo", table) = Some tb
    ∧ body tb = old ++ added
    ∧ length added = n1 + n2.
Proof.
  intros Hno Hf1 Hf2 Hne1 Hne2 Hplain _ _ Hfits n1 n2 old.
  pose proof Hplain as (Ht & Hall & _ & _).
  destruct (load_csv_to_pg_goes_through faulty Hno conn_id path1 table true
              header rest1 w Hf1 Hne1 Hplain Hfits) as (w1 & Hrun1 & Hstore1 & Hfiles1).
  assert (lookup_node path2 w1 = Some (File (header :: rest2))) as Hf2'.
  { unfold lookup_node in *. by rewrite Hfiles1. }
  assert (fits "week8_demo" table header (store w1)) as Hfits1.
  { rewrite Hstore1. by apply loaded_fits. }
  destruct (load_csv_to_pg_goes_through faulty Hno conn_id path2 table true
              header rest2 w1 Hf2' Hne2 Hplain Hfits1) as (w2 & Hrun2 & Hstore2 & _).
  rewrite length_fmap in Hrun1, Hrun2.
  eexists w1, w2, _, _. split; [exact Hrun1|]. split; [exact Hrun2|].
  rewrite Hstore2, Hstore1, !(loaded_plain _ _ _ _ _ Ht Hall).
  cbn [tables]. rewrite !lookup_insert_eq. cbn [columns body].
  split; [reflexivity|]. subst old n1 n2.
  rewrite <- app_assoc. split; [reflexivity|].
  by rewrite length_app, !length_fmap.
Qed.

(** ** [load_csv_to_pg]: names that the server folds *)



Lemma run_inserts_taken (schema table : string) (key : string * string)
    (cols names tcols : list string) (rows : list (list (option string))) :
  qualified schema table = Some key →
  column_list cols = Some names →
  names ≠ [] → NoDup names →
  Forall (λ c, c ∈ tcols) names →
  Forall (λ r, length r = length names) rows →
  ∀ (kept : list (list (option string))) (db : database),
    tables db !! key = Some (Relation tcols kept) →
    is_Some (run_statements (InsertInto schema table cols <$> rows) db).
Proof.
  intros Hkey Hnames Hsome Hnd Hcols.
  induction 1 as [|r rows Hr _ IH]; intros kept db Htb.
  - by eexists.
  - rewrite fmap_cons. cbn [run_statements run_stmt]. rewrite Hkey, Hnames.
    cbn [mbind option_bind]. rewrite Htb. cbn [columns body].
    rewrite !bool_decide_eq_true_2 by done. cbn [andb].
    assert (forallb (λ c, bool_decide (c ∈ tcols)) names = true) as ->.
    { apply forallb_forall. intros c Hc. apply bool_decide_eq_true_2.
      apply (proj1 (Forall_forall _ _) Hcols). by apply list_elem_of_In. }
    cbn [mbind option_bind].
    apply (IH (kept ++ [bound_row names r tcols])). cbn [tables]. apply lookup_insert_eq.
Qed.

(** The statements of a run go through on a server that has no such table
    yet, when the server can read the names and reads them distinct. *)
Lemma run_load_statements_fresh (table : string) (fieldnames : list string)
    (rows : list (list (option string))) (append : bool) (db : database) :
  bare_identifier table = true →
  Forall (λ c, column_name c = true) fieldnames →
  NoDup (folded <$> fieldnames) →
  (0 < length fieldnames ≤ max_columns)%nat →
  tables db !! ("week8_demo", folded table) = None →
  Forall (λ r, length r = length fieldnames) rows →
  is_Some (run_statements (load_statements table fieldnames rows append) db).
Proof.
  intros Hb Hall Hnd Hlen Hnew Hlens.
  assert (qualified "week8_demo" table = Some ("week8_demo", folded table)) as Hkey.
  { unfold qualified. rewrite Hb. reflexivity. }
  assert (column_list fieldnames = Some (folded <$> fieldnames)) as Hnames.
  { unfold column_list.
    assert (forallb column_name fieldnames = true) as ->; [|done].
    apply forallb_forall. intros c Hc.
    apply (proj1 (Forall_forall _ _) Hall). by apply list_elem_of_In. }
  assert (folded <$> fieldnames ≠ []) as Hsome.
  { destruct fieldnames; [simpl in Hlen; lia | done]. }
  unfold load_statements. rewrite run_statements_app.
  cbn [run_statements]. rewrite run_create_schema. cbn [mbind option_bind].
  rewrite run_statements_app. cbn [run_statements run_stmt]. rewrite Hkey, Hnames.
  cbn [mbind option_bind fst schemas tables].
  rewrite bool_decide_eq_true_2 by (apply elem_of_union_l, elem_of_singleton_2; done).
  rewrite Hnew.
  rewrite !bool_decide_eq_true_2 by (done || rewrite length_fmap; lia).
  cbn [andb mbind option_bind]. rewrite run_statements_app.
  assert (Forall (λ c, c ∈ folded <$> fieldnames) (folded <$> fieldnames)) as Hcols.
  { apply Forall_forall. auto. }
  assert (Forall (λ r : list (option string), length r = length (folded <$> fieldnames))
            rows) as Hlens'.
  { eapply Forall_impl; [exact Hlens|]. intros r Hr. by rewrite length_fmap. }
  destruct append; cbn [negb]; cbv iota.
  - cbn [run_statements mbind option_bind].
    eapply (run_inserts_taken "week8_demo" table _ fieldnames);
      [exact Hkey | exact Hnames | exact Hsome | exact Hnd | exact Hcols | exact Hlens' |].
    cbn [tables]. apply lookup_insert_eq.
  - cbn [run_statements run_stmt]. rewrite Hkey. cbn [mbind option_bind tables].
    rewrite lookup_insert_eq. cbn [mbind option_bind columns schemas tables].
    eapply (run_inserts_taken "week8_demo" table _ fieldnames);
      [exact Hkey | exact Hnames | exact Hsome | exact Hnd | exact Hcols | exact Hlens' |].
    cbn [tables]. apply lookup_insert_eq.
Qed.

(** X16.  The names go in unquoted, so the server folds them: with no
    fault, a table name and a header the server can read, the names of the
    header distinct once folded, cells without NUL character and without
    carriage return, and no such table yet, [load_csv_to_pg]
    returns the number of rows and creates the table under the folded
    name, its columns being the names of the header folded to lower case,
    in their order, with one row per record of the file that is not
    blank. *)
Theorem load_csv_to_pg_folds_names
    (faulty : db_op → bool) (conn_id : string) (csv_path : path) (table : string)
    (append : bool) (header : list string) (rest : list csv_record) (w : world) :
  (∀ o, faulty o = false) →
  lookup_node csv_path w = Some (File (header :: rest)) →
  identifier table = true →
  Forall (λ c, column_name c = true) header →
  NoDup (folded <$> header) →
  (0 < length header ≤ sure_columns)%nat →
  without NUL rest → without CR rest →
  filter (λ r, r ≠ []) rest ≠ [] →
  tables (store w) !! ("week8_demo", folded table) = None →
  ∃ w' : world,
    load_csv_to_pg faulty conn_id csv_path table append w
    = (Returned (Z.of_nat (length (filter (λ r, r ≠ []) rest))), w')
    ∧ tables (store w') !! ("week8_demo", folded table)
      = Some (Relation (folded <$> header)
                (stored_row (length header) <$> filter (λ r, r ≠ []) rest)).
Proof.
  intros Hno Hf Hid Hall Hnd Hsure _ _ Hrows Hnew.
  assert (0 < length header ≤ max_columns)%nat as Hlen.
  { split; [apply Hsure|]. etrans; [apply Hsure | apply sure_columns_enough]. }
  assert (bare_identifier table = true) as Hb.
  { unfold identifier in Hid. by apply andb_prop in Hid as [Hid _]. }
  assert (NoDup header) as Hnd0 by (by apply NoDup_fmap_1 in Hnd).
  assert (parameters (header :: rest)
          = stored_row (length header) <$> filter (λ r, r ≠ []) rest) as Hparams.
  { unfold parameters, header_of. cbn [DictReader fst snd].
    change (default [] (Some header)) with header.
    rewrite <- list_fmap_compose. apply list_fmap_ext. intros _ record _. simpl.
    apply (get_or_none_read_row header record Hnd0). }
  destruct (load_csv_to_pg_accepted faulty conn_id csv_path table append
              (header :: rest) w (Hno _) (λ k q, Hno _) (Hno _) Hf)
    as (r & w' & Hrun & Hstore & _ & Hr).
  { rewrite Hparams. by destruct (filter _ rest). }
  { apply run_load_statements_fresh; try done. apply parameters_lengths. }
  rewrite (Hno Close) in Hr. destruct Hr as [-> _].
  rewrite Hparams, length_fmap in Hrun. exists w'. split; [exact Hrun|].
  rewrite Hstore. unfold loaded. change (folded "week8_demo") with "week8_demo".
  change (header_of (header :: rest)) with header.
  rewrite Hnew, Hparams. cbn [tables]. rewrite lookup_insert_eq. do 2 f_equal.
  rewrite app_nil_l, <- list_fmap_compose.
  apply list_fmap_ext. intros _ record _. simpl.
  apply bound_row_same; [done|].
  unfold stored_row. by rewrite !length_fmap, length_seq.
Qed.

(** ** Concrete runs of the loader *)



(** The run that fails at its fourth row leaves the files and no
    connection. *)
Lemma load_leaves_files_witness :
  let run := load_csv_to_pg fourth_row_fails "Postgres"
               (path_join OUTPUT_DIR "merged_data.csv") TARGET_TABLE true
               ten_rows_world in
  files run.2 = files ten_rows_world ∧ link run.2 = None.
Proof.
  intros run.
  destruct (load_csv_to_pg_leaves_files_and_no_connection fourth_row_fails "Postgres"
              (path_join OUTPUT_DIR "merged_data.csv") TARGET_TABLE true
              ten_rows_world run.2 run.1 (surjective_pairing run)) as [Hfiles Hlink].
  split; [exact Hfiles | exact (Hlink eq_refl eq_refl)].
Defined.

(** Ten rows replace two, and [close] fails. *)
Lemma load_close_failure_witness :
  ∃ w' : world,
    load_csv_to_pg close_fails "Postgres" (path_join OUTPUT_DIR "merged_data.csv")
      TARGET_TABLE false ten_rows_world = (Raised DatabaseError, w')
    ∧ row_count TARGET_TABLE (store w') = 10.
Proof.
  destruct (load_csv_to_pg_close_failure_hides_commit close_fails "Postgres"
              (path_join OUTPUT_DIR "merged_data.csv") TARGET_TABLE false
              ten_rows_csv ten_rows_world) as (w' & Hrun & Hstore).
  - reflexivity.
  - intros k q. reflexivity.
  - reflexivity.
  - reflexivity.
  - reflexivity.
  - discriminate.
  - apply (bool_decide_unpack _). vm_compute. exact I.
  - apply (bool_decide_unpack _). vm_compute. exact I.
  - apply (bool_decide_unpack _). vm_compute. exact I.
  - apply (bool_decide_unpack _). vm_compute. exact I.
  - exists w'. split; [exact Hrun|]. rewrite Hstore. vm_compute. reflexivity.
Defined.

(** The ragged file into an empty server. *)
Lemma load_infers_schema_witness :
  ∃ w' : world,
    load_csv_to_pg no_faults "Postgres" (path_join OUTPUT_DIR "merged_data.csv")
      TARGET_TABLE true ragged_world = (Returned 3%Z, w')
    ∧ tables (store w') !! ("week8_demo", TARGET_TABLE)
      = Some (Relation ["a"; "b"; "c"]
                [ [Some "1"; None; Some "3"];
                  [Some "x"; None; None];
                  [Some "p"; Some "q"; Some "r"] ]).
Proof.
  destruct (load_csv_to_pg_infers_schema_and_stores_rows no_faults "Postgres"
              (path_join OUTPUT_DIR "merged_data.csv") TARGET_TABLE true
              ["a"; "b"; "c"] (tail ragged_csv) ragged_world)
    as (w' & Hrun & _ & Htable).
  - intros o. reflexivity.
  - reflexivity.
  - apply (bool_decide_unpack _). vm_compute. exact I.
  - apply (bool_decide_unpack _). vm_compute. exact I.
  - apply (bool_decide_unpack _). vm_compute. exact I.
  - discriminate.
  - reflexivity.
  - exists w'. split; [exact Hrun | exact Htable].
Defined.

(** The ten rows appended twice to the table of two. *)
Lemma load_append_witness :
  ∃ (w1 w2 : world) (tb : relation),
    load_csv_to_pg no_faults "Postgres" (path_join OUTPUT_DIR "merged_data.csv")
      TARGET_TABLE true ten_rows_world = (Returned 10%Z, w1)
    ∧ load_csv_to_pg no_faults "Postgres" (path_join OUTPUT_DIR "merged_data.csv")
        TARGET_TABLE true w1 = (Returned 10%Z, w2)
    ∧ tables (store w2) !! ("week8_demo", TARGET_TABLE) = Some tb
    ∧ length (body tb) = 22.
Proof.
  destruct (load_csv_to_pg_append_adds_up no_faults "Postgres"
              (path_join OUTPUT_DIR "merged_data.csv")
              (path_join OUTPUT_DIR "merged_data.csv") TARGET_TABLE
              ["name"; "note"] (tail ten_rows_csv) (tail ten_rows_csv) ten_rows_world)
    as (w1 & w2 & tb & added & Hrun1 & Hrun2 & Htb & Hbody & Hlen).
  - intros o. reflexivity.
  - reflexivity.
  - reflexivity.
  - discriminate.
  - discriminate.
  - apply (bool_decide_unpack _). vm_compute. exact I.
  - apply (bool_decide_unpack _). vm_compute. exact I.
  - apply (bool_decide_unpack _). vm_compute. exact I.
  - apply (bool_decide_unpack _). vm_compute. exact I.
  - exists w1, w2, tb. split; [exact Hrun1|]. split; [exact Hrun2|].
    split; [exact Htb|]. rewrite Hbody, length_app, Hlen. reflexivity.
Defined.


(** The header [Patient_Name, NOTE] gives the columns [patient_name] and
    [note]. *)
Lemma load_folds_names_witness :
  ∃ w' : world,
    load_csv_to_pg no_faults "Postgres" (path_join OUTPUT_DIR "merged_data.csv")
      TARGET_TABLE true capitals_world = (Returned 2%Z, w')
    ∧ tables (store w') !! ("week8_demo", TARGET_TABLE)
      = Some (Relation ["patient_name"; "note"]
                [ [Some "Ada Byron"; Some "first"];
                  [Some "Alan Turing"; None] ]).
Proof.
  destruct (load_csv_to_pg_folds_names no_faults "Postgres"
              (path_join OUTPUT_DIR "merged_data.csv") TARGET_TABLE true
              ["Patient_Name"; "NOTE"] (tail capitals_csv) capitals_world)
    as (w' & Hrun & Htable).
  - intros o. reflexivity.
  - reflexivity.
  - reflexivity.
  - apply (bool_decide_unpack _). vm_compute. exact I.
  - apply (bool_decide_unpack _). vm_compute. exact I.
  - apply (bool_decide_unpack _). vm_compute. exact I.
  - apply (bool_decide_unpack _). vm_compute. exact I.
  - apply (bool_decide_unpack _). vm_compute. exact I.
  - discriminate.
  - reflexivity.
  - exists w'. split; [exact Hrun | exact Htable].
Defined.

(** ** [merge_csvs]: when it fails *)

Lemma merged_row_missing (p a : dict) :
  ¬ (has_fields patient_fields p ∧ has_fields appointment_fields a) →
  ∃ k, k ∈ patient_fields ++ appointment_fields
       ∧ merged_row p a = Raised (KeyError k).
Proof.
  intros Hmissing. unfold merged_row, dict_item.
  destruct (dict_find "first_name" p) as [v1|] eqn:H1;
    [|exists "first_name"; split; [apply (bool_decide_unpack _); reflexivity | done]].
  destruct (dict_find "last_name" p) as [v2|] eqn:H2;
    [|exists "last_name"; split; [apply (bool_decide_unpack _); reflexivity | done]].
  destruct (dict_find "email" p) as [v3|] eqn:H3;
    [|exists "email"; split; [apply (bool_decide_unpack _); reflexivity | done]].
  destruct (dict_find "blood_type" p) as [v4|] eqn:H4;
    [|exists "blood_type"; split; [apply (bool_decide_unpack _); reflexivity | done]].
  destruct (dict_find "doctor_name" a) as [v5|] eqn:H5;
    [|exists "doctor_name"; split; [apply (bool_decide_unpack _); reflexivity | done]].
  destruct (dict_find "department" a) as [v6|] eqn:H6;
    [|exists "department"; split; [apply (bool_decide_unpack _); reflexivity | done]].
  destruct (dict_find "appointment_date" a) as [v7|] eqn:H7;
    [|exists "appointment_date"; split; [apply (bool_decide_unpack _); reflexivity | done]].
  destruct (dict_find "status" a) as [v8|] eqn:H8;
    [|exists "status"; split; [apply (bool_decide_unpack _); reflexivity | done]].
  destruct (dict_find "consultation_fee" a) as [v9|] eqn:H9;
    [|exists "consultation_fee"; split; [apply (bool_decide_unpack _); reflexivity | done]].
  exfalso. apply Hmissing. unfold has_fields, patient_fields, appointment_fields.
  rewrite !Forall_cons, H1, H2, H3, H4, H5, H6, H7, H8, H9.
  repeat split; by eauto using Forall_nil_2.
Qed.

(** X8.  A missing column is found before anything is written: when the
    first patient and the first appointment do not both carry the fields
    the merge reads (their header lacks a column), [merge_csvs] raises a
    [KeyError] for one of these fields and leaves the world as it was; in
    particular a [merged_data.csv] left by an earlier run is not
    touched. *)
Theorem merge_csvs_missing_field_raises_KeyError
    (patients_path appointments_path : path) (output_dir : string)
    (f1 f2 : list csv_record) (p a : dict) (w : world) :
  lookup_node patients_path w = Some (File f1) →
  lookup_node appointments_path w = Some (File f2) →
  (DictReader f1).2 !! 0 = Some p →
  (DictReader f2).2 !! 0 = Some a →
  ¬ (has_fields patient_fields p ∧ has_fields appointment_fields a) →
  ∃ k : string,
    k ∈ patient_fields ++ appointment_fields
    ∧ merge_csvs patients_path appointments_path output_dir w
      = (Raised (KeyError k), w).
Proof.
  intros Hf1 Hf2 Hp Ha Hmissing.
  destruct (merged_row_missing p a Hmissing) as (k & Hk & Hrow).
  exists k. split; [done|]. unfold merge_csvs.
  rewrite (run_bind_returned _ _ _ _ _ (open_read_run _ _ _ Hf1)).
  rewrite (run_bind_returned _ _ _ _ _ (open_read_run _ _ _ Hf2)).
  rewrite run_bind. unfold lift at 1.
  destruct (DictReader f1).2 as [|p0 ps]; [done|].
  destruct (DictReader f2).2 as [|a0 apps]; [done|].
  simpl in Hp, Ha. injection Hp as ->. injection Ha as ->.
  simpl. unfold item. simpl. by rewrite Hrow.
Qed.

Lemma merge_loop_rows (patients appointments : list dict) (indices : list nat) :
  ∀ merged result : list dict,
    merge_loop indices patients appointments merged = Returned result →
    Forall (λ row, ∃ p a, merged_row p a = Returned row) merged →
    Forall (λ row, ∃ p a, merged_row p a = Returned row) result.
Proof.
  induction indices as [|i indices IH]; intros merged result; simpl.
  - by intros [= <-].
  - unfold item.
    destruct (patients !! i) as [p|]; [|done]. simpl.
    destruct (appointments !! i) as [a|]; [|done]. simpl.
    destruct (merged_row p a) as [row|e] eqn:Hrow; [|done]. simpl.
    intros Hrun Hall. apply (IH _ _ Hrun).
    apply Forall_app. split; [done|]. apply Forall_singleton. by exists p, a.
Qed.

Lemma write_dicts_unopened (p : path) (data : list dict) (w : world) :
  (∀ entries, files w !! p.1 = Some entries → entries !! p.2 = Some Dir) →
  write_dicts p data w = (Raised OSError, w).
Proof.
  intros Hbad. unfold write_dicts. rewrite run_bind. unfold open_write.
  destruct (files w !! p.1) as [entries|]; [|done].
  by rewrite (Hbad entries eq_refl).
Qed.

(** X9.  A merge that fails for a reason of its own leaves no half-written
    file: when [merge_csvs] raises anything but an [OSError] of the file
    system, either the world is as it was, or the error is the
    [IndexError] of the empty case and the only change is that
    [merged_data.csv] is there and empty. *)
Theorem merge_csvs_failure_leaves_no_partial_file
    (patients_path appointments_path : path) (output_dir : string)
    (w w' : world) (e : exn) :
  merge_csvs patients_path appointments_path output_dir w = (Raised e, w') →
  e ≠ OSError →
  w' = w
  ∨ (e = IndexError
     ∧ ∃ entries, files w !! output_dir = Some entries
                  ∧ w' = set_files
                           (<[output_dir := <["merged_data.csv" := File []]> entries]>
                              (files w)) w).
Proof.
  unfold merge_csvs. rewrite run_bind. unfold open_read at 1.
  destruct (lookup_node patients_path w) as [[f1|]|];
    try (intros [= <- <-] _; by left).
  rewrite run_bind. unfold open_read at 1.
  destruct (lookup_node appointments_path w) as [[f2|]|];
    try (intros [= <- <-] _; by left).
  rewrite run_bind. unfold lift at 1.
  destruct (merge_loop _ _ _ _) as [merged|e0] eqn:Hloop;
    [|intros [= <- <-] _; by left].
  rewrite run_bind.
  destruct (files w !! output_dir) as [entries|] eqn:Hdir.
  2: { rewrite write_dicts_unopened; [intros [= <- <-] _; by left|].
       simpl. by rewrite Hdir. }
  assert (entries !! "merged_data.csv" = Some Dir
          ∨ entries !! "merged_data.csv" ≠ Some Dir) as [Hnode|Hnode].
  { destruct (entries !! "merged_data.csv") as [[content|]|]; by auto. }
  { rewrite write_dicts_unopened; [intros [= <- <-] _; by left|].
    simpl. rewrite Hdir. by intros entries0 [= <-]. }
  destruct merged as [|first rest].
  - rewrite (write_dicts_empty (path_join output_dir "merged_data.csv") entries w)
      by done.
    intros [= <- <-] _. right. split; [done|]. by exists entries.
  - apply merge_loop_rows in Hloop; [|apply Forall_nil_2].
    assert (keys first = merged_columns) as Hkeys.
    { apply Forall_cons in Hloop as [(p & a & Hrow) _]. by eapply merged_row_keys. }
    rewrite (write_dicts_run (path_join output_dir "merged_data.csv") first rest
               entries w); [done | done | done |].
    rewrite Hkeys. eapply Forall_impl; [exact Hloop|].
    intros row (p & a & Hrow). by eapply merged_row_writable.
Qed.

(** The patients file has no email column; the merged file of the last run
    stays as it is. *)
Lemma merge_csvs_missing_field_witness :
  ∃ k : string,
    k ∈ patient_fields ++ appointment_fields
    ∧ merge_csvs (path_join OUTPUT_DIR "patients.csv")
        (path_join OUTPUT_DIR "appointments.csv") OUTPUT_DIR no_email_world
      = (Raised (KeyError k), no_email_world).
Proof.
  apply (merge_csvs_missing_field_raises_KeyError
           (path_join OUTPUT_DIR "patients.csv")
           (path_join OUTPUT_DIR "appointments.csv") OUTPUT_DIR
           patients_without_email_csv appointments_csv
           (read_row ["patient_id"; "first_name"; "last_name"; "blood_type"]
              ["p1"; "Ada"; "Byron"; "A+"])
           (read_row (hd [] appointments_csv)
              ["a1"; "Dr. Grace Hopper"; "Cardiology"; "2025-10-20"; "09:30"; "30";
               "scheduled"; "120.5"])
           no_email_world).
  - reflexivity.
  - reflexivity.
  - reflexivity.
  - reflexivity.
  - intros [Hp _]. revert Hp. apply (bool_decide_unpack _). vm_compute. exact I.
Defined.

(** The same failure, seen as a failure: the world is unchanged. *)
Lemma merge_csvs_failure_witness :
  let run := merge_csvs (path_join OUTPUT_DIR "patients.csv")
               (path_join OUTPUT_DIR "appointments.csv") OUTPUT_DIR no_email_world in
  run.1 = Raised (KeyError "email")
  ∧ (run.2 = no_email_world
     ∨ (KeyError "email" = IndexError
        ∧ ∃ entries, files no_email_world !! OUTPUT_DIR = Some entries
                     ∧ run.2 = set_files
                                 (<[OUTPUT_DIR := <["merged_data.csv" := File []]> entries]>
                                    (files no_email_world)) no_email_world)).
Proof.
  intros run.
  assert (run = (Raised (KeyError "email"), run.2)) as Hrun.
  { vm_compute. reflexivity. }
  split; [by rewrite Hrun|].
  apply (merge_csvs_failure_leaves_no_partial_file
           (path_join OUTPUT_DIR "patients.csv")
           (path_join OUTPUT_DIR "appointments.csv") OUTPUT_DIR
           no_email_world run.2 (KeyError "email") Hrun).
  discriminate.
Defined.

(** ** The generating tasks: what they touch, and the addresses *)

Lemma replace_newlines_single_line (s : string) : single_line (replace_newlines s).
Proof.
  unfold single_line. induction s as [|c s IH]; simpl.
  - apply not_elem_of_nil.
  - destruct (Ascii.eqb_spec c "010"%char) as [->|Hne]; simpl.
    + rewrite !not_elem_of_cons. by repeat split.
    + rewrite not_elem_of_cons. split; [congruence | done].
Qed.

Lemma patient_address_run (fake : Faker) (w : world) :
  ∃ d k, patient fake w = (Returned d, set_draws k w)
         ∧ (address_on_one_line d ∧ keys d = patient_columns)
         ∧ dict_to_list patient_columns d = Returned (record_of patient_columns d).
Proof.
  unfold patient. do 9 run_draw.
  eexists _, _. split; [reflexivity|].
  split; [|reflexivity]. split; [|reflexivity].
  eexists. split; [reflexivity|]. apply replace_newlines_single_line.
Qed.

(** The run of a generating task, with the world it leaves. *)
Lemma fetch_run_world (row : M dict) (P : dict → Prop) (cols : list string)
    (output_dir name : string) (quantity : nat) (w : world) :
  (∀ w, ∃ d k, row w = (Returned d, set_draws k w)
               ∧ (P d ∧ keys d = cols)
               ∧ dict_to_list cols d = Returned (record_of cols d)) →
  0 < quantity →
  lookup_node (path_join output_dir name) w ≠ Some Dir →
  ∃ (data : list dict) (k : nat),
    (data ← generate row quantity [];
     _ ← makedirs output_dir;
     _ ← write_dicts (path_join output_dir name) data;
     ret (path_join output_dir name)) w
    = (Returned (path_join output_dir name),
       set_files
         (<[output_dir := <[name := File (cols :: (record_of cols <$> data))]>
                            (default ∅ (files w !! output_dir))]> (files w))
         (set_draws k w))
    ∧ length data = quantity
    ∧ Forall P data.
Proof.
  intros Hrow Hpos Hnode.
  destruct (generate_run row
              (λ d, (P d ∧ keys d = cols)
                    ∧ dict_to_list cols d = Returned (record_of cols d))
              Hrow quantity [] w) as (data & k & Hgen & Hlen & Hall); [done|].
  simpl in Hlen.
  destruct data as [|first rest]; [simpl in Hlen; lia|].
  assert (keys first = cols) as Hkeys.
  { by apply Forall_cons in Hall as [[[_ ?] _] _]. }
  exists (first :: rest), k.
  rewrite (run_bind_returned _ _ _ _ _ Hgen). rewrite run_bind.
  assert (default ∅ (files w !! output_dir) !! name ≠ Some Dir) as Hnode'.
  { unfold lookup_node, path_join in Hnode; simpl in Hnode.
    by destruct (files w !! output_dir). }
  assert (Forall (λ d, dict_to_list (keys first) d = Returned (record_of (keys first) d))
                 (first :: rest)) as Hwritable.
  { rewrite Hkeys. eapply Forall_impl; [exact Hall|]. by intros d [_ ?]. }
  split; [|split; [done|]].
  - unfold makedirs, modify. simpl files.
    destruct (files w !! output_dir) as [entries|] eqn:Hdir; simpl default in *.
    + rewrite run_bind.
      rewrite (write_dicts_run (path_join output_dir name) first rest entries
                 (set_draws k w) Hdir Hnode' Hwritable).
      by rewrite Hkeys.
    + rewrite run_bind.
      rewrite (write_dicts_run (path_join output_dir name) first rest ∅
                 (set_files (<[output_dir := ∅]> (files w)) (set_draws k w)));
        [| simpl; apply lookup_insert_eq | done | done].
      rewrite Hkeys. simpl. by rewrite insert_insert_eq.
  - eapply Forall_impl; [exact Hall|]. by intros d [[? _] _].
Qed.

Lemma lookup_node_other_file (p q : path) (entries : gmap string node) (x : node)
    (w w0 : world) :
  files w0 = files w →
  entries = default ∅ (files w !! q.1) →
  p ≠ q →
  lookup_node p (set_files (<[q.1 := <[q.2 := x]> entries]> (files w)) w0)
  = lookup_node p w.
Proof.
  intros Hfiles -> Hne. unfold lookup_node. simpl.
  destruct (decide (p.1 = q.1)) as [Heq|Hdir].
  - rewrite Heq, lookup_insert_eq. simpl.
    rewrite lookup_insert_ne.
    + by destruct (files w !! q.1).
    + intros Hname. apply Hne. destruct p, q; simpl in *. congruence.
  - by rewrite lookup_insert_ne.
Qed.

(** The complete run of [fetch_patients]. *)
Lemma fetch_patients_run (fake : Faker) (output_dir : string) (quantity : Z) (w : world) :
  (1 ≤ quantity)%Z →
  lookup_node (path_join output_dir "patients.csv") w ≠ Some Dir →
  ∃ (data : list dict) (w' : world),
    fetch_patients fake output_dir quantity w
    = (Returned (path_join output_dir "patients.csv"), w')
    ∧ lookup_node (path_join output_dir "patients.csv") w'
      = Some (File (patient_columns :: (record_of patient_columns <$> data)))
    ∧ length data = Z.to_nat quantity
    ∧ (store w' = store w ∧ link w' = link w ∧ journal w' = journal w)
    ∧ ∀ p, p ≠ path_join output_dir "patients.csv" →
           lookup_node p w' = lookup_node p w.
Proof.
  intros Hq Hp.
  destruct (fetch_run_world (patient fake) patient_shaped patient_columns
              output_dir "patients.csv" (Z.to_nat quantity) w)
    as (data & k & Hrun & Hlen & _); [| lia | done |].
  { intros w0. destruct (patient_run fake w0) as (d & k & Hd & Hshape & Hrec).
    exists d, k. split; [done|]. split; [|done]. split; [done | apply Hshape]. }
  eexists data, _. split; [exact Hrun|]. split; [|split; [done|split; [done|]]].
  - unfold lookup_node, path_join; simpl.
    rewrite lookup_insert_eq; simpl. by rewrite lookup_insert_eq.
  - intros p Hne.
    by apply (lookup_node_other_file p (path_join output_dir "patients.csv")).
Qed.

(** The complete run of [fetch_appointments]. *)
Lemma fetch_appointments_run (fake : Faker) (output_dir : string) (quantity : Z)
    (w : world) :
  (1 ≤ quantity)%Z →
  lookup_node (path_join output_dir "appointments.csv") w ≠ Some Dir →
  ∃ (data : list dict) (w' : world),
    fetch_appointments fake output_dir quantity w
    = (Returned (path_join output_dir "appointments.csv"), w')
    ∧ lookup_node (path_join output_dir "appointments.csv") w'
      = Some (File (appointment_columns :: (record_of appointment_columns <$> data)))
    ∧ length data = Z.to_nat quantity
    ∧ (store w' = store w ∧ link w' = link w ∧ journal w' = journal w)
    ∧ ∀ p, p ≠ path_join output_dir "appointments.csv" →
           lookup_node p w' = lookup_node p w.
Proof.
  intros Hq Hp.
  destruct (fetch_run_world (appointment fake) appointment_shaped appointment_columns
              output_dir "appointments.csv" (Z.to_nat quantity) w)
    as (data & k & Hrun & Hlen & _); [| lia | done |].
  { intros w0. destruct (appointment_run fake w0) as (d & k & Hd & Hshape & Hrec).
    exists d, k. split; [done|]. split; [|done]. split; [done | apply Hshape]. }
  eexists data, _. split; [exact Hrun|]. split; [|split; [done|split; [done|]]].
  - unfold lookup_node, path_join; simpl.
    rewrite lookup_insert_eq; simpl. by rewrite lookup_insert_eq.
  - intros p Hne.
    by apply (lookup_node_other_file p (path_join output_dir "appointments.csv")).
Qed.

(** X10.  The generating tasks touch their own file only: for a quantity of
    at least one, [fetch_patients] and [fetch_appointments] leave the
    server, the connection and the journal as they were, and every path
    other than [patients.csv] (resp. [appointments.csv]) of the output
    folder holds after the run what it held before. *)
Theorem fetch_tasks_touch_their_file_only
    (fake : Faker) (output_dir : string) (quantity : Z) (w : world) :
  (1 ≤ quantity)%Z →
  lookup_node (path_join output_dir "patients.csv") w ≠ Some Dir →
  lookup_node (path_join output_dir "appointments.csv") w ≠ Some Dir →
  (∃ w', fetch_patients fake output_dir quantity w
         = (Returned (path_join output_dir "patients.csv"), w')
         ∧ store w' = store w ∧ link w' = link w ∧ journal w' = journal w
         ∧ ∀ p, p ≠ path_join output_dir "patients.csv" →
                lookup_node p w' = lookup_node p w)
  ∧ (∃ w', fetch_appointments fake output_dir quantity w
           = (Returned (path_join output_dir "appointments.csv"), w')
           ∧ store w' = store w ∧ link w' = link w ∧ journal w' = journal w
           ∧ ∀ p, p ≠ path_join output_dir "appointments.csv" →
                  lookup_node p w' = lookup_node p w).
Proof.
  intros Hq Hp Ha. split.
  - destruct (fetch_patients_run fake output_dir quantity w Hq Hp)
      as (data & w' & Hrun & _ & _ & (Hstore & Hlink & Hjournal) & Hframe).
    by exists w'.
  - destruct (fetch_appointments_run fake output_dir quantity w Hq Ha)
      as (data & w' & Hrun & _ & _ & (Hstore & Hlink & Hjournal) & Hframe).
    by exists w'.
Qed.

(** X11.  Every address written by [fetch_patients] stays on one line: the
    line feeds Faker puts in an address are replaced, so that for a
    quantity of at least one each generated row holds under [address] a
    text without a line feed. *)
Theorem fetch_patients_addresses_on_one_line
    (fake : Faker) (output_dir : string) (quantity : Z) (w : world) :
  (1 ≤ quantity)%Z →
  lookup_node (path_join output_dir "patients.csv") w ≠ Some Dir →
  ∃ (data : list dict) (w' : world),
    fetch_patients fake output_dir quantity w
    = (Returned (path_join output_dir "patients.csv"), w')
    ∧ lookup_node (path_join output_dir "patients.csv") w'
      = Some (File (patient_columns :: (record_of patient_columns <$> data)))
    ∧ Z.of_nat (length data) = quantity
    ∧ ∀ d, d ∈ data →
        ∃ s, dict_find "address" d = Some (PStr s)
             ∧ "010"%char ∉ String.list_ascii_of_string s.
Proof.
  intros Hq Hp.
  destruct (fetch_run (patient fake) address_on_one_line patient_columns
              output_dir "patients.csv" (Z.to_nat quantity) w
              (patient_address_run fake))
    as (data & w' & Hrun & Hfile & Hlen & Hall & _); [lia | done |].
  exists data, w'. split; [exact Hrun|]. split; [exact Hfile|]. split; [lia|].
  intros d Hd. exact (proj1 (Forall_forall _ _) Hall d Hd).
Qed.

(** [fetch_patients] in a folder in use. *)
Lemma fetch_tasks_touch_witness :
  ∃ w', fetch_patients example_faker OUTPUT_DIR 2 busy_world
        = (Returned (path_join OUTPUT_DIR "patients.csv"), w')
        ∧ store w' = two_old_rows
        ∧ lookup_node (path_join OUTPUT_DIR "appointments.csv") w'
          = Some (File appointments_csv)
        ∧ lookup_node (path_join "/tmp" "patients.csv") w' = Some (File [["elsewhere"]]).
Proof.
  destruct (fetch_tasks_touch_their_file_only example_faker OUTPUT_DIR 2 busy_world)
    as [(w' & Hrun & Hstore & _ & _ & Hframe) _].
  - lia.
  - discriminate.
  - discriminate.
  - exists w'. split; [exact Hrun|]. split; [exact Hstore|]. split.
    + rewrite Hframe; [reflexivity | discriminate].
    + rewrite Hframe; [reflexivity | discriminate].
Defined.

(** The addresses of the example Faker have a line feed. *)
Lemma fetch_patients_addresses_witness :
  ¬ single_line (address example_faker 0)
  ∧ ∃ (data : list dict) (w' : world),
      fetch_patients example_faker OUTPUT_DIR 3 fresh_world
      = (Returned (path_join OUTPUT_DIR "patients.csv"), w')
      ∧ Z.of_nat (length data) = 3%Z
      ∧ ∀ d, d ∈ data → address_on_one_line d.
Proof.
  split.
  - intros H. apply H. apply (bool_decide_unpack _). vm_compute. exact I.
  - destruct (fetch_patients_addresses_on_one_line example_faker OUTPUT_DIR 3
                fresh_world) as (data & w' & Hrun & _ & Hlen & Hall).
    + lia.
    + discriminate.
    + exists data, w'. split; [exact Hrun|]. split; [exact Hlen | exact Hall].
Defined.

(** ** [cleanup_folder]: the suffix, and a second run *)

Lemma substring_whole (s : string) : String.substring 0 (String.length s) s = s.
Proof. induction s as [|c s IH]; simpl; [done | by f_equal]. Qed.

Lemma substring_split (s : string) (k : nat) :
  (k ≤ String.length s)%nat →
  s = String.substring 0 k s +:+ String.substring k (String.length s - k) s.
Proof.
  revert k. induction s as [|c s IH]; intros k Hk; simpl in *.
  - by destruct k.
  - destruct k as [|k]; simpl.
    + by rewrite substring_whole.
    + rewrite (IH k) at 1 by lia. reflexivity.
Qed.

Lemma substring_suffix (stem suffix : string) :
  String.substring (String.length stem) (String.length suffix) (stem +:+ suffix)
  = suffix.
Proof.
  induction stem as [|c stem IH]; [apply substring_whole | exact IH].
Qed.

Lemma string_length_app (s1 s2 : string) :
  String.length (s1 +:+ s2) = String.length s1 + String.length s2.
Proof.
  induction s1 as [|c s1 IH]; [done|].
  change (S (String.length (s1 +:+ s2)) = S (String.length s1 + String.length s2)).
  by rewrite IH.
Qed.

Lemma endswith_spec (s suffix : string) :
  endswith s suffix = true ↔ ∃ stem, s = stem +:+ suffix.
Proof.
  unfold endswith. rewrite andb_true_iff, Nat.leb_le. split.
  - intros [Hlen Heq]. apply String.eqb_eq in Heq.
    exists (String.substring 0 (String.length s - String.length suffix) s).
    pose proof (substring_split s (String.length s - String.length suffix)
                  ltac:(lia)) as Hsplit.
    replace (String.length s - (String.length s - String.length suffix))
      with (String.length suffix) in Hsplit by lia.
    by rewrite Heq in Hsplit.
  - intros [stem ->]. rewrite string_length_app. split; [lia|].
    replace (String.length stem + String.length suffix - String.length suffix)
      with (String.length stem) by lia.
    rewrite substring_suffix. apply String.eqb_refl.
Qed.

(** X12.  The suffix test of [cleanup_folder] is a test on the end of the
    name: on an existing folder, a regular file is gone after the run
    exactly when its name is some text followed by [.csv] (the bare name
    [.csv] included; an upper-case [.CSV] or a [.csv] in the middle of
    the name does not count). *)
Theorem cleanup_folder_removes_names_ending_in_csv
    (folder : string) (entries : gmap string node) (w : world) :
  files w !! folder = Some entries →
  ∃ kept : gmap string node,
    cleanup_folder folder w
    = (Returned (), set_files (<[folder := kept]> (files w)) w)
    ∧ ∀ (filename : string) (content : list csv_record),
        entries !! filename = Some (File content) →
        (kept !! filename = None ↔ ∃ stem, filename = stem +:+ ".csv")
        ∧ (kept !! filename = Some (File content)
           ↔ ¬ ∃ stem, filename = stem +:+ ".csv").
Proof.
  intros Hdir. exists (foldl sweep entries (map_to_list entries).*1). split.
  - unfold cleanup_folder. rewrite run_bind. unfold listdir. rewrite Hdir.
    by apply cleanup_loop.
  - intros filename content Hfile. rewrite foldl_sweep_lookup.
    rewrite decide_True.
    + unfold after_cleanup. rewrite Hfile, <- endswith_spec.
      destruct (endswith filename ".csv"); split; split; done.
    + apply list_elem_of_fmap. exists (filename, File content). split; [done|].
      by apply elem_of_map_to_list.
Qed.

Lemma swept_file_is_no_csv (entries : gmap string node) (filename : string)
    (content : list csv_record) :
  foldl sweep entries (map_to_list entries).*1 !! filename = Some (File content) →
  endswith filename ".csv" = false.
Proof.
  rewrite foldl_sweep_lookup. destruct (decide _) as [_|Hout].
  - unfold after_cleanup. destruct (entries !! filename) as [[content'|]|]; try done.
    by destruct (endswith filename ".csv").
  - intros Hfile. exfalso. apply Hout.
    apply list_elem_of_fmap. exists (filename, File content). split; [done|].
    by apply elem_of_map_to_list.
Qed.

(** X13.  A second run of [cleanup_folder] finds nothing to do: on an
    existing folder the task returns, and run again on the world it left
    it returns and leaves that world as it is. *)
Theorem cleanup_folder_twice
    (folder : string) (entries : gmap string node) (w : world) :
  files w !! folder = Some entries →
  ∃ w1 : world,
    cleanup_folder folder w = (Returned (), w1)
    ∧ cleanup_folder folder w1 = (Returned (), w1).
Proof.
  intros Hdir.
  set (kept := foldl sweep entries (map_to_list entries).*1).
  exists (set_files (<[folder := kept]> (files w)) w).
  assert (∀ ks, cleanup_folder folder
                  (set_files (<[folder := ks]> (files w)) w)
                = (Returned (),
                   set_files (<[folder := foldl sweep ks (map_to_list ks).*1]>
                                (files w)) w)) as Hrun.
  { intros ks. unfold cleanup_folder. rewrite run_bind. unfold listdir.
    simpl files. rewrite lookup_insert_eq.
    rewrite (cleanup_loop folder _ ks) by (simpl; apply lookup_insert_eq).
    simpl. by rewrite set_files_twice, insert_insert_eq. }
  split.
  - rewrite <- (set_files_same folder entries w Hdir) at 1. apply Hrun.
  - rewrite Hrun. do 3 f_equal. apply map_eq. intros filename.
    rewrite foldl_sweep_lookup. destruct (decide _) as [_|_]; [|done].
    unfold after_cleanup.
    destruct (kept !! filename) as [[content|]|] eqn:Hkept; try done.
    by rewrite (swept_file_is_no_csv entries filename content Hkept).
Qed.

(** The cluttered folder: what goes and what stays, by the end of the
    name. *)
Lemma cleanup_folder_suffix_witness :
  ∃ kept : gmap string node,
    cleanup_folder OUTPUT_DIR cluttered_world
    = (Returned (),
       set_files (<[OUTPUT_DIR := kept]> (files cluttered_world)) cluttered_world)
    ∧ (kept !! "patients.csv" = None ↔ ∃ stem, "patients.csv" = stem +:+ ".csv")
    ∧ (kept !! "notes.csv.bak" = Some (File [["keep"]])
       ↔ ¬ ∃ stem, "notes.csv.bak" = stem +:+ ".csv").
Proof.
  destruct (cleanup_folder_removes_names_ending_in_csv OUTPUT_DIR cluttered_entries
              cluttered_world eq_refl) as (kept & Hrun & Hkept).
  exists kept. split; [exact Hrun|]. split.
  - exact (proj1 (Hkept "patients.csv" patients_csv eq_refl)).
  - exact (proj2 (Hkept "notes.csv.bak" [["keep"]] eq_refl)).
Defined.

(** The cluttered folder cleaned twice. *)
Lemma cleanup_folder_twice_witness :
  ∃ w1 : world,
    cleanup_folder OUTPUT_DIR cluttered_world = (Returned (), w1)
    ∧ cleanup_folder OUTPUT_DIR w1 = (Returned (), w1).
Proof.
  exact (cleanup_folder_twice OUTPUT_DIR cluttered_entries cluttered_world eq_refl).
Defined.

(** ** The ETL task group *)

Lemma records_not_blank (cols : list string) (data : list dict) :
  cols ≠ [] →
  filter (λ r : list string, r ≠ []) (record_of cols <$> data) = record_of cols <$> data.
Proof.
  intros Hne. induction data as [|d data IH]; [done|].
  rewrite fmap_cons, filter_cons_True; [f_equal; exact IH|].
  unfold record_of. by destruct cols.
Qed.

Lemma written_rows_read (cols : list string) (data : list dict) :
  cols ≠ [] →
  (DictReader (cols :: (record_of cols <$> data))).2
  = read_row cols <$> (record_of cols <$> data).
Proof.
  intros Hne. unfold DictReader. simpl.
  f_equal. exact (records_not_blank cols data Hne).
Qed.

Lemma read_row_has_fields (fields header : list string) (record : csv_record) :
  Forall (λ k, k ∈ header) fields → has_fields fields (read_row header record).
Proof.
  unfold has_fields. intros Hall. eapply Forall_impl; [exact Hall|].
  intros k Hk. by apply read_row_has_key.
Qed.

Lemma row_count_loaded (table : string) (fieldnames : list string)
    (rows : list (list (option string))) (db : database) :
  plain_name table = true →
  Forall (λ c, plain_name c = true) fieldnames →
  row_count table (loaded "week8_demo" table fieldnames rows true db)
  = row_count table db + length rows.
Proof.
  intros Ht Hall. rewrite (loaded_plain _ _ _ _ _ Ht Hall).
  unfold row_count. cbn [tables]. rewrite lookup_insert_eq. cbn [body].
  rewrite length_app, length_fmap.
  by destruct (tables db !! ("week8_demo", table)).
Qed.

(** The names of the DAG's own table are plain. *)
Lemma merged_columns_plain : plain_names TARGET_TABLE merged_columns.
Proof. apply (bool_decide_unpack _). vm_compute. exact I. Qed.

(** X14.  The ETL group end to end: with no fault, an output folder in which
    the three file names are not directories, and a destination whose
    table, when it is there, has the eight merged columns, the four tasks
    run in the order of the DAG go through, [load_csv_to_pg] returns 50,
    and the table holds 50 rows more than before. *)
Theorem etl_group_loads_fifty_rows
    (fake : Faker) (faulty : db_op → bool) (w : world) :
  (∀ o, faulty o = false) →
  lookup_node (path_join OUTPUT_DIR "patients.csv") w ≠ Some Dir →
  lookup_node (path_join OUTPUT_DIR "appointments.csv") w ≠ Some Dir →
  lookup_node (path_join OUTPUT_DIR "merged_data.csv") w ≠ Some Dir →
  fits "week8_demo" TARGET_TABLE merged_columns (store w) →
  ∃ w' : world,
    etl_group fake faulty w = (Returned 50%Z, w')
    ∧ row_count TARGET_TABLE (store w') = row_count TARGET_TABLE (store w) + 50.
Proof.
  intros Hno Hp Ha Hm Hfits. unfold etl_group.
  (* fetch_patients *)
  destruct (fetch_patients_run fake OUTPUT_DIR 50 w ltac:(lia) Hp)
    as (data1 & w1 & Hrun1 & Hfile1 & Hlen1 & (Hstore1 & Hlink1 & _) & Hframe1).
  rewrite (run_bind_returned _ _ _ _ _ Hrun1).
  (* fetch_appointments *)
  destruct (fetch_appointments_run fake OUTPUT_DIR 50 w1 ltac:(lia))
    as (data2 & w2 & Hrun2 & Hfile2 & Hlen2 & (Hstore2 & Hlink2 & _) & Hframe2).
  { by rewrite Hframe1. }
  rewrite (run_bind_returned _ _ _ _ _ Hrun2).
  (* merge_csvs *)
  assert (lookup_node (path_join OUTPUT_DIR "patients.csv") w2
          = Some (File (patient_columns :: (record_of patient_columns <$> data1))))
    as Hfile1'.
  { by rewrite Hframe2. }
  assert (lookup_node (path_join OUTPUT_DIR "merged_data.csv") w2 ≠ Some Dir) as Hm2.
  { by rewrite Hframe2, Hframe1. }
  assert (∃ entries, files w2 !! OUTPUT_DIR = Some entries) as [entries Hdir].
  { unfold lookup_node in Hfile2. simpl in Hfile2.
    destruct (files w2 !! OUTPUT_DIR) as [entries|]; [by eexists | done]. }
  assert (entries !! "merged_data.csv" ≠ Some Dir) as Hnode.
  { unfold lookup_node in Hm2. simpl in Hm2. by rewrite Hdir in Hm2. }
  assert (patient_columns ≠ []) as Hpc by done.
  assert (appointment_columns ≠ []) as Hac by done.
  destruct (merge_csvs_run (path_join OUTPUT_DIR "patients.csv")
              (path_join OUTPUT_DIR "appointments.csv") OUTPUT_DIR _ _ entries w2
              Hfile1' Hfile2 Hdir Hnode) as (merged & Hmerged & Hrun3).
  { rewrite (written_rows_read _ _ Hpc). destruct data1; [simpl in Hlen1; lia | done]. }
  { rewrite (written_rows_read _ _ Hac). destruct data2; [simpl in Hlen2; lia | done]. }
  { intros i p a. rewrite (written_rows_read _ _ Hpc), (written_rows_read _ _ Hac).
    rewrite !list_lookup_fmap.
    destruct (data1 !! i) as [d1|]; [|done]. destruct (data2 !! i) as [d2|]; [|done].
    simpl. intros [= <-] [= <-]. split; apply read_row_has_fields;
      apply (bool_decide_unpack _); reflexivity. }
  rewrite (run_bind_returned _ _ _ _ _ Hrun3).
  assert (length merged = Z.to_nat 50) as Hlen3.
  { rewrite <- (Forall2_length _ _ _ Hmerged), length_zip_with.
    rewrite (written_rows_read _ _ Hpc), (written_rows_read _ _ Hac).
    rewrite !length_fmap. lia. }
  (* load_csv_to_pg *)
  assert (merged_columns ≠ []) as Hmc by done.
  destruct (load_csv_to_pg_goes_through faulty Hno "Postgres"
              (path_join OUTPUT_DIR "merged_data.csv") TARGET_TABLE true
              merged_columns (record_of merged_columns <$> merged)
              (set_files
                 (<[OUTPUT_DIR :=
                      <["merged_data.csv" :=
                          File (merged_columns :: (record_of merged_columns <$> merged))]>
                        entries]> (files w2)) w2))
    as (w4 & Hrun4 & Hstore4 & _).
  { unfold lookup_node, path_join; simpl.
    rewrite lookup_insert_eq; simpl. by rewrite lookup_insert_eq. }
  { rewrite (written_rows_read _ _ Hmc). destruct merged; [simpl in Hlen3; lia | done]. }
  { exact merged_columns_plain. }
  { simpl store. by rewrite Hstore2, Hstore1. }
  exists w4. rewrite (written_rows_read _ _ Hmc), !length_fmap, Hlen3 in Hrun4.
  split; [exact Hrun4|].
  rewrite Hstore4, row_count_loaded
    by (destruct merged_columns_plain as (Ht & Hall & _); done).
  simpl store. rewrite Hstore2, Hstore1.
  rewrite (written_rows_read _ _ Hmc), !length_fmap, Hlen3. reflexivity.
Qed.

(** The ETL group on an empty world. *)
Lemma etl_group_witness :
  ∃ w' : world,
    etl_group example_faker no_faults fresh_world = (Returned 50%Z, w')
    ∧ row_count TARGET_TABLE (store w') = 50.
Proof.
  apply (etl_group_loads_fifty_rows example_faker no_faults fresh_world).
  - intros o. reflexivity.
  - discriminate.
  - discriminate.
  - discriminate.
  - exact I.
Defined.
